(** * The multi-platform build orchestrator of atomic-reactor

    A shallow embedding of [atomic_reactor/plugins/build_orchestrate_build.py]
    and the properties its specification states about it.

    Conventions of the embedding:
    - a [datetime] is the number of microseconds since the Unix epoch and a
      [timedelta] a number of microseconds, both in [Z] (Python's [datetime]
      has microsecond resolution and unbounded-enough range);
    - Python integers are [Z]; the quotient [current_builds /
      max_concurrent_builds] (true division of two integers) is the exact
      rational in [Q], of which the code has the nearest float;
    - a [dict] with string keys is a [gmap string _], a [set] of strings a
      [gset string]; dictionaries that the code copies and mutates live in a
      store, so that aliasing is visible;
    - code that talks to the outside world (clock, sleep, cluster clients)
      runs in a state-and-exception monad over an environment that answers
      every interaction. *)

From Stdlib Require Import ZArith QArith Qminmax Sorted Permutation Ascii.
From stdpp Require Import base tactics option list strings gmap fin_maps sets.

#[local] Set Warnings "-clear-no-such-hyp".

Local Open Scope string_scope.
Local Open Scope Z_scope.

(* ===================================================================== *)
(** * Part I. The model                                                   *)
(* ===================================================================== *)

(** ** Dates and durations *)

Definition datetime := Z.
Definition timedelta := Z.

Definition MICROSECONDS_PER_SECOND : Z := 1000000.
Definition SECONDS_PER_DAY : Z := 86400.

(** [dt.datetime.utcfromtimestamp(0)] *)
Definition utcfromtimestamp_0 : datetime := 0.

(** [timedelta(seconds=n)] for a whole number of seconds. *)
Definition timedelta_of_seconds (n : Z) : timedelta := n * MICROSECONDS_PER_SECOND.

(** The [.seconds] attribute of a [timedelta]: Python normalises a duration
    into days, seconds (0 <= seconds < 86400) and microseconds
    (0 <= microseconds < 10^6); [.seconds] is the middle component. *)
Definition td_seconds (td : timedelta) : Z :=
  (td `div` MICROSECONDS_PER_SECOND) `mod` SECONDS_PER_DAY.

(** [.total_seconds()], rounded down to a whole number of seconds. *)
Definition td_whole_seconds (td : timedelta) : Z := td `div` MICROSECONDS_PER_SECOND.

(** ** Exceptions

    Only subclasses of [Exception] are modelled; [OtherException] stands for
    any class that is neither [OsbsException] nor one the plugin defines or
    raises itself. *)

Inductive exn :=
| OsbsException (msg : string)
| AllClustersFailedException (msg : string)
| UnknownPlatformException (msg : string)
| KeyError (key : string)
| ZeroDivisionError
| OtherException (what : string).

Definition is_OsbsException (e : exn) : bool :=
  match e with OsbsException _ => true | _ => false end.

Definition is_AllClustersFailedException (e : exn) : bool :=
  match e with AllClustersFailedException _ => true | _ => false end.

(** [repr(ex)] *)
Definition repr_exn (e : exn) : string :=
  match e with
  | OsbsException m => "OsbsException('" ++ m ++ "')"
  | AllClustersFailedException m => "AllClustersFailedException('" ++ m ++ "')"
  | UnknownPlatformException m => "UnknownPlatformException('" ++ m ++ "')"
  | KeyError k => "KeyError('" ++ k ++ "')"
  | ZeroDivisionError => "ZeroDivisionError('division by zero')"
  | OtherException w => w ++ "()"
  end.

(** ** ClusterRetryContext *)

Record ClusterRetryContext := mkClusterRetryContext {
  fails : Z;                (* how many times this cluster has failed *)
  retry_at : datetime;      (* datetime at which attempts can resume *)
  max_cluster_fails : Z;    (* fail count at which the cluster is dead *)
}.

(** [ClusterRetryContext.__init__] *)
Definition new_ClusterRetryContext (max_fails : Z) : ClusterRetryContext :=
  {| fails := 0; retry_at := utcfromtimestamp_0; max_cluster_fails := max_fails |}.

(** [ClusterRetryContext.failed] *)
Definition failed (ctx : ClusterRetryContext) : bool :=
  max_cluster_fails ctx <=? fails ctx.

(** ** The earliest retry time of the live clusters *)

(** [min(...)] of a sequence of datetimes; [None] stands for the
    [ValueError] Python raises on an empty sequence. *)
Fixpoint min_datetime (l : list datetime) : option datetime :=
  match l with
  | [] => None
  | x :: l' =>
      match min_datetime l' with
      | None => Some x
      | Some m => Some (Z.min x m)
      end
  end.

(** [ctx.retry_at for ctx in contexts.values() if not ctx.failed] *)
Definition live_retry_ats (contexts : gmap string ClusterRetryContext) : list datetime :=
  retry_at <$> filter (λ ctx, failed ctx = false) (snd <$> map_to_list contexts).

Definition earliest_retry_at (contexts : gmap string ClusterRetryContext) : option datetime :=
  min_datetime (live_retry_ats contexts).

Definition ALL_CLUSTERS_FAILED_MSG : string :=
  "Could not find appropriate cluster for worker build.".

(** ** Clusters, builds and worker build records *)

(** A cluster of the reactor configuration ([ClusterConfig]). *)
Record Cluster := mkCluster {
  name : string;
  priority : Z;
  max_concurrent_builds : Z;
}.

(** [ClusterInfo = namedtuple('ClusterInfo', ('cluster', 'platform', 'osbs',
    'load'))].  The [osbs] client is identified by the configuration
    section it was built for. *)
Record ClusterInfo := mkClusterInfo {
  cluster : Cluster;
  platform : string;
  osbs : string;
  load : Q;
}.

(** The build response objects the cluster client returns. *)
Record Build := mkBuild {
  get_build_name : string;
  is_finished : bool;
  is_succeeded : bool;
}.

(** What [monitor_exception] holds: the exception caught while monitoring,
    or the [repr] string stored in the sentinel record. *)
Inductive monitor_value :=
| MonitorRaised (e : exn)
| MonitorRepr (s : string).

(** [WorkerBuildInfo]; the sentinel record is built from
    [ClusterInfo(None, platform, None, None)], hence the optional cluster
    and client. *)
Record WorkerBuildInfo := mkWorkerBuildInfo {
  build : option Build;
  wb_cluster : option Cluster;
  wb_osbs : option string;
  wb_platform : string;
  monitor_exception : option monitor_value;
}.

(** [WorkerBuildInfo.__init__] on a probed cluster *)
Definition new_WorkerBuildInfo (b : option Build) (ci : ClusterInfo) : WorkerBuildInfo :=
  {| build := b; wb_cluster := Some (cluster ci); wb_osbs := Some (osbs ci);
     wb_platform := platform ci; monitor_exception := None |}.

(** [WorkerBuildInfo.name] *)
Definition wb_name (bi : WorkerBuildInfo) : string :=
  match build bi with Some b => get_build_name b | None => "N/A" end.

(** ** Keyword arguments *)

(** The values a build keyword argument can take. *)
Inductive pyval :=
| PyNone
| PyBool (b : bool)
| PyInt (z : Z)
| PyStr (s : string)
| PyOpaque (id : nat).

Definition pyval_of_option_string (o : option string) : pyval :=
  match o with Some s => PyStr s | None => PyNone end.

(** Truthiness of an optional integer ([if task_id:]). *)
Definition truthy_option_int (o : option Z) : bool :=
  match o with Some z => negb (z =? 0) | None => false end.

(** Dictionary objects are addressed by location. *)
Abbreviation loc := positive.
Abbreviation kwargs_dict := (gmap string pyval).

(** ** The outside world *)

Inductive ext_result (A : Type) : Type :=
| ExtOk (a : A)
| ExtRaise (e : exn).
Arguments ExtOk {A} a.
Arguments ExtRaise {A} e.

(** The environment answers the [n]-th interaction of a run: the reading of
    the clock, and the outcome of every call to a cluster client. *)
Record Env := mkEnv {
  env_now : nat → datetime;
  env_list_builds : nat → string → ext_result Z;
  env_create_worker_build : nat → string → kwargs_dict → ext_result Build;
  env_get_build_logs : nat → string → string → ext_result unit;
  env_wait_for_build_to_finish : nat → string → string → ext_result Build;
  env_cancel_build : nat → string → string → ext_result unit;
}.

(** What a run did to the outside world. *)
Inductive event :=
| EvSleep (seconds : Z)
| EvListBuilds (conf_section : string) (r : ext_result Z)
| EvCreateWorkerBuild (conf_section : string) (kwargs : kwargs_dict) (r : ext_result Build)
| EvGetBuildLogs (conf_section build_name : string) (r : ext_result unit)
| EvWaitForBuildToFinish (conf_section build_name : string) (r : ext_result Build)
| EvCancelBuild (conf_section build_name : string) (r : ext_result unit).

(** The mutable state of a run. *)
Record State := mkState {
  tick : nat;                              (* interactions so far *)
  trace : list event;                      (* oldest first *)
  worker_builds : list WorkerBuildInfo;    (* self.worker_builds *)
  dicts : gmap loc kwargs_dict;            (* the dictionary objects *)
  override_kwargs : option loc;            (* the workspace slot, if set *)
}.

Definition set_worker_builds (wbs : list WorkerBuildInfo) (st : State) : State :=
  {| tick := tick st; trace := trace st; worker_builds := wbs;
     dicts := dicts st; override_kwargs := override_kwargs st |}.

Definition set_dicts (d : gmap loc kwargs_dict) (st : State) : State :=
  {| tick := tick st; trace := trace st; worker_builds := worker_builds st;
     dicts := d; override_kwargs := override_kwargs st |}.

Definition set_override_kwargs (o : option loc) (st : State) : State :=
  {| tick := tick st; trace := trace st; worker_builds := worker_builds st;
     dicts := dicts st; override_kwargs := o |}.

(** One interaction with the outside world, leaving [evs] in the trace. *)
Definition interact (evs : list event) (st : State) : State :=
  {| tick := S (tick st); trace := (trace st ++ evs)%list; worker_builds := worker_builds st;
     dicts := dicts st; override_kwargs := override_kwargs st |}.

(** ** The monad of the plugin's code *)

Inductive outcome (A : Type) : Type :=
| Return (a : A)
| Raise (e : exn)
| Timeout.
Arguments Return {A} a.
Arguments Raise {A} e.
Arguments Timeout {A}.

Definition M (A : Type) : Type := State → outcome A * State.

#[export] Instance M_ret : MRet M := λ A a st, (Return a, st).

#[export] Instance M_bind : MBind M := λ A B f m st,
  match m st with
  | (Return a, st') => f a st'
  | (Raise e, st') => (Raise e, st')
  | (Timeout, st') => (Timeout, st')
  end.

Definition raise {A} (e : exn) : M A := λ st, (Raise e, st).

Definition timeout {A} : M A := λ st, (Timeout, st).

(** [try: m except Exception as e: handler e]; a handler re-raises what its
    clauses do not catch. *)
Definition try_except {A} (m : M A) (handler : exn → M A) : M A := λ st,
  match m st with
  | (Raise e, st') => handler e st'
  | r => r
  end.

Definition get_state : M State := λ st, (Return st, st).

Definition modify_state (f : State → State) : M unit := λ st, (Return (), f st).

(** ** Primitive operations *)

Section primitives.
Context (env : Env).

(** [dt.datetime.now()] *)
Definition datetime_now : M datetime := λ st,
  (Return (env_now env (tick st)), interact [] st).

(** [time.sleep(seconds)] *)
Definition time_sleep (seconds : Z) : M unit := λ st,
  (Return (), interact [EvSleep seconds] st).

(** A call to a cluster client: the environment decides its outcome. *)
Definition client_call {A} (answer : nat → ext_result A) (ev : ext_result A → event) : M A := λ st,
  let r := answer (tick st) in
  let st' := interact [ev r] st in
  match r with
  | ExtOk a => (Return a, st')
  | ExtRaise e => (Raise e, st')
  end.

(** [len(osbs.list_builds(field_selector=...))], client construction
    included *)
Definition get_current_builds (conf_section : string) : M Z :=
  client_call (λ n, env_list_builds env n conf_section) (EvListBuilds conf_section).

(** [osbs.create_worker_build] on the unpacked keyword arguments, with
    retries disabled *)
Definition create_worker_build (conf_section : string) (kwargs : kwargs_dict) : M Build :=
  client_call (λ n, env_create_worker_build env n conf_section kwargs)
              (EvCreateWorkerBuild conf_section kwargs).

(** [for line in osbs.get_build_logs(name, follow=True): log.info(line)] *)
Definition get_build_logs (conf_section build_name : string) : M unit :=
  client_call (λ n, env_get_build_logs env n conf_section build_name)
              (EvGetBuildLogs conf_section build_name).

(** [osbs.wait_for_build_to_finish(name)] *)
Definition wait_for_build_to_finish (conf_section build_name : string) : M Build :=
  client_call (λ n, env_wait_for_build_to_finish env n conf_section build_name)
              (EvWaitForBuildToFinish conf_section build_name).

(** [osbs.cancel_build(name)] *)
Definition osbs_cancel_build (conf_section build_name : string) : M unit :=
  client_call (λ n, env_cancel_build env n conf_section build_name)
              (EvCancelBuild conf_section build_name).

(** *** Dictionary objects *)

(** Allocation of a dictionary object with the given content. *)
Definition new_dict (content : kwargs_dict) : M loc := λ st,
  let l := fresh (dom (dicts st)) in
  (Return l, set_dicts (<[l := content]> (dicts st)) st).

(** Reading a dictionary object; a dangling reference cannot arise in
    Python and is reported as an exception here. *)
Definition read_dict (l : loc) : M kwargs_dict := λ st,
  match dicts st !! l with
  | Some d => (Return d, st)
  | None => (Raise (OtherException "dangling reference"), st)
  end.

Definition write_dict (l : loc) (content : kwargs_dict) : M unit :=
  modify_state (λ st, set_dicts (<[l := content]> (dicts st)) st).

(** [deepcopy(d)]: the values of a keyword dictionary are immutable, so
    a deep copy is a new object with the same content. *)
Definition deepcopy (l : loc) : M loc :=
  d ← read_dict l; new_dict d.

(** [d.pop(k, None)] *)
Definition dict_pop (l : loc) (k : string) : M unit :=
  d ← read_dict l; write_dict l (delete k d).

(** [d[k] = v] *)
Definition dict_setitem (l : loc) (k : string) (v : pyval) : M unit :=
  d ← read_dict l; write_dict l (<[k := v]> d).

(** [d.update(other)]: the entries of [other] replace those of [d]. *)
Definition dict_update (l other : loc) : M unit :=
  d ← read_dict l; o ← read_dict other; write_dict l (o ∪ d).

(** ** ClusterRetryContext, the methods that read the clock *)

(** [ClusterRetryContext.in_retry_wait] *)
Definition in_retry_wait (ctx : ClusterRetryContext) : M bool :=
  now ← datetime_now; mret (now <? retry_at ctx).

(** [ClusterRetryContext.try_again_later(seconds)]; [delay] is
    [timedelta(seconds=seconds)]. *)
Definition try_again_later (delay : timedelta) (ctx : ClusterRetryContext)
    : M ClusterRetryContext :=
  if negb (failed ctx) then
    now ← datetime_now;
    mret {| fails := fails ctx + 1;
            retry_at := now + delay;
            max_cluster_fails := max_cluster_fails ctx |}
  else mret ctx.

(** ** wait_for_any_cluster *)

Definition wait_for_any_cluster (contexts : gmap string ClusterRetryContext) : M unit :=
  match earliest_retry_at contexts with
  | None => raise (AllClustersFailedException ALL_CLUSTERS_FAILED_MSG)
  | Some earliest =>
      now ← datetime_now;
      let time_until_next := earliest - now in
      time_sleep (td_seconds (Z.max 0 time_until_next))
  end.

End primitives.

(** ** Python's [sorted(iterable, key=...)]

    [sorted] is a stable sort: elements with equal keys keep their relative
    order.  Every stable sort computes the same list; this one inserts each
    element in front of the first later element whose key is not smaller. *)

Section sorted.
Context {A K : Type} (key : A → K) (le : K → K → bool).

Fixpoint insert_sorted (x : A) (l : list A) : list A :=
  match l with
  | [] => [x]
  | y :: l' => if le (key x) (key y) then x :: y :: l' else y :: insert_sorted x l'
  end.

Definition sorted (l : list A) : list A := foldr insert_sorted [] l.

(** The order a stable sort leaves: by the sort key first, and among
    elements whose keys are not strictly ordered by the order [R] the
    list had before. *)
Definition key_then (R : A → A → Prop) (a b : A) : Prop :=
  le (key b) (key a) = false ∨ (le (key a) (key b) = true ∧ R a b).

End sorted.

(** [for x in l: s = f(s, x)] *)
Fixpoint foldM {A S : Type} (f : S → A → M S) (s : S) (l : list A) : M S :=
  match l with
  | [] => mret s
  | x :: l' => s' ← f s x; foldM f s' l'
  end.

(** ** The plugin *)

(** The attributes of [OrchestrateBuildPlugin] that the dispatch code
    reads, with what it asks of the workflow: the label-derived release,
    whether the run is a rebuild, and the clusters the reactor
    configuration enables for a platform. *)
Record OrchestrateBuildPlugin := mkOrchestrateBuildPlugin {
  build_kwargs : loc;
  find_cluster_retry_delay : timedelta;
  failure_retry_delay : timedelta;
  plugin_max_cluster_fails : Z;
  koji_upload_dir : string;
  fs_task_id : option Z;
  release : option string;
  is_rebuild : bool;
  get_enabled_clusters_for_platform : string → list Cluster;
}.

Section plugin.
Context (env : Env) (self : OrchestrateBuildPlugin).

(** *** get_cluster_info *)

Definition get_cluster_info (c : Cluster) (plat : string) : M ClusterInfo :=
  current_builds ← get_current_builds env (name c);
  if max_concurrent_builds c =? 0 then raise ZeroDivisionError
  else mret {| cluster := c; platform := plat; osbs := name c;
               load := (inject_Z current_builds / inject_Z (max_concurrent_builds c))%Q |}.

(** *** get_clusters *)

(** The body of [for cluster in sorted(candidates, ...)]: the loop state is
    [possible_cluster_info] (its values, in insertion order) and the retry
    contexts. *)
Definition probe_cluster (plat : string)
    (acc : list ClusterInfo * gmap string ClusterRetryContext) (c : Cluster)
    : M (list ClusterInfo * gmap string ClusterRetryContext) :=
  match acc.2 !! name c with
  | None => raise (KeyError (name c))
  | Some ctx =>
      waiting ← in_retry_wait env ctx;
      if waiting : bool then mret acc
      else if failed ctx then mret acc
      else
        try_except
          (cluster_info ← get_cluster_info c plat;
           mret ((acc.1 ++ [cluster_info])%list, acc.2))
          (λ e, if is_OsbsException e then
                  ctx' ← try_again_later env (find_cluster_retry_delay self) ctx;
                  mret (acc.1, <[name c := ctx']> acc.2)
                else raise e)
  end.

(** [retry_contexts[c.name].failed] for a cluster whose context exists (the
    loop above has looked every candidate up already). *)
Definition context_failed (contexts : gmap string ClusterRetryContext) (c : Cluster) : bool :=
  match contexts !! name c with
  | Some ctx => failed ctx
  | None => false
  end.

(** [while candidates and not possible_cluster_info: ...]; each iteration
    starts with an empty [possible_cluster_info].  The code sorts a [set]
    of the candidates by priority; among candidates of equal priority the
    order is the one the set yields them in, for which the model takes the
    order of the list. *)
Fixpoint get_clusters_loop (fuel : nat) (plat : string)
    (retry_contexts : gmap string ClusterRetryContext) (candidates : list Cluster)
    : M (list ClusterInfo * gmap string ClusterRetryContext) :=
  match fuel with
  | O => timeout
  | S fuel' =>
      match candidates with
      | [] => mret ([], retry_contexts)
      | _ :: _ =>
          _ ← wait_for_any_cluster env retry_contexts;
          acc ← foldM (probe_cluster plat) ([], retry_contexts)
                      (sorted priority Z.leb candidates);
          let candidates' := filter (λ c, context_failed acc.2 c = false) candidates in
          match acc.1 with
          | [] => get_clusters_loop fuel' plat acc.2 candidates'
          | _ :: _ => mret acc
          end
      end
  end.

(** The two [sorted] calls that end [get_clusters]. *)
Definition sort_cluster_infos (possible_cluster_info : list ClusterInfo) : list ClusterInfo :=
  let ret := sorted (λ c, priority (cluster c)) Z.leb possible_cluster_info in
  let ret := sorted load Qle_bool ret in
  ret.

(** [get_clusters] returns the sorted list; the retry contexts are mutable
    objects of the caller, so their new state is returned with it. *)
Definition get_clusters (fuel : nat) (plat : string)
    (retry_contexts : gmap string ClusterRetryContext) (all_clusters : list Cluster)
    : M (list ClusterInfo * gmap string ClusterRetryContext) :=
  acc ← get_clusters_loop fuel plat retry_contexts all_clusters;
  mret (sort_cluster_infos acc.1, acc.2).

End plugin.

Section dispatch.
Context (env : Env) (self : OrchestrateBuildPlugin).

(** *** get_worker_build_kwargs *)

Definition get_worker_build_kwargs (rel : option string) (plat : string)
    (upload_dir : string) (task_id : option Z) : M loc :=
  kwargs ← deepcopy (build_kwargs self);
  _ ← dict_pop kwargs "architecture";
  _ ← dict_setitem kwargs "release" (pyval_of_option_string rel);
  _ ← dict_setitem kwargs "platform" (PyStr plat);
  _ ← dict_setitem kwargs "koji_upload_dir" (PyStr upload_dir);
  _ ← dict_setitem kwargs "is_auto" (PyBool (is_rebuild self));
  _ ← (if truthy_option_int task_id then
         dict_setitem kwargs "filesystem_koji_task_id"
                      (match task_id with Some t => PyInt t | None => PyNone end)
       else mret ());
  mret kwargs.

(** *** The worker build records of [self.worker_builds]

    A record is an object: the list holds a reference to it, and the code
    that appended it goes on to mutate it.  The reference is the position
    in the list. *)

Definition append_worker_build (bi : WorkerBuildInfo) : M nat := λ st,
  (Return (length (worker_builds st)),
   set_worker_builds (worker_builds st ++ [bi])%list st).

Definition read_worker_build (i : nat) : M WorkerBuildInfo := λ st,
  match worker_builds st !! i with
  | Some bi => (Return bi, st)
  | None => (Raise (OtherException "dangling reference"), st)
  end.

Definition write_worker_build (i : nat) (bi : WorkerBuildInfo) : M unit :=
  modify_state (λ st, set_worker_builds (<[i := bi]> (worker_builds st)) st).

(** [self.osbs.<method>] fails with [AttributeError] on the sentinel, whose
    client is [None]. *)
Definition client_of (bi : WorkerBuildInfo) : M string :=
  match wb_osbs bi with
  | Some o => mret o
  | None => raise (OtherException "AttributeError")
  end.

(** [WorkerBuildInfo.watch_logs] *)
Definition watch_logs (i : nat) : M unit :=
  bi ← read_worker_build i;
  o ← client_of bi;
  get_build_logs env o (wb_name bi).

(** [WorkerBuildInfo.wait_to_finish] *)
Definition wait_to_finish (i : nat) : M unit :=
  bi ← read_worker_build i;
  o ← client_of bi;
  b ← wait_for_build_to_finish env o (wb_name bi);
  write_worker_build i
    {| build := Some b; wb_cluster := wb_cluster bi; wb_osbs := wb_osbs bi;
       wb_platform := wb_platform bi; monitor_exception := monitor_exception bi |}.

(** [WorkerBuildInfo.cancel_build] *)
Definition cancel_build (i : nat) : M unit :=
  bi ← read_worker_build i;
  match build bi with
  | Some b =>
      if negb (is_finished b) then
        o ← client_of bi; osbs_cancel_build env o (wb_name bi)
      else mret ()
  | None => mret ()
  end.

(** [build_info.monitor_exception = e] *)
Definition set_monitor_exception (i : nat) (v : monitor_value) : M unit :=
  bi ← read_worker_build i;
  write_worker_build i
    {| build := build bi; wb_cluster := wb_cluster bi; wb_osbs := wb_osbs bi;
       wb_platform := wb_platform bi; monitor_exception := Some v |}.

(** [workspace.get(WORKSPACE_KEY_OVERRIDE_KWARGS, {})] *)
Definition workspace_override_kwargs : M loc :=
  st ← get_state;
  match override_kwargs st with
  | Some l => mret l
  | None => new_dict ∅
  end.

(** *** override_build_kwarg

    [workflow.plugin_workspace.setdefault(key, {}).setdefault(
    WORKSPACE_KEY_OVERRIDE_KWARGS, {})[k] = v]: the override dictionary is
    made when the slot is not set yet. *)
Definition override_build_kwarg (k : string) (v : pyval) : M unit :=
  st ← get_state;
  overrides ← match override_kwargs st with
              | Some l => mret l
              | None =>
                  l ← new_dict ∅;
                  _ ← modify_state (set_override_kwargs (Some l));
                  mret l
              end;
  dict_setitem overrides k v.

(** *** do_worker_build *)

(** The first [try] statement of [do_worker_build] with its [except]
    clauses: the build that was created, or [None]. *)
Definition create_build (cluster_info : ClusterInfo) (overrides : loc) : M (option Build) :=
  try_except
    (kwargs ← get_worker_build_kwargs (release self) (platform cluster_info)
                                      (koji_upload_dir self) (fs_task_id self);
     _ ← dict_update kwargs overrides;
     unpacked ← read_dict kwargs;
     b ← create_worker_build env (osbs cluster_info) unpacked;
     mret (Some b))
    (λ e, if is_OsbsException e then raise e    (* except OsbsException: raise *)
          else mret None).                      (* except Exception: logged *)

(** The [try] statement under [if build_info.build:], with the attempt to
    cancel a build that could not be monitored. *)
Definition monitor_build (build_info : nat) : M unit :=
  try_except
    (_ ← watch_logs build_info; wait_to_finish build_info)
    (λ e,
       _ ← set_monitor_exception build_info (MonitorRaised e);
       try_except (cancel_build build_info)
                  (λ e', if is_OsbsException e' then mret () else raise e')).

Definition do_worker_build (cluster_info : ClusterInfo) : M unit :=
  overrides ← workspace_override_kwargs;
  b ← create_build cluster_info overrides;
  build_info ← append_worker_build (new_WorkerBuildInfo b cluster_info);
  match b with
  | Some _ => monitor_build build_info
  | None => mret ()
  end.

(** *** select_and_start_cluster *)

(** [for cluster_info in possible_cluster_info: ...]: [None] when a worker
    build was started and the function returned, otherwise the retry
    contexts after every creation failed. *)
Fixpoint start_on_first_cluster (possible_cluster_info : list ClusterInfo)
    (retry_contexts : gmap string ClusterRetryContext)
    : M (option (gmap string ClusterRetryContext)) :=
  match possible_cluster_info with
  | [] => mret (Some retry_contexts)
  | cluster_info :: rest =>
      match retry_contexts !! name (cluster cluster_info) with
      | None => raise (KeyError (name (cluster cluster_info)))
      | Some ctx =>
          r ← try_except
                 (_ ← do_worker_build cluster_info; mret None)
                 (λ e, if is_OsbsException e then
                         ctx' ← try_again_later env (failure_retry_delay self) ctx;
                         mret (Some (<[name (cluster cluster_info) := ctx']> retry_contexts))
                       else raise e);
          match r with
          | None => mret None
          | Some retry_contexts' => start_on_first_cluster rest retry_contexts'
          end
      end
  end.

(** The record appended when every cluster has failed. *)
Definition sentinel_WorkerBuildInfo (plat : string) (ex : exn) : WorkerBuildInfo :=
  {| build := None; wb_cluster := None; wb_osbs := None; wb_platform := plat;
     monitor_exception := Some (MonitorRepr (repr_exn ex)) |}.

(** [while True: ...] *)
Fixpoint select_loop (fuel : nat) (plat : string) (clusters : list Cluster)
    (retry_contexts : gmap string ClusterRetryContext) : M unit :=
  match fuel with
  | O => timeout
  | S fuel' =>
      r ← try_except
             (r ← get_clusters env self fuel plat retry_contexts clusters; mret (Some r))
             (λ ex, if is_AllClustersFailedException ex then
                      _ ← append_worker_build (sentinel_WorkerBuildInfo plat ex);
                      mret None
                    else raise ex);
      match r with
      | None => mret ()
      | Some (possible_cluster_info, retry_contexts') =>
          r' ← start_on_first_cluster possible_cluster_info retry_contexts';
          match r' with
          | None => mret ()
          | Some retry_contexts'' => select_loop fuel' plat clusters retry_contexts''
          end
      end
  end.

(** [{cluster.name: ClusterRetryContext(self.max_cluster_fails) for cluster
    in clusters}] *)
Definition new_retry_contexts (clusters : list Cluster) : gmap string ClusterRetryContext :=
  foldl (λ contexts c,
           <[name c := new_ClusterRetryContext (plugin_max_cluster_fails self)]> contexts)
        ∅ clusters.

Definition select_and_start_cluster (fuel : nat) (plat : string) : M unit :=
  let clusters := get_enabled_clusters_for_platform self plat in
  match clusters with
  | [] => raise (UnknownPlatformException ("No clusters found for platform " ++ plat ++ "!"))
  | _ :: _ => select_loop fuel plat clusters (new_retry_contexts clusters)
  end.

End dispatch.


(** ** get_koji_upload_dir *)

(** The text [repr(time.time())]: for a clock between 1970 and the far
    future (a finite float from 0 to below 10^16) Python prints the float
    as decimal digits, a point, and decimal digits, with at least one digit
    on each side.  The float itself is not modelled, its digits are. *)
Inductive digit := D0 | D1 | D2 | D3 | D4 | D5 | D6 | D7 | D8 | D9.

Record float_repr := mkFloatRepr {
  whole_digits : digit * list digit;
  fraction_digits : digit * list digit;
}.

Definition digit_char (d : digit) : ascii :=
  match d with
  | D0 => "0" | D1 => "1" | D2 => "2" | D3 => "3" | D4 => "4"
  | D5 => "5" | D6 => "6" | D7 => "7" | D8 => "8" | D9 => "9"
  end%char.

Definition digits_chars (ds : digit * list digit) : list ascii :=
  digit_char <$> (ds.1 :: ds.2).

(** ['%r' % t] *)
Definition repr_float (t : float_repr) : string :=
  String.string_of_list_ascii (digits_chars (whole_digits t)) ++ "." ++
  String.string_of_list_ascii (digits_chars (fraction_digits t)).

(** [string.ascii_letters] *)
Definition ascii_letters : string :=
  "abcdefghijklmnopqrstuvwxyzABCDEFGHIJKLMNOPQRSTUVWXYZ".

(** [random.choice(seq)] for a non-empty [seq]: the element at the index
    the generator draws; [draw] is any number, taken modulo the length. *)
Definition random_choice (seq : string) (draw : nat) : ascii :=
  let chars := String.list_ascii_of_string seq in
  nth (draw mod length chars) chars "000"%char.

(** [os.path.join(a, b)] on a POSIX system *)
Definition os_path_join (a b : string) : string :=
  match b with
  | String "/"%char _ => b
  | _ =>
      match a with
      | "" => b
      | _ => if String.eqb (String.substring (String.length a - 1) 1 a) "/"
             then a ++ b else a ++ "/" ++ b
      end
  end.

(** [get_koji_upload_dir]: [time_time] is what [time.time()] returns, and
    [draws i] what the random generator draws for the [i]-th letter. *)
Definition get_koji_upload_dir (time_time : float_repr) (draws : nat → nat) : string :=
  let dir_prefix := "koji-upload" in
  let random_chars :=
    String.string_of_list_ascii ((λ i, random_choice ascii_letters (draws i)) <$> seq 0 8) in
  let unique_fragment := repr_float time_time ++ "." ++ random_chars in
  os_path_join dir_prefix unique_fragment.

(** The attributes [__init__] sets: the upload directory is made there,
    once; the task id, the release, the rebuild flag and the clusters are
    read from the workflow. *)
Definition new_OrchestrateBuildPlugin (time_time : float_repr) (draws : nat → nat)
    (kwargs : loc) (find_delay failure_delay : timedelta) (max_fails : Z)
    (task_id : option Z) (rel : option string) (rebuild : bool)
    (clusters : string → list Cluster) : OrchestrateBuildPlugin :=
  {| build_kwargs := kwargs;
     find_cluster_retry_delay := find_delay;
     failure_retry_delay := failure_delay;
     plugin_max_cluster_fails := max_fails;
     koji_upload_dir := get_koji_upload_dir time_time draws;
     fs_task_id := task_id;
     release := rel;
     is_rebuild := rebuild;
     get_enabled_clusters_for_platform := clusters |}.

(** ** Regular expressions

    The patterns of the specification are matched with Brzozowski
    derivatives; [fullmatch r s] is Python's [re.fullmatch], that is a
    search for the pattern between [^] and [$]. *)
Inductive regex :=
| Empty
| Eps
| Class (p : ascii → bool)
| Cat (r1 r2 : regex)
| Alt (r1 r2 : regex)
| Star (r : regex).

Definition Chr (c : ascii) : regex := Class (Ascii.eqb c).

Fixpoint Lit (s : string) : regex :=
  match s with
  | "" => Eps
  | String c s' => Cat (Chr c) (Lit s')
  end.

Definition Opt (r : regex) : regex := Alt r Eps.

Definition Plus (r : regex) : regex := Cat r (Star r).

Fixpoint Times (n : nat) (r : regex) : regex :=
  match n with
  | O => Eps
  | S n' => Cat r (Times n' r)
  end.

Fixpoint nullable (r : regex) : bool :=
  match r with
  | Empty => false
  | Eps => true
  | Class _ => false
  | Cat r1 r2 => nullable r1 && nullable r2
  | Alt r1 r2 => nullable r1 || nullable r2
  | Star _ => true
  end.

Fixpoint derive (c : ascii) (r : regex) : regex :=
  match r with
  | Empty => Empty
  | Eps => Empty
  | Class p => if p c then Eps else Empty
  | Cat r1 r2 =>
      if nullable r1 then Alt (Cat (derive c r1) r2) (derive c r2)
      else Cat (derive c r1) r2
  | Alt r1 r2 => Alt (derive c r1) (derive c r2)
  | Star r1 => Cat (derive c r1) (Star r1)
  end.

Fixpoint matches_chars (r : regex) (s : list ascii) : bool :=
  match s with
  | [] => nullable r
  | c :: s' => matches_chars (derive c r) s'
  end.

Definition fullmatch (r : regex) (s : string) : bool :=
  matches_chars r (String.list_ascii_of_string s).

(** The words of a regular expression. *)
Inductive in_language : regex → list ascii → Prop :=
| in_Eps : in_language Eps []
| in_Class (p : ascii → bool) (c : ascii) : p c = true → in_language (Class p) [c]
| in_Cat (r1 r2 : regex) (s1 s2 : list ascii) :
    in_language r1 s1 → in_language r2 s2 → in_language (Cat r1 r2) (s1 ++ s2)%list
| in_Alt_l (r1 r2 : regex) (s : list ascii) : in_language r1 s → in_language (Alt r1 r2) s
| in_Alt_r (r1 r2 : regex) (s : list ascii) : in_language r2 s → in_language (Alt r1 r2) s
| in_Star_nil (r : regex) : in_language (Star r) []
| in_Star_app (r : regex) (s1 s2 : list ascii) :
    in_language r s1 → in_language (Star r) s2 → in_language (Star r) (s1 ++ s2)%list.

(** [\d] and [[A-Za-z]] on ASCII text *)
Definition is_digit (c : ascii) : bool :=
  let n := nat_of_ascii c in (48 <=? n)%nat && (n <=? 57)%nat.

Definition is_ascii_letter (c : ascii) : bool :=
  let n := nat_of_ascii c in
  ((65 <=? n)%nat && (n <=? 90)%nat) || ((97 <=? n)%nat && (n <=? 122)%nat).

(** [^koji-upload/\d+(\.\d+)?\.[A-Za-z]{8}$] *)
Definition KOJI_UPLOAD_DIR_PATTERN : regex :=
  Cat (Lit "koji-upload/")
    (Cat (Plus (Class is_digit))
       (Cat (Opt (Cat (Chr ".") (Plus (Class is_digit))))
          (Cat (Chr ".") (Times 8 (Class is_ascii_letter))))).

(** ** get_platforms *)

(** What [yaml.load] gives for [container.yaml], as far as [get_platforms]
    looks at it: a document that is empty ([None]) or a mapping, whose
    [platforms] key is missing, null, or a mapping with optional [not] and
    [only] entries, each a scalar or a list of scalars. *)
Inductive yaml_scalar :=
| YNull
| YBool (b : bool)
| YInt (z : Z)
| YStr (s : string).

Inductive yaml_node :=
| YScalar (v : yaml_scalar)
| YSeq (l : list yaml_scalar).

Record platforms_mapping := mkPlatformsMapping {
  platforms_not : option yaml_node;     (* [None]: the key is missing *)
  platforms_only : option yaml_node;
}.

Inductive container_yaml :=
| YamlEmpty
| YamlMapping (platforms : option (option platforms_mapping)).

(** [make_list] *)
Definition make_list (value : yaml_node) : list yaml_scalar :=
  match value with
  | YSeq l => l
  | YScalar v => [v]
  end.

(** [d.get(key, [])] *)
Definition get_or_empty_list (entry : option yaml_node) : yaml_node :=
  default (YSeq []) entry.

(** The platform names of a [set(...)] of scalars.  Platforms are strings,
    and a scalar that is not a string equals none of them, so intersecting a
    set of platforms with the set, or subtracting the set from it, only
    looks at these. *)
Definition platform_names (l : list yaml_scalar) : gset string :=
  list_to_set (omap (λ v, match v with YStr s => Some s | _ => None end) l).

(** [get_platforms]: [container] is [None] when the file does not exist.
    The method assigns [self.platforms]; the result is the new value of
    [self.platforms] and the returned set.  A [set(...)] of a list is
    truthy exactly when the list is not empty. *)
Definition get_platforms (self_platforms : gset string) (container : option container_yaml)
    : gset string * gset string :=
  match container with
  | None => (self_platforms, self_platforms ∖ ∅)
  | Some YamlEmpty
  | Some (YamlMapping None)
  | Some (YamlMapping (Some None)) => (self_platforms, self_platforms)
  | Some (YamlMapping (Some (Some data_platforms))) =>
      let excluded_platforms := make_list (get_or_empty_list (platforms_not data_platforms)) in
      let only_platforms := make_list (get_or_empty_list (platforms_only data_platforms)) in
      let self_platforms' :=
        if bool_decide (only_platforms ≠ []) then self_platforms ∩ platform_names only_platforms
        else self_platforms in
      (self_platforms', self_platforms' ∖ platform_names excluded_platforms)
  end.

(* ===================================================================== *)
(** * Notions used to state the properties                                *)
(* ===================================================================== *)

(** The time [wait_for_any_cluster] waits for: the smallest [retry_at] of
    the contexts that are not failed. *)
Definition is_earliest_retry_at (contexts : gmap string ClusterRetryContext)
    (t : datetime) : Prop :=
  (∃ n ctx, contexts !! n = Some ctx ∧ failed ctx = false ∧ retry_at ctx = t) ∧
  (∀ n ctx, contexts !! n = Some ctx → failed ctx = false → t ≤ retry_at ctx).

(** [m] changes the state only within the relation [R]. *)
Definition frame (R : relation State) {A : Type} (m : M A) : Prop :=
  ∀ st, R st (m st).2.

(** [m] fails only in the ways [F] allows: [F (Some e)] for raising [e],
    [F None] for running out of fuel. *)
Definition failure_ok (F : option exn → Prop) {A : Type} (o : outcome A) : Prop :=
  match o with
  | Return _ => True
  | Raise e => F (Some e)
  | Timeout => F None
  end.

Definition fails_only (F : option exn → Prop) {A : Type} (m : M A) : Prop :=
  ∀ st, failure_ok F (m st).1.

(** Only the outside world was touched: the trace has grown and
    interactions were counted, the plugin's own data is as before. *)
Definition world_only (st st' : State) : Prop :=
  worker_builds st' = worker_builds st ∧ dicts st' = dicts st ∧
  override_kwargs st' = override_kwargs st ∧
  trace st `prefix_of` trace st' ∧ (tick st ≤ tick st')%nat.

(** What monitoring the worker build record at position [i] may do: the
    record keeps its platform and client, and its build if it has one; the
    other records and the dictionaries are as before. *)
Definition monitored (i : nat) (st st' : State) : Prop :=
  dicts st' = dicts st ∧ override_kwargs st' = override_kwargs st ∧
  trace st `prefix_of` trace st' ∧ (tick st ≤ tick st')%nat ∧
  length (worker_builds st') = length (worker_builds st) ∧
  (∀ j, j ≠ i → worker_builds st' !! j = worker_builds st !! j) ∧
  (∀ bi, worker_builds st !! i = Some bi →
     ∃ bi', worker_builds st' !! i = Some bi' ∧
       wb_platform bi' = wb_platform bi ∧ wb_osbs bi' = wb_osbs bi ∧
       (is_Some (build bi) → is_Some (build bi'))).

(** Only dictionaries were allocated or written. *)
Definition dicts_only (st st' : State) : Prop :=
  worker_builds st' = worker_builds st ∧ override_kwargs st' = override_kwargs st ∧
  trace st' = trace st ∧ tick st' = tick st.

(** A failure that is an exception other than [OsbsException] (and not
    the exhaustion of the fuel). *)
Definition not_a_client_error (x : option exn) : Prop :=
  ∃ e, x = Some e ∧ is_OsbsException e = false.

(** The outcomes of the creation attempt, in any state. *)
Inductive creation (ci : ClusterInfo) (st : State) : outcome (option Build) → State → Prop :=
| creation_done (b : Build) (kwargs : kwargs_dict) (st' : State) :
    worker_builds st' = worker_builds st → override_kwargs st' = override_kwargs st →
    trace st' = (trace st ++ [EvCreateWorkerBuild (osbs ci) kwargs (ExtOk b)])%list →
    tick st' = S (tick st) →
    creation ci st (Return (Some b)) st'
| creation_swallowed (st' : State) :
    worker_builds st' = worker_builds st → override_kwargs st' = override_kwargs st →
    trace st `prefix_of` trace st' → (tick st ≤ tick st')%nat →
    (∀ c kw b, EvCreateWorkerBuild c kw (ExtOk b) ∈ trace st' →
               EvCreateWorkerBuild c kw (ExtOk b) ∈ trace st) →
    creation ci st (Return None) st'
| creation_client_error (e : exn) (kwargs : kwargs_dict) (st' : State) :
    is_OsbsException e = true →
    worker_builds st' = worker_builds st → override_kwargs st' = override_kwargs st →
    trace st' = (trace st ++ [EvCreateWorkerBuild (osbs ci) kwargs (ExtRaise e)])%list →
    tick st' = S (tick st) →
    creation ci st (Raise e) st'.

(** The outcomes of [do_worker_build], in any state: either the creation
    failed with an [OsbsException], which is raised and leaves
    [worker_builds] alone, or one record was appended; the record has a
    build only if the creation call on this cluster succeeded.  [evs] are
    the events of the call. *)
Inductive worker_build_attempt (ci : ClusterInfo) (st : State)
    : outcome unit → State → Prop :=
| attempt_client_error (e : exn) (kwargs : kwargs_dict) (st' : State) :
    is_OsbsException e = true →
    worker_builds st' = worker_builds st → override_kwargs st' = override_kwargs st →
    trace st' = (trace st ++ [EvCreateWorkerBuild (osbs ci) kwargs (ExtRaise e)])%list →
    tick st' = S (tick st) →
    worker_build_attempt ci st (Raise e) st'
| attempt_recorded (o : outcome unit) (bi : WorkerBuildInfo) (evs : list event) (st' : State) :
    failure_ok not_a_client_error o →
    worker_builds st' = (worker_builds st ++ [bi])%list →
    wb_platform bi = platform ci →
    override_kwargs st' = override_kwargs st →
    trace st' = (trace st ++ evs)%list →
    (is_Some (build bi) →
     ∃ kwargs b, EvCreateWorkerBuild (osbs ci) kwargs (ExtOk b) ∈ evs) →
    worker_build_attempt ci st o st'.

(** What dispatching a platform did to [worker_builds]: nothing
    ([appended = false]), or one record for the platform was appended
    ([appended = true]), which has a build only if a creation call of the
    dispatch succeeded. *)
Inductive dispatched (plat : string) (st : State) : bool → State → Prop :=
| dispatched_nothing (st' : State) :
    worker_builds st' = worker_builds st → override_kwargs st' = override_kwargs st →
    trace st `prefix_of` trace st' →
    dispatched plat st false st'
| dispatched_one (bi : WorkerBuildInfo) (evs : list event) (st' : State) :
    worker_builds st' = (worker_builds st ++ [bi])%list →
    wb_platform bi = plat →
    override_kwargs st' = override_kwargs st →
    trace st' = (trace st ++ evs)%list →
    (is_Some (build bi) →
     ∃ c kwargs b, EvCreateWorkerBuild c kwargs (ExtOk b) ∈ evs) →
    dispatched plat st true st'.

(** The outcome of dispatching a platform, by the way the call ends: a
    normal return has appended exactly one record, running out of fuel
    none, and an exception at most one. *)
Definition dispatch_outcome {A : Type} (plat : string) (st : State)
    (returned : A → bool) (o : outcome A) (st' : State) : Prop :=
  match o with
  | Return a => dispatched plat st (returned a) st'
  | Raise _ => ∃ appended, dispatched plat st appended st'
  | Timeout => dispatched plat st false st'
  end.

(** The content of the dictionary that [get_worker_build_kwargs] returns,
    for the base keyword arguments [base]. *)
Definition worker_build_kwargs_content (base : kwargs_dict) (rel : option string)
    (plat upload_dir : string) (rebuild : bool) (task_id : option Z) : kwargs_dict :=
  let computed :=
    <["is_auto" := PyBool rebuild]>
      (<["koji_upload_dir" := PyStr upload_dir]>
         (<["platform" := PyStr plat]>
            (<["release" := pyval_of_option_string rel]>
               (delete "architecture" base)))) in
  match task_id with
  | Some t => if t =? 0 then computed else <["filesystem_koji_task_id" := PyInt t]> computed
  | None => computed
  end.

(** The content of the workspace's override dictionary: empty when the
    slot is not set. *)
Definition override_kwargs_content (st : State) : option kwargs_dict :=
  match override_kwargs st with
  | Some l => dicts st !! l
  | None => Some ∅
  end.

(** The order the specification states for the selector's output: by
    ascending priority, and by ascending load among equal priorities. *)
Definition by_priority_then_load (a b : ClusterInfo) : Prop :=
  priority (cluster a) < priority (cluster b) ∨
  (priority (cluster a) = priority (cluster b) ∧ (load a <= load b)%Q).

(** The order with the two keys exchanged: by ascending load, and by
    ascending priority among equal loads. *)
Definition by_load_then_priority (a b : ClusterInfo) : Prop :=
  (load a < load b)%Q ∨
  ((load a == load b)%Q ∧ priority (cluster a) ≤ priority (cluster b)).

(** ** Notions for the termination of the dispatch *)

(** The failures a context can still count before it is dead. *)
Definition remaining_fails (ctx : ClusterRetryContext) : nat :=
  Z.to_nat (max_cluster_fails ctx - fails ctx).

(** The failures all contexts together can still count. *)
Definition budget (contexts : gmap string ClusterRetryContext) : nat :=
  map_fold (λ _ ctx acc, (remaining_fails ctx + acc)%nat) 0%nat contexts.

(** Every reading of the clock is later than the one before. *)
Definition clock_advances (env : Env) : Prop :=
  ∀ n, env_now env n < env_now env (S n).

(** No context asks to wait longer than [D] from the [t]-th interaction
    on. *)
Definition retry_bounded (env : Env) (D : Z) (contexts : gmap string ClusterRetryContext)
    (t : nat) : Prop :=
  ∀ n ctx, contexts !! n = Some ctx → retry_at ctx ≤ env_now env t + D.

(** The contexts are those of the clusters. *)
Definition contexts_of (clusters : list Cluster) (contexts : gmap string ClusterRetryContext)
    : Prop :=
  (∀ c, c ∈ clusters → is_Some (contexts !! name c)) ∧
  (∀ n, is_Some (contexts !! n) → ∃ c, c ∈ clusters ∧ name c = n).

Section termination_notions.
Context (env : Env) (D : Z).

(** What a round of probing leaves behind, from the contexts [contexts0]
    and the values [possible0] already collected: either some context has
    counted a failure, or the contexts are as before, the new values are of
    clusters whose context is live, and, when there is no new value, every
    candidate was skipped because its context is dead or still waiting. *)
Definition probing_round (contexts0 : gmap string ClusterRetryContext)
    (possible0 : list ClusterInfo) (cs : list Cluster) (st : State)
    (acc' : list ClusterInfo * gmap string ClusterRetryContext) (st' : State) : Prop :=
  (∀ n, is_Some (acc'.2 !! n) ↔ is_Some (contexts0 !! n)) ∧
  (tick st ≤ tick st')%nat ∧
  (retry_bounded env D contexts0 (tick st) → retry_bounded env D acc'.2 (tick st')) ∧
  (∀ n ctx, contexts0 !! n = Some ctx → failed ctx = true → acc'.2 !! n = Some ctx) ∧
  ((budget acc'.2 < budget contexts0)%nat ∨
   (acc'.2 = contexts0 ∧ ∃ new, acc'.1 = (possible0 ++ new)%list ∧
      (∀ ci, ci ∈ new → context_failed contexts0 (cluster ci) = false) ∧
      (new = [] → ∀ c, c ∈ cs → ∃ ctx t, contexts0 !! name c = Some ctx ∧
         (failed ctx = true ∨ ((tick st ≤ t)%nat ∧ env_now env t < retry_at ctx))))).

(** How long the contexts make the selector wait, from the [t]-th
    interaction on. *)
Definition wait_left (contexts : gmap string ClusterRetryContext) (t : nat) : nat :=
  match earliest_retry_at contexts with
  | Some e => Z.to_nat (e - env_now env t)
  | None => 0
  end.

(** The measure of the probing loop: it decreases in every round that
    does not end the loop. *)
Definition selector_measure (contexts : gmap string ClusterRetryContext) (t : nat) : nat :=
  (budget contexts * S (Z.to_nat D) + wait_left contexts t)%nat.

Context (clusters : list Cluster).

(** What the probing loop returns. *)
Definition selector_result (contexts : gmap string ClusterRetryContext) (st : State)
    (acc : list ClusterInfo * gmap string ClusterRetryContext) (st' : State) : Prop :=
  contexts_of clusters acc.2 ∧ (tick st ≤ tick st')%nat ∧
  retry_bounded env D acc.2 (tick st') ∧
  ((budget acc.2 < budget contexts)%nat ∨
   (acc.2 = contexts ∧ ∀ ci, ci ∈ acc.1 → context_failed contexts (cluster ci) = false)) ∧
  (acc.1 = [] → budget acc.2 = 0%nat).

(** Fuel that lets the dispatch end when the contexts can count at most
    [b] more failures. *)
Definition enough_fuel (b : nat) : nat := (S b * (Z.to_nat D + 3))%nat.

End termination_notions.

(** ** Notions for the contexts and the platforms *)

(** [n] calls of [try_again_later] in a row, each with its own delay. *)
Definition try_again_later_many (env : Env) (delays : list timedelta)
    (ctx : ClusterRetryContext) : M ClusterRetryContext :=
  foldM (λ c d, try_again_later env d c) ctx delays.

(** ** Notions for the events of a dispatch *)

(** The outcome of [do_worker_build]'s attempt to cancel a build it could
    not monitor, by the answer of the cluster: an [OsbsException] is
    passed over, another exception raised. *)
Definition cancel_outcome (r : ext_result unit) : outcome unit :=
  match r with
  | ExtOk _ => Return ()
  | ExtRaise e => if is_OsbsException e then Return () else Raise e
  end.

(** The new events of a run all satisfy [P]. *)
Definition events_only (P : event → Prop) (st st' : State) : Prop :=
  ∃ evs, trace st' = (trace st ++ evs)%list ∧ Forall P evs.

(** What looking for a cluster does to the outside world: it sleeps for
    less than a day and asks clusters of [names] for their builds. *)
Definition is_probing_event (names : list string) (ev : event) : Prop :=
  match ev with
  | EvSleep seconds => 0 ≤ seconds < SECONDS_PER_DAY
  | EvListBuilds conf_section _ => conf_section ∈ names
  | _ => False
  end.

(** What monitoring a worker build does to the outside world. *)
Definition is_monitoring_event (ev : event) : Prop :=
  match ev with
  | EvGetBuildLogs _ _ _ | EvWaitForBuildToFinish _ _ _ | EvCancelBuild _ _ _ => True
  | _ => False
  end.

(** A call of [create_worker_build] that made a build. *)
Definition is_creation (ev : event) : Prop :=
  match ev with
  | EvCreateWorkerBuild _ _ (ExtOk _) => True
  | _ => False
  end.

(** An answer of a cluster client that is a result or an
    [OsbsException]. *)
Definition client_error_or_result {A : Type} (r : ext_result A) : Prop :=
  match r with
  | ExtOk _ => True
  | ExtRaise e => is_OsbsException e = true
  end.

(** The cluster clients of the environment fail with [OsbsException]
    only. *)
Definition client_errors_only (env : Env) : Prop :=
  (∀ t c, client_error_or_result (env_list_builds env t c)) ∧
  (∀ t c kwargs, client_error_or_result (env_create_worker_build env t c kwargs)) ∧
  (∀ t c n, client_error_or_result (env_get_build_logs env t c n)) ∧
  (∀ t c n, client_error_or_result (env_wait_for_build_to_finish env t c n)) ∧
  (∀ t c n, client_error_or_result (env_cancel_build env t c n)).

(** No build was created, or one was, and from then on the plugin only
    monitored it. *)
Definition no_creation (evs : list event) : Prop :=
  Forall (λ ev, ¬ is_creation ev) evs.

Definition one_creation (evs : list event) : Prop :=
  ∃ pre c kwargs b post,
    evs = (pre ++ EvCreateWorkerBuild c kwargs (ExtOk b) :: post)%list ∧
    no_creation pre ∧ Forall is_monitoring_event post.

(** What a dispatch leaves behind: no build was created and no record
    with a build appended, or one build was created and a record with a
    build appended. *)
Definition dispatch_events (st st' : State) (evs : list event) : Prop :=
  trace st' = (trace st ++ evs)%list ∧
  ((no_creation evs ∧
    ∀ bi, worker_builds st' = (worker_builds st ++ [bi])%list → build bi = None) ∨
   (one_creation evs ∧
    ∃ bi, worker_builds st' = (worker_builds st ++ [bi])%list ∧ is_Some (build bi))).

(** ** set_build_image *)

#[local] Set Warnings "-register-all".

(** What [json.loads] gives: [None], a boolean, a number, a string, a list
    or a [dict] with string keys. *)
Inductive json :=
| JNull
| JBool (b : bool)
| JNumber (n : Q)
| JString (s : string)
| JArray (l : list json)
| JObject (members : gmap string json).

(** What a subscript [value[key]] with a string key raises: [KeyError] on a
    [dict] without the key, [TypeError] on a value that is not a [dict]
    ([None], a boolean and a number cannot be subscripted, a string and a
    list want integer indices). *)
Inductive subscript_error :=
| SubscriptKeyError
| SubscriptTypeError.

Definition getitem (value : json) (key : string) : subscript_error + json :=
  match value with
  | JObject members =>
      match members !! key with
      | Some v => inr v
      | None => inl SubscriptKeyError
      end
  | _ => inl SubscriptTypeError
  end.

(** [value[k1][k2]...], from the left. *)
Fixpoint getitems (value : json) (keys : list string) : subscript_error + json :=
  match keys with
  | [] => inr value
  | key :: keys' =>
      match getitem value key with
      | inr v => getitems v keys'
      | inl e => inl e
      end
  end.

(** The exceptions that leave [set_build_image]. *)
Inductive set_build_image_error :=
| AttributeError                      (* the build JSON is no [dict]: it has no [get] *)
| TypeError                           (* a subscript of a value that is no [dict] *)
| RuntimeError_malformed              (* RuntimeError: Build object is malformed, ... *)
| RuntimeError_kind (build_kind : json).   (* RuntimeError: Build kind isn't 'DockerImage' but ... *)

(** [set_build_image]: [build_json] is what [get_build_json()] returns, the
    result the new content of [self.config_kwargs]. *)
Definition set_build_image (build_json : json) (config_kwargs : gmap string json)
    : set_build_image_error + gmap string json :=
  match build_json with
  | JObject members =>
      let spec := default JNull (members !! "spec") in
      match getitems spec ["strategy"; "customStrategy"; "from"; "name"] with
      | inl SubscriptKeyError => inl RuntimeError_malformed
      | inl SubscriptTypeError => inl TypeError
      | inr build_name =>
          match getitems spec ["strategy"; "customStrategy"; "from"; "kind"] with
          | inl SubscriptKeyError => inl RuntimeError_malformed
          | inl SubscriptTypeError => inl TypeError
          | inr build_kind =>
              match build_kind with
              | JString kind =>
                  if String.eqb kind "DockerImage"
                  then inr (<["build_image" := build_name]> config_kwargs)
                  else inl (RuntimeError_kind build_kind)
              | _ => inl (RuntimeError_kind build_kind)
              end
          end
      end
  | _ => inl AttributeError
  end.

(* ===================================================================== *)
(** * Example data                                                        *)
(* ===================================================================== *)

Module Examples.

(** A clock that starts in July 2017 and advances by one microsecond per
    interaction. *)
Definition clock_start : datetime := 1500000000 * MICROSECONDS_PER_SECOND.

Definition ticking_clock (n : nat) : datetime := clock_start + Z.of_nat n.

Definition started_build : Build :=
  {| get_build_name := "worker-build-1"; is_finished := false; is_succeeded := false |}.

Definition finished_build : Build :=
  {| get_build_name := "worker-build-1"; is_finished := true; is_succeeded := true |}.

(** An environment in which every cluster answers and every build works. *)
Definition friendly_env : Env :=
  {| env_now := ticking_clock;
     env_list_builds := λ _ _, ExtOk 2;
     env_create_worker_build := λ _ _ _, ExtOk started_build;
     env_get_build_logs := λ _ _ _, ExtOk ();
     env_wait_for_build_to_finish := λ _ _ _, ExtOk finished_build;
     env_cancel_build := λ _ _ _, ExtOk () |}.

(** The state at the start of a run: the base keyword arguments are the
    only dictionary. *)
Definition base_kwargs : kwargs_dict :=
  {[ "architecture" := PyStr "x86_64"; "user" := PyStr "osbs" ]}.

Definition initial_state : State :=
  {| tick := 0; trace := []; worker_builds := [];
     dicts := {[ 1%positive := base_kwargs ]}; override_kwargs := None |}.

(** A context that will be retried one and a half seconds after the start
    of the clock. *)
Definition waiting_context : ClusterRetryContext :=
  {| fails := 1; retry_at := clock_start + 1500000; max_cluster_fails := 20 |}.

Definition dead_context : ClusterRetryContext :=
  {| fails := 20; retry_at := clock_start + 1500000; max_cluster_fails := 20 |}.

(** Two probed clusters: the preferred one is busy, the other nearly idle. *)
Definition preferred_busy : ClusterInfo :=
  {| cluster := {| name := "A"; priority := 1; max_concurrent_builds := 10 |};
     platform := "x86_64"; osbs := "A"; load := (9 # 10)%Q |}.

Definition fallback_idle : ClusterInfo :=
  {| cluster := {| name := "B"; priority := 2; max_concurrent_builds := 10 |};
     platform := "x86_64"; osbs := "B"; load := (1 # 10)%Q |}.

(** The manifest of the specification's scenario: [only: [x86_64,
    ppc64le]] and [not: [ppc64le]]. *)
Definition scenario_manifest : container_yaml :=
  YamlMapping (Some (Some
    {| platforms_not := Some (YSeq [YStr "ppc64le"]);
       platforms_only := Some (YSeq [YStr "x86_64"; YStr "ppc64le"]) |})).

Definition scenario_platforms : gset string := {[ "x86_64"; "ppc64le"; "s390x" ]}.

(** A manifest that only excludes: [only: []] and [not: s390x]. *)
Definition excluding_manifest : container_yaml :=
  YamlMapping (Some (Some
    {| platforms_not := Some (YScalar (YStr "s390x"));
       platforms_only := Some (YSeq []) |})).

Definition power_cluster : ClusterInfo :=
  {| cluster := {| name := "P"; priority := 1; max_concurrent_builds := 4 |};
     platform := "ppc64le"; osbs := "P"; load := (1 # 4)%Q |}.

(** An environment in which cluster A runs nine builds and every other
    cluster one. *)
Definition loaded_env : Env :=
  {| env_now := ticking_clock;
     env_list_builds := λ _ conf_section, if String.eqb conf_section "A" then ExtOk 9 else ExtOk 1;
     env_create_worker_build := λ _ _ _, ExtOk started_build;
     env_get_build_logs := λ _ _ _, ExtOk ();
     env_wait_for_build_to_finish := λ _ _ _, ExtOk finished_build;
     env_cancel_build := λ _ _ _, ExtOk () |}.

(** An environment whose clusters refuse every worker build. *)
Definition refusing_env : Env :=
  {| env_now := ticking_clock;
     env_list_builds := λ _ _, ExtOk 2;
     env_create_worker_build := λ _ _ _, ExtRaise (OsbsException "busy");
     env_get_build_logs := λ _ _ _, ExtOk ();
     env_wait_for_build_to_finish := λ _ _ _, ExtOk finished_build;
     env_cancel_build := λ _ _ _, ExtOk () |}.

(** An environment in which creating a worker build fails with an
    exception that is not a client error. *)
Definition broken_env : Env :=
  {| env_now := ticking_clock;
     env_list_builds := λ _ _, ExtOk 2;
     env_create_worker_build := λ _ _ _, ExtRaise (OtherException "RuntimeError");
     env_get_build_logs := λ _ _ _, ExtOk ();
     env_wait_for_build_to_finish := λ _ _ _, ExtOk finished_build;
     env_cancel_build := λ _ _ _, ExtOk () |}.

(** An environment in which no cluster can be reached, with a clock that
    advances by a minute per interaction. *)
Definition unreachable_env : Env :=
  {| env_now := λ n, clock_start + Z.of_nat n * timedelta_of_seconds 60;
     env_list_builds := λ _ _, ExtRaise (OsbsException "unreachable");
     env_create_worker_build := λ _ _ _, ExtRaise (OsbsException "unreachable");
     env_get_build_logs := λ _ _ _, ExtOk ();
     env_wait_for_build_to_finish := λ _ _ _, ExtOk finished_build;
     env_cancel_build := λ _ _ _, ExtOk () |}.

(** [time.time()] at the start of the clock, printed [1500000000.5]. *)
Definition clock_start_repr : float_repr :=
  {| whole_digits := (D1, [D5; D0; D0; D0; D0; D0; D0; D0; D0]);
     fraction_digits := (D5, []) |}.

(** A plugin with two clusters for every platform. *)
Definition example_plugin : OrchestrateBuildPlugin :=
  {| build_kwargs := 1%positive;
     find_cluster_retry_delay := timedelta_of_seconds 15;
     failure_retry_delay := timedelta_of_seconds 10;
     plugin_max_cluster_fails := 2;
     koji_upload_dir := "koji-upload/1500000000.5.abcdEFGH";
     fs_task_id := Some 42;
     release := Some "1";
     is_rebuild := false;
     get_enabled_clusters_for_platform := λ _, [cluster preferred_busy; cluster fallback_idle] |}.

(** A plugin whose reactor configuration knows clusters for [x86_64]
    only. *)
Definition x86_64_plugin : OrchestrateBuildPlugin :=
  {| build_kwargs := 1%positive;
     find_cluster_retry_delay := timedelta_of_seconds 15;
     failure_retry_delay := timedelta_of_seconds 10;
     plugin_max_cluster_fails := 2;
     koji_upload_dir := "koji-upload/1500000000.5.abcdEFGH";
     fs_task_id := None;
     release := Some "1";
     is_rebuild := false;
     get_enabled_clusters_for_platform :=
       λ plat, if String.eqb plat "x86_64" then [cluster preferred_busy] else [] |}.

(** The same plugin, configured to give up at once. *)
Definition impatient_plugin : OrchestrateBuildPlugin :=
  {| build_kwargs := 1%positive;
     find_cluster_retry_delay := timedelta_of_seconds 15;
     failure_retry_delay := timedelta_of_seconds 10;
     plugin_max_cluster_fails := 0;
     koji_upload_dir := "koji-upload/1500000000.5.abcdEFGH";
     fs_task_id := None;
     release := Some "1";
     is_rebuild := false;
     get_enabled_clusters_for_platform := λ _, [cluster preferred_busy] |}.

(** A manifest whose [only] key is left blank, which YAML reads as null. *)
Definition blank_only_manifest : container_yaml :=
  YamlMapping (Some (Some {| platforms_not := None; platforms_only := Some (YScalar YNull) |})).

(** An environment in which the logs of a worker build cannot be
    followed. *)
Definition silent_env : Env :=
  {| env_now := ticking_clock;
     env_list_builds := λ _ _, ExtOk 2;
     env_create_worker_build := λ _ _ _, ExtOk started_build;
     env_get_build_logs := λ _ _ _, ExtRaise (OsbsException "no logs");
     env_wait_for_build_to_finish := λ _ _ _, ExtOk finished_build;
     env_cancel_build := λ _ _ _, ExtOk () |}.

(** A plugin whose only cluster is configured with no capacity. *)
Definition no_capacity_plugin : OrchestrateBuildPlugin :=
  {| build_kwargs := 1%positive;
     find_cluster_retry_delay := timedelta_of_seconds 15;
     failure_retry_delay := timedelta_of_seconds 10;
     plugin_max_cluster_fails := 2;
     koji_upload_dir := "koji-upload/1500000000.5.abcdEFGH";
     fs_task_id := None;
     release := Some "1";
     is_rebuild := false;
     get_enabled_clusters_for_platform :=
       λ _, [{| name := "Z"; priority := 1; max_concurrent_builds := 0 |}] |}.

(** The build JSON of an orchestrator build made from a builder image. *)
Definition orchestrator_build_json : json :=
  JObject {[ "kind" := JString "Build";
             "spec" := JObject {[ "strategy" := JObject {[ "customStrategy" := JObject
               {[ "from" := JObject {[ "kind" := JString "DockerImage";
                                       "name" := JString "buildroot:latest" ]} ]} ]} ]} ]}.

End Examples.
(* ===================================================================== *)
(** * Part II. Properties                                                 *)
(* ===================================================================== *)

Local Open Scope list_scope.

(** ** Retry contexts *)

Lemma min_datetime_None (l : list datetime) : min_datetime l = None ↔ l = [].
Proof.
  destruct l as [|x l]; simpl; [done|].
  destruct (min_datetime l); split; discriminate.
Qed.

Lemma min_datetime_Some (l : list datetime) (m : datetime) :
  min_datetime l = Some m → m ∈ l ∧ ∀ x, x ∈ l → m ≤ x.
Proof.
  revert m. induction l as [|y l IH]; simpl; intros m Hm; [discriminate|].
  destruct (min_datetime l) as [m'|] eqn:Hl.
  - destruct (IH m' eq_refl) as [Hin Hle]. injection Hm as <-. split.
    + destruct (Z.min_spec y m') as [[_ ->]|[_ ->]];
        [apply elem_of_cons; by left | apply elem_of_cons; by right].
    + intros x [->|Hx]%elem_of_cons; [lia|]. specialize (Hle x Hx). lia.
  - apply min_datetime_None in Hl as ->. injection Hm as <-. split.
    + apply elem_of_cons; by left.
    + intros x [->|Hx]%elem_of_cons; [lia|]. by apply elem_of_nil in Hx.
Qed.

Lemma elem_of_live_retry_ats (contexts : gmap string ClusterRetryContext) (t : datetime) :
  t ∈ live_retry_ats contexts ↔
  ∃ n ctx, contexts !! n = Some ctx ∧ failed ctx = false ∧ retry_at ctx = t.
Proof.
  unfold live_retry_ats. rewrite list_elem_of_fmap. split.
  - intros (ctx & -> & Hin). apply list_elem_of_filter in Hin as [Hlive Hin].
    apply list_elem_of_fmap in Hin as ([n ctx'] & -> & Hin).
    apply elem_of_map_to_list in Hin. by exists n, ctx'.
  - intros (n & ctx & Hn & Hlive & <-). exists ctx. split; [done|].
    apply list_elem_of_filter. split; [done|].
    apply list_elem_of_fmap. exists (n, ctx). split; [done|].
    by apply elem_of_map_to_list.
Qed.

Lemma earliest_retry_at_Some (contexts : gmap string ClusterRetryContext) (t : datetime) :
  earliest_retry_at contexts = Some t → is_earliest_retry_at contexts t.
Proof.
  intros [Hin Hle]%min_datetime_Some. split.
  - by apply elem_of_live_retry_ats.
  - intros n ctx Hn Hlive. apply Hle, elem_of_live_retry_ats. by exists n, ctx.
Qed.

Lemma earliest_retry_at_None (contexts : gmap string ClusterRetryContext) :
  earliest_retry_at contexts = None ↔
  ∀ n ctx, contexts !! n = Some ctx → failed ctx = true.
Proof.
  unfold earliest_retry_at. rewrite min_datetime_None. split.
  - intros Hnil n ctx Hn. destruct (failed ctx) eqn:Hf; [done|].
    assert (retry_at ctx ∈ live_retry_ats contexts) as Hin
      by (apply elem_of_live_retry_ats; by exists n, ctx).
    rewrite Hnil in Hin. by apply elem_of_nil in Hin.
  - intros Hall. apply elem_of_nil_inv. intros t (n & ctx & Hn & Hlive & _)%elem_of_live_retry_ats.
    rewrite (Hall n ctx Hn) in Hlive. discriminate.
Qed.

Lemma td_seconds_below_a_day (td : timedelta) :
  0 ≤ td < SECONDS_PER_DAY * MICROSECONDS_PER_SECOND →
  td_seconds td = td_whole_seconds td.
Proof.
  unfold td_seconds, td_whole_seconds, SECONDS_PER_DAY, MICROSECONDS_PER_SECOND.
  intros [H0 H1]. apply Z.mod_small. split.
  - apply Z.div_pos; lia.
  - apply Z.div_lt_upper_bound; lia.
Qed.

(** A context that is dead stays exactly as it is under any further calls
    of [try_again_later], and the clock is not even read. *)
Lemma try_again_later_dead_many (env : Env) (ctx : ClusterRetryContext)
    (delays : list timedelta) (st : State) :
  failed ctx = true →
  foldM (λ c d, try_again_later env d c) ctx delays st = (Return ctx, st).
Proof.
  intros Hdead. induction delays as [|d delays IH]; simpl; [done|].
  unfold mbind, M_bind, try_again_later. rewrite Hdead. simpl. apply IH.
Qed.

(** C5. [try_again_later] on a dead context ([fails >= max_cluster_fails])
    changes neither [fails] nor [retry_at] (the context is returned as it
    is, and nothing else happens), so after any number of further calls the
    context is still the same dead one; on a context that is not dead it
    adds one to [fails] and sets [retry_at] to the clock reading plus the
    delay. *)
Theorem try_again_later_spec (env : Env) (delay : timedelta)
    (ctx : ClusterRetryContext) (st : State) :
  (failed ctx = true →
     try_again_later env delay ctx st = (Return ctx, st) ∧
     ∀ delays st0, ∃ ctx',
       foldM (λ c d, try_again_later env d c) ctx delays st0 = (Return ctx', st0) ∧
       fails ctx' = fails ctx ∧ retry_at ctx' = retry_at ctx ∧ failed ctx' = true) ∧
  (failed ctx = false →
     ∃ ctx', try_again_later env delay ctx st = (Return ctx', interact [] st) ∧
       fails ctx' = fails ctx + 1 ∧
       retry_at ctx' = env_now env (tick st) + delay ∧
       max_cluster_fails ctx' = max_cluster_fails ctx).
Proof.
  split; intros Hf.
  - split.
    + unfold try_again_later. by rewrite Hf.
    + intros delays st0. exists ctx. by rewrite try_again_later_dead_many.
  - eexists. unfold try_again_later. rewrite Hf. simpl. done.
Qed.

(** ** wait_for_any_cluster *)

(** C4, as the code has it.  [wait_for_any_cluster] raises
    [AllClustersFailedException] exactly when every context is failed;
    otherwise it reads the clock, calls [time.sleep] once and returns.  The
    argument of [time.sleep] is the [.seconds] of
    [max(0, earliest - now)]: for a wait of less than a day, its whole
    seconds, the fraction dropped. *)
Theorem wait_for_any_cluster_spec (env : Env)
    (contexts : gmap string ClusterRetryContext) (st : State) :
  let now := env_now env (tick st) in
  ((∀ n ctx, contexts !! n = Some ctx → failed ctx = true) ↔
   ∃ msg st', wait_for_any_cluster env contexts st
              = (Raise (AllClustersFailedException msg), st')) ∧
  (¬ (∀ n ctx, contexts !! n = Some ctx → failed ctx = true) →
   ∃ earliest, is_earliest_retry_at contexts earliest ∧
     wait_for_any_cluster env contexts st
     = (Return (), interact [EvSleep (td_seconds (Z.max 0 (earliest - now)))]
                            (interact [] st)) ∧
     (earliest - now < SECONDS_PER_DAY * MICROSECONDS_PER_SECOND →
      td_seconds (Z.max 0 (earliest - now))
      = Z.max 0 (earliest - now) `div` MICROSECONDS_PER_SECOND)).
Proof.
  intros now. unfold wait_for_any_cluster.
  destruct (earliest_retry_at contexts) as [e|] eqn:He.
  - split.
    + split.
      * intros Hall%earliest_retry_at_None. congruence.
      * intros (msg & st' & Hrun). discriminate Hrun.
    + intros _. exists e. split; [by apply earliest_retry_at_Some|]. split; [done|].
      intros Hday. apply td_seconds_below_a_day.
      unfold SECONDS_PER_DAY, MICROSECONDS_PER_SECOND in *. lia.
  - split.
    + split; [|by intros _; apply earliest_retry_at_None].
      intros _. by eexists _, _.
    + intros Hnot. destruct Hnot. by apply earliest_retry_at_None.
Qed.

(** C4 at a concrete input: one context, due in 1.5 seconds. *)
Lemma wait_for_any_cluster_spec_witness :
  let contexts : gmap string ClusterRetryContext := {[ "A" := Examples.waiting_context ]} in
  ¬ (∀ n ctx, contexts !! n = Some ctx → failed ctx = true) ∧
  ∃ earliest, is_earliest_retry_at contexts earliest ∧
    earliest - Examples.clock_start < SECONDS_PER_DAY * MICROSECONDS_PER_SECOND ∧
    wait_for_any_cluster Examples.friendly_env contexts Examples.initial_state
    = (Return (), interact [EvSleep 1] (interact [] Examples.initial_state)).
Proof.
  intros contexts.
  assert (¬ (∀ n ctx, contexts !! n = Some ctx → failed ctx = true)) as Hlive.
  { intros Hall. specialize (Hall "A" Examples.waiting_context eq_refl). discriminate Hall. }
  split; [exact Hlive|].
  destruct (proj2 (wait_for_any_cluster_spec Examples.friendly_env contexts
                     Examples.initial_state) Hlive) as (earliest & Hearliest & Hrun & Hday).
  exists earliest.
  assert (earliest = Examples.clock_start + 1500000) as ->.
  { destruct Hearliest as [(n & ctx & Hn & _ & <-) _].
    unfold contexts in Hn. apply lookup_singleton_Some in Hn as [_ <-]. done. }
  split; [done|]. split; [done|]. rewrite Hrun. done.
Defined.

(** The claim C4 as the specification words it, with the sleep equal to
    [max(0, earliest - now)], fails: with a single context due in 1.5
    seconds the code sleeps one second. *)
Lemma wait_for_any_cluster_sleeps_whole_seconds :
  let contexts : gmap string ClusterRetryContext := {[ "A" := Examples.waiting_context ]} in
  let now := env_now Examples.friendly_env (tick Examples.initial_state) in
  is_earliest_retry_at contexts (now + 1500000) ∧
  wait_for_any_cluster Examples.friendly_env contexts Examples.initial_state
  = (Return (), interact [EvSleep 1] (interact [] Examples.initial_state)) ∧
  timedelta_of_seconds 1 ≠ Z.max 0 ((now + 1500000) - now).
Proof.
  split; [|split].
  - by apply earliest_retry_at_Some.
  - done.
  - done.
Qed.

(** C10. A context just built with a positive [max_cluster_fails] has
    [fails = 0] and [retry_at] at the Unix epoch; it is not failed, and with
    a clock that is not before the epoch it is not in retry-wait.  Then
    [wait_for_any_cluster] over any collection that holds such a context
    sleeps zero seconds and returns. *)
Theorem fresh_context_is_not_delayed (env : Env) (max_fails : Z)
    (contexts : gmap string ClusterRetryContext) (n : string) (st : State) :
  0 < max_fails →
  utcfromtimestamp_0 ≤ env_now env (tick st) →
  contexts !! n = Some (new_ClusterRetryContext max_fails) →
  fails (new_ClusterRetryContext max_fails) = 0 ∧
  retry_at (new_ClusterRetryContext max_fails) = utcfromtimestamp_0 ∧
  failed (new_ClusterRetryContext max_fails) = false ∧
  in_retry_wait env (new_ClusterRetryContext max_fails) st = (Return false, interact [] st) ∧
  wait_for_any_cluster env contexts st
  = (Return (), interact [EvSleep 0] (interact [] st)).
Proof.
  intros Hmax Hclock Hn.
  assert (failed (new_ClusterRetryContext max_fails) = false) as Hlive.
  { unfold failed. simpl. apply Z.leb_gt. lia. }
  split; [done|]. split; [done|]. split; [done|]. split.
  - unfold in_retry_wait, mbind, M_bind, datetime_now. simpl.
    unfold utcfromtimestamp_0 in *.
    replace (env_now env (tick st) <? 0) with false by (symmetry; apply Z.ltb_ge; lia).
    done.
  - unfold wait_for_any_cluster.
    destruct (earliest_retry_at contexts) as [e|] eqn:He.
    + apply earliest_retry_at_Some in He as [_ Hle].
      specialize (Hle n _ Hn Hlive). simpl in Hle.
      unfold mbind, M_bind, datetime_now, time_sleep. simpl.
      unfold utcfromtimestamp_0 in *.
      replace (Z.max 0 (e - env_now env (tick st))) with 0 by lia. done.
    + rewrite earliest_retry_at_None in He. specialize (He n _ Hn). congruence.
Qed.

Lemma fresh_context_is_not_delayed_witness :
  let contexts : gmap string ClusterRetryContext :=
    {[ "A" := new_ClusterRetryContext 20; "B" := Examples.waiting_context ]} in
  (0 < 20 ∧ utcfromtimestamp_0 ≤ Examples.clock_start ∧
   contexts !! "A" = Some (new_ClusterRetryContext 20)) ∧
  wait_for_any_cluster Examples.friendly_env contexts Examples.initial_state
  = (Return (), interact [EvSleep 0] (interact [] Examples.initial_state)).
Proof.
  intros contexts.
  assert (0 < 20) as H1 by lia.
  assert (utcfromtimestamp_0 ≤ env_now Examples.friendly_env (tick Examples.initial_state))
    as H2 by (vm_compute; discriminate).
  assert (contexts !! "A" = Some (new_ClusterRetryContext 20)) as H3 by reflexivity.
  split; [by split|].
  exact (proj2 (proj2 (proj2 (proj2
    (fresh_context_is_not_delayed Examples.friendly_env 20 contexts "A"
       Examples.initial_state H1 H2 H3))))).
Defined.

(** ** The order of the selector's output *)

Section sorted_facts.
Context {A K : Type} (key : A → K) (le : K → K → bool).

Lemma insert_sorted_Permutation (x : A) (l : list A) :
  insert_sorted key le x l ≡ₚ x :: l.
Proof.
  induction l as [|y l IH]; simpl; [done|].
  destruct (le (key x) (key y)); [done|].
  rewrite IH. apply Permutation_swap.
Qed.

Lemma sorted_Permutation (l : list A) : sorted key le l ≡ₚ l.
Proof.
  induction l as [|x l IH]; simpl; [done|].
  rewrite insert_sorted_Permutation. by rewrite IH.
Qed.

Hypothesis le_trans : ∀ x y z, le x y = true → le y z = true → le x z = true.

Lemma insert_sorted_key_then (R : A → A → Prop) (x : A) (l : list A) :
  Forall (R x) l →
  StronglySorted (key_then key le R) l →
  StronglySorted (key_then key le R) (insert_sorted key le x l).
Proof.
  intros HR Hl. induction Hl as [|y l Hl IH Hy]; simpl.
  - repeat constructor.
  - apply Forall_cons in HR as [HRy HR].
    destruct (le (key x) (key y)) eqn:Hxy.
    + constructor; [by constructor|].
      constructor; [right; by split|].
      rewrite Forall_forall in Hy, HR |- *. intros z Hz.
      destruct (Hy z Hz) as [Hzy|[Hyz _]].
      * left. destruct (le (key z) (key x)) eqn:Hzx; [|done].
        by rewrite (le_trans _ _ _ Hzx Hxy) in Hzy.
      * right. split; [by eapply le_trans|by apply HR].
    + constructor; [by apply IH|].
      rewrite insert_sorted_Permutation. constructor; [by left|done].
Qed.

Lemma sorted_key_then (R : A → A → Prop) (l : list A) :
  StronglySorted R l → StronglySorted (key_then key le R) (sorted key le l).
Proof.
  induction 1 as [|x l Hl IH Hx]; simpl; [constructor|].
  apply insert_sorted_key_then; [|done].
  by rewrite sorted_Permutation.
Qed.

End sorted_facts.

Lemma StronglySorted_impl {A : Type} (R1 R2 : A → A → Prop) (l : list A) :
  (∀ a b, R1 a b → R2 a b) → StronglySorted R1 l → StronglySorted R2 l.
Proof.
  intros Himpl. induction 1 as [|x l Hl IH Hx]; constructor; [done|].
  eapply Forall_impl; [exact Hx|]. intros b. apply Himpl.
Qed.

Lemma StronglySorted_trivial {A : Type} (l : list A) :
  StronglySorted (λ _ _, True) l.
Proof. induction l; constructor; [done|]. by apply Forall_true. Qed.

Lemma Qle_bool_trans (x y z : Q) :
  Qle_bool x y = true → Qle_bool y z = true → Qle_bool x z = true.
Proof. rewrite !Qle_bool_iff. apply Qle_trans. Qed.

Lemma Zleb_trans (x y z : Z) : (x <=? y) = true → (y <=? z) = true → (x <=? z) = true.
Proof. rewrite !Z.leb_le. lia. Qed.

Lemma sort_cluster_infos_Permutation (possible_cluster_info : list ClusterInfo) :
  sort_cluster_infos possible_cluster_info ≡ₚ possible_cluster_info.
Proof. unfold sort_cluster_infos. by rewrite !sorted_Permutation. Qed.

Lemma sort_cluster_infos_StronglySorted (possible_cluster_info : list ClusterInfo) :
  StronglySorted by_load_then_priority (sort_cluster_infos possible_cluster_info).
Proof.
  unfold sort_cluster_infos.
  eapply StronglySorted_impl; last first.
  - apply sorted_key_then; [exact Qle_bool_trans|].
    apply sorted_key_then; [exact Zleb_trans|].
    apply StronglySorted_trivial.
  - intros a b [Hlt|[Hle [Hlt|[Hp _]]]].
    + left. apply Qnot_le_lt. rewrite <- Qle_bool_iff. by rewrite Hlt.
    + apply Qle_bool_iff, Qle_lteq in Hle as [Hlt'|Heq]; [by left|].
      right. split; [done|]. apply Z.leb_gt in Hlt. lia.
    + apply Qle_bool_iff, Qle_lteq in Hle as [Hlt'|Heq]; [by left|].
      right. split; [done|]. by apply Z.leb_le.
Qed.

(** C1, as the code has it.  The list that ends [get_clusters] holds the
    probed values, each once, sorted by ascending load; priority decides
    only among equal loads.  (The second, stable [sorted] call is by load,
    which makes load the primary key.) *)
Theorem sort_cluster_infos_by_load_then_priority (possible_cluster_info : list ClusterInfo) :
  sort_cluster_infos possible_cluster_info ≡ₚ possible_cluster_info ∧
  StronglySorted by_load_then_priority (sort_cluster_infos possible_cluster_info).
Proof.
  split; [apply sort_cluster_infos_Permutation|apply sort_cluster_infos_StronglySorted].
Qed.

(** The claim C1 as the specification words it, with priority as the
    primary key, fails: a busy cluster of priority 1 is listed after an
    idle cluster of priority 2. *)
Lemma sort_cluster_infos_not_by_priority :
  sort_cluster_infos [Examples.preferred_busy; Examples.fallback_idle]
  = [Examples.fallback_idle; Examples.preferred_busy] ∧
  ¬ StronglySorted by_priority_then_load
      (sort_cluster_infos [Examples.preferred_busy; Examples.fallback_idle]).
Proof.
  split; [reflexivity|].
  intros Hsorted. change (sort_cluster_infos _)
    with [Examples.fallback_idle; Examples.preferred_busy] in Hsorted.
  apply StronglySorted_inv in Hsorted as [_ Hfirst].
  apply Forall_cons in Hfirst as [[Hlt|[Heq _]] _]; simpl in *; [lia|discriminate].
Qed.

(** ** The effective platform set *)

Lemma elem_of_platform_names (l : list yaml_scalar) (p : string) :
  p ∈ platform_names l ↔ YStr p ∈ l.
Proof.
  unfold platform_names. rewrite elem_of_list_to_set, list_elem_of_omap. split.
  - intros (v & Hv & Hp). destruct v; try discriminate. by injection Hp as ->.
  - intros Hp. by exists (YStr p).
Qed.

(** C6, as the code has it.  [get_platforms] returns the user's set as it
    is when [container.yaml] does not exist, is empty, or has no
    [platforms] key or a null one.  Otherwise, when [platforms.only] lists
    at least one value (a scalar counts as a list of one), the result is
    the user's platforms that [only] lists and [not] does not list; in
    every case what [not] lists is left out.  For the user set
    [{x86_64, ppc64le, s390x}] with [only: [x86_64, ppc64le]] and
    [not: [ppc64le]] the result is [{x86_64}]. *)
Theorem get_platforms_spec (self_platforms : gset string) :
  (∀ container,
     container = None ∨ container = Some YamlEmpty ∨
     container = Some (YamlMapping None) ∨ container = Some (YamlMapping (Some None)) →
     (get_platforms self_platforms container).2 = self_platforms) ∧
  (∀ data_platforms,
     let container := Some (YamlMapping (Some (Some data_platforms))) in
     let only := make_list (get_or_empty_list (platforms_only data_platforms)) in
     let excluded := make_list (get_or_empty_list (platforms_not data_platforms)) in
     (only ≠ [] →
      ∀ p, p ∈ (get_platforms self_platforms container).2 ↔
           p ∈ self_platforms ∧ YStr p ∈ only ∧ YStr p ∉ excluded) ∧
     (∀ p, YStr p ∈ excluded → p ∉ (get_platforms self_platforms container).2)) ∧
  (get_platforms Examples.scenario_platforms (Some Examples.scenario_manifest)).2
  = {[ "x86_64" ]}.
Proof.
  split; [|split].
  - intros container Hcase. destruct Hcase as [Hc|[Hc|[Hc|Hc]]]; subst container; simpl;
      [set_solver|done..].
  - intros data_platforms container only excluded. split.
    + intros Honly p. unfold container, get_platforms. fold only. fold excluded.
      rewrite bool_decide_eq_true_2 by done. simpl.
      rewrite elem_of_difference, elem_of_intersection, !elem_of_platform_names. tauto.
    + intros p Hp. unfold container, get_platforms. fold only. fold excluded. simpl.
      rewrite elem_of_difference, elem_of_platform_names. tauto.
  - apply set_eq. intros p. unfold get_platforms, Examples.scenario_manifest.
    cbn [get_or_empty_list default make_list platforms_only platforms_not snd].
    rewrite bool_decide_eq_true_2 by done.
    rewrite elem_of_difference, elem_of_intersection, !elem_of_platform_names.
    unfold Examples.scenario_platforms. set_unfold. naive_solver.
Qed.

(** C6 at a concrete input: the manifest of the scenario, whose [only] is
    given. *)
Lemma get_platforms_spec_witness :
  make_list (get_or_empty_list (Some (YSeq [YStr "x86_64"; YStr "ppc64le"]))) ≠ [] ∧
  ("x86_64" ∈ (get_platforms Examples.scenario_platforms
                 (Some Examples.scenario_manifest)).2 ↔
   "x86_64" ∈ Examples.scenario_platforms ∧
   YStr "x86_64" ∈ [YStr "x86_64"; YStr "ppc64le"] ∧
   YStr "x86_64" ∉ [YStr "ppc64le"]).
Proof.
  assert (make_list (get_or_empty_list (Some (YSeq [YStr "x86_64"; YStr "ppc64le"]))) ≠ [])
    as Honly by discriminate.
  split; [exact Honly|].
  exact (proj1 (proj1 (proj2 (get_platforms_spec Examples.scenario_platforms))
                  {| platforms_not := Some (YSeq [YStr "ppc64le"]);
                     platforms_only := Some (YSeq [YStr "x86_64"; YStr "ppc64le"]) |})
               Honly "x86_64").
Defined.

(** The claim C6 as the specification words it, with the user's set
    intersected whenever [platforms.only] is given, fails: an [only] that
    is given as the empty list is not intersected with (the result would be
    empty), the user's set is kept. *)
Lemma get_platforms_empty_only_is_not_intersected :
  let container := Some Examples.excluding_manifest in
  let only := [] in
  let excluded := [YStr "s390x"] in
  Examples.excluding_manifest
  = YamlMapping (Some (Some {| platforms_not := Some (YScalar (YStr "s390x"));
                               platforms_only := Some (YSeq only) |})) ∧
  (Examples.scenario_platforms ∩ platform_names only) ∖ platform_names excluded = ∅ ∧
  (get_platforms Examples.scenario_platforms container).2 = {[ "x86_64"; "ppc64le" ]} ∧
  (get_platforms Examples.scenario_platforms container).2
  ≠ (Examples.scenario_platforms ∩ platform_names only) ∖ platform_names excluded.
Proof.
  intros container only excluded.
  assert ((Examples.scenario_platforms ∩ platform_names only) ∖ platform_names excluded
          = (∅ : gset string)) as Hclaimed.
  { apply set_eq. intros p.
    rewrite elem_of_difference, elem_of_intersection, !elem_of_platform_names.
    unfold only. set_solver. }
  assert ((get_platforms Examples.scenario_platforms container).2
          = ({[ "x86_64"; "ppc64le" ]} : gset string)) as Hcode.
  { apply set_eq. intros p. unfold container, get_platforms, Examples.excluding_manifest.
    cbn [get_or_empty_list default make_list platforms_only platforms_not snd].
    rewrite bool_decide_eq_false_2 by (intros Hne; by apply Hne).
    rewrite elem_of_difference, elem_of_platform_names.
    unfold Examples.scenario_platforms. set_unfold. naive_solver. }
  split; [reflexivity|]. split; [exact Hclaimed|]. split; [exact Hcode|].
  rewrite Hcode, Hclaimed. intros Heq.
  assert ("x86_64" ∈ (∅ : gset string)) as Hin by (rewrite <- Heq; set_solver).
  set_solver.
Qed.

(** C9. When the [platforms] mapping has no [only] entry, or an empty
    list, [get_platforms] does not intersect at all: [self.platforms]
    stays as it is and the result is the user's set without what [not]
    lists (not the empty set an intersection with nothing would give). *)
Theorem get_platforms_empty_only (self_platforms : gset string)
    (data_platforms : platforms_mapping) :
  platforms_only data_platforms = None ∨ platforms_only data_platforms = Some (YSeq []) →
  let container := Some (YamlMapping (Some (Some data_platforms))) in
  let excluded := make_list (get_or_empty_list (platforms_not data_platforms)) in
  (get_platforms self_platforms container).1 = self_platforms ∧
  (get_platforms self_platforms container).2 = self_platforms ∖ platform_names excluded ∧
  ∀ p, p ∈ (get_platforms self_platforms container).2 ↔
       p ∈ self_platforms ∧ YStr p ∉ excluded.
Proof.
  intros Honly container excluded.
  assert (make_list (get_or_empty_list (platforms_only data_platforms)) = []) as Hnil
    by (destruct Honly as [-> | ->]; done).
  unfold container, get_platforms. rewrite Hnil. fold excluded. simpl.
  split; [done|]. split; [done|].
  intros p. rewrite elem_of_difference, elem_of_platform_names. tauto.
Qed.

Lemma get_platforms_empty_only_witness :
  platforms_only {| platforms_not := Some (YScalar (YStr "s390x"));
                    platforms_only := Some (YSeq []) |} = Some (YSeq []) ∧
  (get_platforms Examples.scenario_platforms (Some Examples.excluding_manifest)).2
  = Examples.scenario_platforms ∖ platform_names [YStr "s390x"].
Proof.
  split; [reflexivity|].
  exact (proj1 (proj2 (get_platforms_empty_only Examples.scenario_platforms
                         {| platforms_not := Some (YScalar (YStr "s390x"));
                            platforms_only := Some (YSeq []) |}
                         (or_intror eq_refl)))).
Defined.

(** ** Running monadic code *)

Lemma bind_Return {A B : Type} (m : M A) (f : A → M B) (st st' : State) (a : A) :
  m st = (Return a, st') → (m ≫= f) st = f a st'.
Proof. intros Hm. unfold mbind, M_bind. by rewrite Hm. Qed.

Lemma bind_Raise {A B : Type} (m : M A) (f : A → M B) (st st' : State) (e : exn) :
  m st = (Raise e, st') → (m ≫= f) st = (Raise e, st').
Proof. intros Hm. unfold mbind, M_bind. by rewrite Hm. Qed.

Lemma bind_Timeout {A B : Type} (m : M A) (f : A → M B) (st st' : State) :
  m st = (Timeout, st') → (m ≫= f) st = (Timeout, st').
Proof. intros Hm. unfold mbind, M_bind. by rewrite Hm. Qed.

Lemma run_read_dict (l : loc) (d : kwargs_dict) (st : State) :
  dicts st !! l = Some d → read_dict l st = (Return d, st).
Proof. intros Hl. unfold read_dict. by rewrite Hl. Qed.

Lemma run_dict_pop (l : loc) (k : string) (d : kwargs_dict) (st : State) :
  dicts st !! l = Some d →
  dict_pop l k st = (Return (), set_dicts (<[l := delete k d]> (dicts st)) st).
Proof. intros Hl. unfold dict_pop. by rewrite (bind_Return _ _ _ _ _ (run_read_dict _ _ _ Hl)). Qed.

Lemma run_dict_setitem (l : loc) (k : string) (v : pyval) (d : kwargs_dict) (st : State) :
  dicts st !! l = Some d →
  dict_setitem l k v st = (Return (), set_dicts (<[l := <[k := v]> d]> (dicts st)) st).
Proof. intros Hl. unfold dict_setitem. by rewrite (bind_Return _ _ _ _ _ (run_read_dict _ _ _ Hl)). Qed.

Lemma run_dict_update (l other : loc) (d o : kwargs_dict) (st : State) :
  dicts st !! l = Some d → dicts st !! other = Some o →
  dict_update l other st = (Return (), set_dicts (<[l := o ∪ d]> (dicts st)) st).
Proof.
  intros Hl Ho. unfold dict_update.
  rewrite (bind_Return _ _ _ _ _ (run_read_dict _ _ _ Hl)).
  by rewrite (bind_Return _ _ _ _ _ (run_read_dict _ _ _ Ho)).
Qed.

Lemma run_deepcopy (l : loc) (d : kwargs_dict) (st : State) :
  dicts st !! l = Some d →
  deepcopy l st = (Return (fresh (dom (dicts st))),
                   set_dicts (<[fresh (dom (dicts st)) := d]> (dicts st)) st).
Proof. intros Hl. unfold deepcopy. by rewrite (bind_Return _ _ _ _ _ (run_read_dict _ _ _ Hl)). Qed.

Lemma fresh_loc_unused (st : State) : dicts st !! fresh (dom (dicts st)) = None.
Proof. apply not_elem_of_dom, is_fresh. Qed.

Lemma run_get_worker_build_kwargs (self : OrchestrateBuildPlugin) (rel : option string)
    (plat dir : string) (task : option Z) (st : State) (base : kwargs_dict) :
  dicts st !! build_kwargs self = Some base →
  get_worker_build_kwargs self rel plat dir task st
  = (Return (fresh (dom (dicts st))),
     set_dicts (<[fresh (dom (dicts st)) :=
                    worker_build_kwargs_content base rel plat dir (is_rebuild self) task]>
                  (dicts st)) st).
Proof.
  intros Hbase. unfold get_worker_build_kwargs.
  set (l := fresh (dom (dicts st))).
  erewrite bind_Return by (by apply run_deepcopy).
  fold l.
  erewrite bind_Return by (apply run_dict_pop; simpl; apply lookup_insert_eq).
  simpl. rewrite insert_insert_eq.
  erewrite bind_Return by (apply run_dict_setitem; simpl; apply lookup_insert_eq).
  simpl. rewrite insert_insert_eq.
  erewrite bind_Return by (apply run_dict_setitem; simpl; apply lookup_insert_eq).
  simpl. rewrite insert_insert_eq.
  erewrite bind_Return by (apply run_dict_setitem; simpl; apply lookup_insert_eq).
  simpl. rewrite insert_insert_eq.
  erewrite bind_Return by (apply run_dict_setitem; simpl; apply lookup_insert_eq).
  simpl. rewrite insert_insert_eq.
  unfold worker_build_kwargs_content, truthy_option_int.
  destruct task as [t|]; [destruct (t =? 0) eqn:Ht|]; simpl.
  - done.
  - erewrite bind_Return by (apply run_dict_setitem; simpl; apply lookup_insert_eq).
    simpl. by rewrite insert_insert_eq.
  - done.
Qed.
(** ** The keyword arguments of a worker build *)

Lemma run_workspace_override_kwargs (st : State) (ov : kwargs_dict) :
  override_kwargs_content st = Some ov →
  ∃ lo D, workspace_override_kwargs st = (Return lo, set_dicts D st) ∧
    D !! lo = Some ov ∧ ∀ l d, dicts st !! l = Some d → D !! l = Some d.
Proof.
  unfold override_kwargs_content, workspace_override_kwargs, get_state. intros Hov.
  unfold mbind, M_bind. destruct (override_kwargs st) as [lo|] eqn:Hslot.
  - exists lo, (dicts st). split; [by destruct st|]. done.
  - injection Hov as <-. exists (fresh (dom (dicts st))), (<[fresh (dom (dicts st)) := ∅]> (dicts st)).
    split; [done|]. split; [apply lookup_insert_eq|].
    intros l d Hl. rewrite lookup_insert_ne; [done|].
    intros <-. by rewrite fresh_loc_unused in Hl.
Qed.

(** The state after the creation attempt of [do_worker_build]: one more
    dictionary (the keyword arguments) and one more event. *)
Lemma run_create_build (env : Env) (self : OrchestrateBuildPlugin) (ci : ClusterInfo)
    (lo : loc) (st : State) (base ov : kwargs_dict) :
  dicts st !! build_kwargs self = Some base →
  dicts st !! lo = Some ov →
  let kwargs := ov ∪ worker_build_kwargs_content base (release self) (platform ci)
                       (koji_upload_dir self) (is_rebuild self) (fs_task_id self) in
  let r := env_create_worker_build env (tick st) (osbs ci) kwargs in
  create_build env self ci lo st
  = (match r with
     | ExtOk b => Return (Some b)
     | ExtRaise e => if is_OsbsException e then Raise e else Return None
     end,
     interact [EvCreateWorkerBuild (osbs ci) kwargs r]
              (set_dicts (<[fresh (dom (dicts st)) := kwargs]> (dicts st)) st)).
Proof.
  intros Hbase Hov kwargs r. unfold create_build, try_except.
  set (l := fresh (dom (dicts st))).
  assert (lo ≠ l) as Hne by (intros ->; unfold l in Hov; by rewrite fresh_loc_unused in Hov).
  erewrite bind_Return by (by apply run_get_worker_build_kwargs).
  fold l.
  erewrite bind_Return; last first.
  { apply run_dict_update; simpl; [apply lookup_insert_eq|by rewrite lookup_insert_ne]. }
  simpl. rewrite insert_insert_eq.
  erewrite bind_Return by (apply run_read_dict; simpl; apply lookup_insert_eq).
  fold kwargs.
  unfold mbind, M_bind, create_worker_build, client_call. simpl. fold r.
  destruct r as [b|e]; [done|]. by destruct (is_OsbsException e).
Qed.
(** ** Frames and failures of monadic code *)

Section frames.
Context (R : relation State) `{!PreOrder R}.

Lemma frame_ret {A : Type} (a : A) : frame R (mret a).
Proof. intros st. simpl. reflexivity. Qed.

Lemma frame_raise {A : Type} (e : exn) : frame R (raise (A := A) e).
Proof. intros st. simpl. reflexivity. Qed.

Lemma frame_timeout {A : Type} : frame R (timeout (A := A)).
Proof. intros st. simpl. reflexivity. Qed.

Lemma frame_bind {A B : Type} (m : M A) (f : A → M B) :
  frame R m → (∀ a, frame R (f a)) → frame R (m ≫= f).
Proof.
  intros Hm Hf st. specialize (Hm st). unfold mbind, M_bind.
  destruct (m st) as [[a|e|] st1]; simpl in *; [|done..].
  etrans; [exact Hm|]. apply Hf.
Qed.

Lemma frame_try_except {A : Type} (m : M A) (h : exn → M A) :
  frame R m → (∀ e, frame R (h e)) → frame R (try_except m h).
Proof.
  intros Hm Hh st. specialize (Hm st). unfold try_except.
  destruct (m st) as [[a|e|] st1]; simpl in *; [done| |done].
  etrans; [exact Hm|]. apply Hh.
Qed.

Lemma frame_foldM {A S : Type} (f : S → A → M S) (l : list A) (s : S) :
  (∀ s x, frame R (f s x)) → frame R (foldM f s l).
Proof.
  intros Hf. revert s. induction l as [|x l IH]; intros s; simpl.
  - apply frame_ret.
  - apply frame_bind; [apply Hf|]. intros s'. apply IH.
Qed.

End frames.

Section failures.
Context (F : option exn → Prop).

Lemma fails_only_ret {A : Type} (a : A) : fails_only F (mret a).
Proof. by intros st. Qed.

Lemma fails_only_bind {A B : Type} (m : M A) (f : A → M B) :
  fails_only F m → (∀ a, fails_only F (f a)) → fails_only F (m ≫= f).
Proof.
  intros Hm Hf st. specialize (Hm st). unfold mbind, M_bind.
  destruct (m st) as [[a|e|] st1]; simpl in *; [apply Hf|done..].
Qed.

Lemma fails_only_try_except {A : Type} (G : option exn → Prop) (m : M A) (h : exn → M A) :
  fails_only G m → (∀ e, G (Some e) → fails_only F (h e)) → (G None → F None) →
  fails_only F (try_except m h).
Proof.
  intros Hm Hh Ht st. specialize (Hm st). unfold try_except.
  destruct (m st) as [[a|e|] st1]; simpl in *; [done| |by apply Ht].
  by apply Hh.
Qed.

End failures.

Lemma fails_only_weaken {A : Type} (F G : option exn → Prop) (m : M A) :
  (∀ x, F x → G x) → fails_only F m → fails_only G m.
Proof.
  intros HFG Hm st. specialize (Hm st). unfold failure_ok in *.
  destruct (m st).1; auto.
Qed.
(** ** What the selector does to the state *)

#[export] Instance world_only_preorder : PreOrder world_only.
Proof.
  split.
  - intros st. by repeat split.
  - intros st1 st2 st3 (Hw1 & Hd1 & Ho1 & Ht1 & Hn1) (Hw2 & Hd2 & Ho2 & Ht2 & Hn2).
    repeat split; [congruence..| by etrans | lia].
Qed.

Lemma world_only_interact (evs : list event) (st : State) : world_only st (interact evs st).
Proof. repeat split; simpl; [by apply prefix_app_r | lia]. Qed.

Lemma frame_datetime_now (env : Env) : frame world_only (datetime_now env).
Proof. intros st. apply world_only_interact. Qed.

Lemma frame_time_sleep (n : Z) : frame world_only (time_sleep n).
Proof. intros st. apply world_only_interact. Qed.

Lemma frame_client_call {A : Type} (answer : nat → ext_result A)
    (ev : ext_result A → event) :
  frame world_only (client_call answer ev).
Proof.
  intros st. unfold client_call. destruct (answer (tick st)); apply world_only_interact.
Qed.

Lemma frame_in_retry_wait (env : Env) (ctx : ClusterRetryContext) :
  frame world_only (in_retry_wait env ctx).
Proof.
  apply (frame_bind world_only); [apply frame_datetime_now|]. intros now. by apply (frame_ret world_only).
Qed.

Lemma frame_try_again_later (env : Env) (delay : timedelta) (ctx : ClusterRetryContext) :
  frame world_only (try_again_later env delay ctx).
Proof.
  unfold try_again_later. destruct (negb (failed ctx)); [|by apply (frame_ret world_only)].
  apply (frame_bind world_only); [apply frame_datetime_now|]. intros now. by apply (frame_ret world_only).
Qed.

Lemma frame_wait_for_any_cluster (env : Env) (contexts : gmap string ClusterRetryContext) :
  frame world_only (wait_for_any_cluster env contexts).
Proof.
  unfold wait_for_any_cluster. destruct (earliest_retry_at contexts).
  - apply (frame_bind world_only); [apply frame_datetime_now|]. intros now. apply frame_time_sleep.
  - by apply (frame_raise world_only).
Qed.

Lemma frame_get_cluster_info (env : Env) (c : Cluster) (plat : string) :
  frame world_only (get_cluster_info env c plat).
Proof.
  apply (frame_bind world_only); [apply frame_client_call|]. intros n.
  destruct (max_concurrent_builds c =? 0); [by apply (frame_raise world_only)|by apply (frame_ret world_only)].
Qed.

Lemma frame_probe_cluster (env : Env) (self : OrchestrateBuildPlugin) (plat : string)
    (acc : list ClusterInfo * gmap string ClusterRetryContext) (c : Cluster) :
  frame world_only (probe_cluster env self plat acc c).
Proof.
  unfold probe_cluster. destruct (acc.2 !! name c) as [ctx|]; [|by apply (frame_raise world_only)].
  apply (frame_bind world_only); [apply frame_in_retry_wait|]. intros [|]; [by apply (frame_ret world_only)|].
  destruct (failed ctx); [by apply (frame_ret world_only)|].
  apply (frame_try_except world_only); [ |].
  - apply (frame_bind world_only); [apply frame_get_cluster_info|]. intros ci. by apply (frame_ret world_only).
  - intros e. destruct (is_OsbsException e); [|by apply (frame_raise world_only)].
    apply (frame_bind world_only); [apply frame_try_again_later|]. intros ctx'. by apply (frame_ret world_only).
Qed.

Lemma frame_get_clusters_loop (env : Env) (self : OrchestrateBuildPlugin) (fuel : nat)
    (plat : string) (contexts : gmap string ClusterRetryContext) (candidates : list Cluster) :
  frame world_only (get_clusters_loop env self fuel plat contexts candidates).
Proof.
  revert contexts candidates. induction fuel as [|fuel IH]; intros contexts candidates; simpl.
  - by apply (frame_timeout world_only).
  - destruct candidates as [|c candidates]; [by apply (frame_ret world_only)|].
    apply (frame_bind world_only); [apply frame_wait_for_any_cluster|]. intros _.
    apply (frame_bind world_only); [ |].
    + apply (frame_foldM world_only); []. intros. apply frame_probe_cluster.
    + intros acc. destruct acc.1; [apply IH|by apply (frame_ret world_only)].
Qed.

Lemma frame_get_clusters (env : Env) (self : OrchestrateBuildPlugin) (fuel : nat)
    (plat : string) (contexts : gmap string ClusterRetryContext) (clusters : list Cluster) :
  frame world_only (get_clusters env self fuel plat contexts clusters).
Proof.
  apply (frame_bind world_only); [apply frame_get_clusters_loop|]. intros acc. by apply (frame_ret world_only).
Qed.

(** ** What monitoring does to the state *)

#[export] Instance monitored_preorder (i : nat) : PreOrder (monitored i).
Proof.
  split.
  - intros st. repeat split; try done. intros bi Hbi. by exists bi.
  - intros st1 st2 st3 (Hd1 & Ho1 & Ht1 & Hn1 & Hl1 & Hj1 & Hi1)
      (Hd2 & Ho2 & Ht2 & Hn2 & Hl2 & Hj2 & Hi2).
    repeat split; [congruence | congruence | by etrans | lia | congruence | |].
    + intros j Hj. rewrite Hj2, Hj1 by done. done.
    + intros bi Hbi. destruct (Hi1 bi Hbi) as (bi1 & Hbi1 & Hp1 & Hc1 & Hb1).
      destruct (Hi2 bi1 Hbi1) as (bi2 & Hbi2 & Hp2 & Hc2 & Hb2).
      exists bi2. repeat split; [done|congruence|congruence|tauto].
Qed.

Lemma world_only_monitored (i : nat) (st st' : State) :
  world_only st st' → monitored i st st'.
Proof.
  intros (Hw & Hd & Ho & Ht & Hn). repeat split; try done; try congruence.
  intros bi Hbi. exists bi. by rewrite Hw.
Qed.

Lemma frame_world_only_monitored {A : Type} (i : nat) (m : M A) :
  frame world_only m → frame (monitored i) m.
Proof. intros Hm st. apply world_only_monitored, Hm. Qed.

(** Replacing the record at [i] by one with the same platform and client
    that keeps a build. *)
Lemma monitored_write (i : nat) (bi bi' : WorkerBuildInfo) (st : State) :
  worker_builds st !! i = Some bi →
  wb_platform bi' = wb_platform bi → wb_osbs bi' = wb_osbs bi →
  (is_Some (build bi) → is_Some (build bi')) →
  monitored i st (set_worker_builds (<[i := bi']> (worker_builds st)) st).
Proof.
  intros Hi Hp Hc Hb. repeat split; simpl; try done.
  - by rewrite length_insert.
  - intros j Hj. by rewrite list_lookup_insert_ne.
  - intros bi0 Hbi0. exists bi'. rewrite Hi in Hbi0. injection Hbi0 as <-.
    split; [|done]. apply list_lookup_insert_eq. by eapply lookup_lt_Some.
Qed.

Lemma frame_read_worker_build (R : relation State) `{!PreOrder R} (i : nat) :
  frame R (read_worker_build i).
Proof. intros st. unfold read_worker_build. destruct (worker_builds st !! i); simpl; reflexivity. Qed.

Lemma frame_client_of (R : relation State) `{!PreOrder R} (bi : WorkerBuildInfo) :
  frame R (client_of bi).
Proof. intros st. unfold client_of. destruct (wb_osbs bi); simpl; reflexivity. Qed.

Lemma frame_watch_logs (env : Env) (i : nat) : frame (monitored i) (watch_logs env i).
Proof.
  apply (frame_bind (monitored i)); [apply (frame_read_worker_build _)|]. intros bi.
  apply (frame_bind (monitored i)); [apply (frame_client_of _)|]. intros c.
  apply frame_world_only_monitored, frame_client_call.
Qed.

Lemma frame_wait_to_finish (env : Env) (i : nat) : frame (monitored i) (wait_to_finish env i).
Proof.
  intros st. unfold wait_to_finish, read_worker_build.
  unfold mbind at 1, M_bind at 1.
  destruct (worker_builds st !! i) as [bi|] eqn:Hi; [|reflexivity].
  unfold client_of, mbind at 1, M_bind at 1.
  destruct (wb_osbs bi) as [c|] eqn:Hc; [|reflexivity]. simpl.
  unfold mbind, M_bind, wait_for_build_to_finish, client_call.
  destruct (env_wait_for_build_to_finish env (tick st) c (wb_name bi)) as [b|e]; simpl.
  - etrans; last first.
    { apply (monitored_write i bi _
               (interact [EvWaitForBuildToFinish c (wb_name bi) (ExtOk b)] st));
        [exact Hi|reflexivity|by simpl|]. by eexists. }
    apply (world_only_monitored i), world_only_interact.
  - apply (world_only_monitored i), world_only_interact.
Qed.

Lemma frame_set_monitor_exception (i : nat) (v : monitor_value) :
  frame (monitored i) (set_monitor_exception i v).
Proof.
  intros st. unfold set_monitor_exception, read_worker_build, mbind, M_bind.
  destruct (worker_builds st !! i) as [bi|] eqn:Hi; [|reflexivity]. simpl.
  by apply (monitored_write i bi).
Qed.

Lemma frame_cancel_build (env : Env) (i : nat) : frame (monitored i) (cancel_build env i).
Proof.
  apply (frame_bind (monitored i)); [apply (frame_read_worker_build _)|]. intros bi.
  destruct (build bi) as [b|]; [|apply (frame_ret _)].
  destruct (negb (is_finished b)); [|apply (frame_ret _)].
  apply (frame_bind (monitored i)); [apply (frame_client_of _)|]. intros c.
  apply frame_world_only_monitored, frame_client_call.
Qed.

Lemma frame_monitor_build (env : Env) (i : nat) : frame (monitored i) (monitor_build env i).
Proof.
  apply (frame_try_except (monitored i)).
  - apply (frame_bind (monitored i)); [apply frame_watch_logs|].
    intros _. apply frame_wait_to_finish.
  - intros e. apply (frame_bind (monitored i)); [apply frame_set_monitor_exception|].
    intros _. apply (frame_try_except (monitored i)); [apply frame_cancel_build|].
    intros e'. destruct (is_OsbsException e'); [apply (frame_ret _)|apply (frame_raise _)].
Qed.

(** Monitoring does not run out of fuel, and what it raises is not an
    [OsbsException]. *)
Lemma fails_only_client_call {A : Type} (answer : nat → ext_result A)
    (ev : ext_result A → event) :
  fails_only is_Some (client_call answer ev).
Proof.
  intros st. unfold client_call. destruct (answer (tick st)); simpl; [done|by eexists].
Qed.

Lemma fails_only_read_worker_build (i : nat) :
  fails_only not_a_client_error (read_worker_build i).
Proof.
  intros st. unfold read_worker_build. destruct (worker_builds st !! i); simpl; [done|].
  by eexists.
Qed.

Lemma fails_only_client_of (bi : WorkerBuildInfo) : fails_only not_a_client_error (client_of bi).
Proof. intros st. unfold client_of. destruct (wb_osbs bi); simpl; [done|]. by eexists. Qed.

Lemma not_a_client_error_is_Some (x : option exn) : not_a_client_error x → is_Some x.
Proof. intros (e & -> & _). by eexists. Qed.

Lemma fails_only_monitor_build (env : Env) (i : nat) :
  fails_only not_a_client_error (monitor_build env i).
Proof.
  apply (fails_only_try_except _ is_Some).
  - apply fails_only_bind.
    + apply fails_only_bind.
      { eapply fails_only_weaken, fails_only_read_worker_build.
        apply not_a_client_error_is_Some. }
      intros bi. apply fails_only_bind.
      { eapply fails_only_weaken, fails_only_client_of. apply not_a_client_error_is_Some. }
      intros c. apply fails_only_client_call.
    + intros _. apply fails_only_bind.
      { eapply fails_only_weaken, fails_only_read_worker_build.
        apply not_a_client_error_is_Some. }
      intros bi. apply fails_only_bind.
      { eapply fails_only_weaken, fails_only_client_of. apply not_a_client_error_is_Some. }
      intros c. apply fails_only_bind; [apply fails_only_client_call|]. by intros b st.
  - intros e _. apply fails_only_bind.
    + apply fails_only_bind; [apply fails_only_read_worker_build|]. by intros bi st.
    + intros _. apply (fails_only_try_except _ is_Some).
      * apply fails_only_bind.
        { eapply fails_only_weaken, fails_only_read_worker_build.
          apply not_a_client_error_is_Some. }
        intros bi. destruct (build bi) as [b|]; [|done].
        destruct (negb (is_finished b)); [|done].
        apply fails_only_bind.
        { eapply fails_only_weaken, fails_only_client_of. apply not_a_client_error_is_Some. }
        intros c. apply fails_only_client_call.
      * intros e' _. destruct (is_OsbsException e') eqn:He'; [done|].
        intros st. simpl. by exists e'.
      * intros [? [=]].
  - intros [? [=]].
Qed.

(** ** What composing the keyword arguments does to the state *)

#[export] Instance dicts_only_preorder : PreOrder dicts_only.
Proof.
  split.
  - intros st. by repeat split.
  - intros st1 st2 st3 (Hw1 & Ho1 & Ht1 & Hn1) (Hw2 & Ho2 & Ht2 & Hn2).
    repeat split; congruence.
Qed.

Lemma frame_read_dict (l : loc) : frame dicts_only (read_dict l).
Proof. intros st. unfold read_dict. destruct (dicts st !! l); simpl; reflexivity. Qed.

Lemma frame_write_dict (l : loc) (d : kwargs_dict) : frame dicts_only (write_dict l d).
Proof. intros st. by repeat split. Qed.

Lemma frame_new_dict (d : kwargs_dict) : frame dicts_only (new_dict d).
Proof. intros st. by repeat split. Qed.

Lemma fails_only_read_dict (l : loc) : fails_only not_a_client_error (read_dict l).
Proof. intros st. unfold read_dict. destruct (dicts st !! l); simpl; [done|by eexists]. Qed.

Lemma frame_dict_setitem (l : loc) (k : string) (v : pyval) :
  frame dicts_only (dict_setitem l k v).
Proof.
  apply (frame_bind dicts_only); [apply frame_read_dict|]. intros d. apply frame_write_dict.
Qed.

Lemma fails_only_dict_setitem (l : loc) (k : string) (v : pyval) :
  fails_only not_a_client_error (dict_setitem l k v).
Proof. apply fails_only_bind; [apply fails_only_read_dict|]. by intros d st. Qed.

Lemma frame_get_worker_build_kwargs (self : OrchestrateBuildPlugin) (rel : option string)
    (plat dir : string) (task : option Z) :
  frame dicts_only (get_worker_build_kwargs self rel plat dir task).
Proof.
  apply (frame_bind dicts_only).
  { apply (frame_bind dicts_only); [apply frame_read_dict|]. intros d. apply frame_new_dict. }
  intros l. apply (frame_bind dicts_only).
  { apply (frame_bind dicts_only); [apply frame_read_dict|]. intros d. apply frame_write_dict. }
  intros _. do 4 (apply (frame_bind dicts_only); [apply frame_dict_setitem|]; intros _).
  apply (frame_bind dicts_only); [|intros _; apply (frame_ret _)].
  destruct (truthy_option_int task); [apply frame_dict_setitem|apply (frame_ret _)].
Qed.

Lemma fails_only_get_worker_build_kwargs (self : OrchestrateBuildPlugin)
    (rel : option string) (plat dir : string) (task : option Z) :
  fails_only not_a_client_error (get_worker_build_kwargs self rel plat dir task).
Proof.
  apply fails_only_bind.
  { apply fails_only_bind; [apply fails_only_read_dict|]. by intros d st. }
  intros l. apply fails_only_bind.
  { apply fails_only_bind; [apply fails_only_read_dict|]. by intros d st. }
  intros _. do 4 (apply fails_only_bind; [apply fails_only_dict_setitem|]; intros _).
  apply fails_only_bind; [|by intros _ st].
  destruct (truthy_option_int task); [apply fails_only_dict_setitem|by intros st].
Qed.

Lemma frame_dict_update (l other : loc) : frame dicts_only (dict_update l other).
Proof.
  apply (frame_bind dicts_only); [apply frame_read_dict|]. intros d.
  apply (frame_bind dicts_only); [apply frame_read_dict|]. intros o. apply frame_write_dict.
Qed.

Lemma fails_only_dict_update (l other : loc) :
  fails_only not_a_client_error (dict_update l other).
Proof.
  apply fails_only_bind; [apply fails_only_read_dict|]. intros d.
  apply fails_only_bind; [apply fails_only_read_dict|]. by intros o st.
Qed.

Lemma frame_workspace_override_kwargs : frame dicts_only workspace_override_kwargs.
Proof.
  intros st. unfold workspace_override_kwargs, get_state, mbind, M_bind.
  destruct (override_kwargs st); by repeat split.
Qed.

Lemma run_workspace_override_kwargs_Return (st : State) :
  ∃ lo, (workspace_override_kwargs st).1 = Return lo.
Proof.
  unfold workspace_override_kwargs, get_state, mbind, M_bind.
  destruct (override_kwargs st); by eexists.
Qed.

Lemma create_build_creation (env : Env) (self : OrchestrateBuildPlugin) (ci : ClusterInfo)
    (lo : loc) (st : State) (o : outcome (option Build)) (st' : State) :
  create_build env self ci lo st = (o, st') → creation ci st o st'.
Proof.
  unfold create_build, try_except.
  unfold mbind at 1, M_bind at 1.
  pose proof (frame_get_worker_build_kwargs self (release self) (platform ci)
                (koji_upload_dir self) (fs_task_id self) st) as Hf1.
  pose proof (fails_only_get_worker_build_kwargs self (release self) (platform ci)
                (koji_upload_dir self) (fs_task_id self) st) as Hx1.
  destruct (get_worker_build_kwargs _ _ _ _ _ st) as [[l|e|] st1]; simpl in Hf1, Hx1.
  2:{ destruct Hx1 as (e' & [= <-] & ->). intros [= <- <-].
      destruct Hf1 as (Hw & Ho & Ht & Hn).
      apply creation_swallowed; [done|done|by rewrite Ht|lia|by rewrite Ht]. }
  2:{ by destruct Hx1 as (e' & [=] & _). }
  unfold mbind at 1, M_bind at 1.
  pose proof (frame_dict_update l lo st1) as Hf2.
  pose proof (fails_only_dict_update l lo st1) as Hx2.
  destruct (dict_update l lo st1) as [[[]|e|] st2]; simpl in Hf2, Hx2.
  2:{ destruct Hx2 as (e' & [= <-] & ->). intros [= <- <-].
      destruct Hf1 as (Hw & Ho & Ht & Hn). destruct Hf2 as (Hw2 & Ho2 & Ht2 & Hn2).
      apply creation_swallowed; [congruence|congruence|by rewrite Ht2, Ht|lia|
                                 by rewrite Ht2, Ht]. }
  2:{ by destruct Hx2 as (e' & [=] & _). }
  unfold mbind at 1, M_bind at 1.
  pose proof (frame_read_dict l st2) as Hf3.
  pose proof (fails_only_read_dict l st2) as Hx3.
  destruct (read_dict l st2) as [[kwargs|e|] st3]; simpl in Hf3, Hx3.
  2:{ destruct Hx3 as (e' & [= <-] & ->). intros [= <- <-].
      destruct Hf1 as (Hw & Ho & Ht & Hn). destruct Hf2 as (Hw2 & Ho2 & Ht2 & Hn2).
      destruct Hf3 as (Hw3 & Ho3 & Ht3 & Hn3).
      apply creation_swallowed; [congruence|congruence|by rewrite Ht3, Ht2, Ht|lia|
                                 by rewrite Ht3, Ht2, Ht]. }
  2:{ by destruct Hx3 as (e' & [=] & _). }
  destruct Hf1 as (Hw & Ho & Ht & Hn). destruct Hf2 as (Hw2 & Ho2 & Ht2 & Hn2).
  destruct Hf3 as (Hw3 & Ho3 & Ht3 & Hn3).
  unfold mbind, M_bind, create_worker_build, client_call.
  destruct (env_create_worker_build env (tick st3) (osbs ci) kwargs) as [b|e] eqn:Hr; simpl.
  - intros [= <- <-].
    eapply creation_done; simpl; [congruence|congruence| |congruence].
    by rewrite Ht3, Ht2, Ht.
  - destruct (is_OsbsException e) eqn:He; simpl; intros [= <- <-].
    + eapply creation_client_error; simpl; [done|congruence|congruence| |congruence].
      by rewrite Ht3, Ht2, Ht.
    + apply creation_swallowed; simpl; [congruence|congruence| |lia|].
      * rewrite Ht3, Ht2, Ht. by apply prefix_app_r.
      * intros c kw b. rewrite Ht3, Ht2, Ht, elem_of_app, list_elem_of_singleton.
        intros [?|[=]]; done.
Qed.
(** ** do_worker_build *)

Lemma list_snoc_by_lookup {A : Type} (l l' : list A) (x : A) :
  length l' = S (length l) →
  (∀ j, j ≠ length l → l' !! j = (l ++ [x]) !! j) →
  ∃ y, l' = l ++ [y] ∧ l' !! length l = Some y.
Proof.
  intros Hlen Hj.
  destruct (l' !! length l) as [y|] eqn:Hy.
  2:{ apply lookup_ge_None in Hy. lia. }
  exists y. split; [|done]. apply list_eq. intros j.
  destruct (decide (j = length l)) as [->|Hne].
  - rewrite Hy. symmetry. apply list_lookup_middle. done.
  - rewrite Hj by done. destruct (decide (j < length l)%nat).
    + by rewrite !lookup_app_l by done.
    + rewrite !lookup_ge_None_2; [done|rewrite length_app; simpl; lia..].
Qed.

Lemma do_worker_build_attempt (env : Env) (self : OrchestrateBuildPlugin)
    (ci : ClusterInfo) (st : State) (o : outcome unit) (st' : State) :
  do_worker_build env self ci st = (o, st') → worker_build_attempt ci st o st'.
Proof.
  unfold do_worker_build. unfold mbind at 1, M_bind at 1.
  pose proof (frame_workspace_override_kwargs st) as (Hw0 & Ho0 & Ht0 & Hn0).
  destruct (run_workspace_override_kwargs_Return st) as [lo Hlo].
  destruct (workspace_override_kwargs st) as [o0 st0]. simpl in *. subst o0.
  unfold mbind at 1, M_bind at 1.
  destruct (create_build env self ci lo st0) as [o1 st1] eqn:Hcreate.
  apply create_build_creation in Hcreate.
  destruct Hcreate as [b kwargs st1 Hw1 Ho1 Ht1 Hn1|st1 Hw1 Ho1 Ht1 Hn1 Hnew
                      |e kwargs st1 He Hw1 Ho1 Ht1 Hn1].
  - (* created: the record is appended, then monitored *)
    unfold mbind, M_bind, append_worker_build. simpl.
    set (bi := new_WorkerBuildInfo (Some b) ci).
    set (st2 := set_worker_builds (worker_builds st1 ++ [bi]) st1).
    set (i := length (worker_builds st1)).
    intros Hrun.
    pose proof (frame_monitor_build env i st2) as Hframe.
    pose proof (fails_only_monitor_build env i st2) as Hfail.
    rewrite Hrun in Hframe, Hfail. simpl in Hframe, Hfail.
    destruct Hframe as (Hd & Ho & Ht & Hn & Hlen & Hj & Hi).
    destruct (Hi bi) as (bi' & Hbi' & Hp & Hc & Hb).
    { unfold st2, i. simpl. by apply list_lookup_middle. }
    destruct (list_snoc_by_lookup (worker_builds st1) (worker_builds st') bi)
      as (y & Hy & Hyi).
    { rewrite Hlen. unfold st2. simpl. rewrite length_app. simpl. lia. }
    { intros j Hne. by rewrite Hj. }
    fold i in Hyi. rewrite Hbi' in Hyi. injection Hyi as <-.
    destruct Ht as [evs Hevs].
    eapply (attempt_recorded ci st o bi'
              (EvCreateWorkerBuild (osbs ci) kwargs (ExtOk b) :: evs)).
    + done.
    + rewrite Hy. congruence.
    + by rewrite Hp.
    + rewrite Ho. unfold st2. simpl. congruence.
    + rewrite Hevs. unfold st2. simpl. rewrite Ht1, Ht0. by rewrite <- app_assoc.
    + intros _. exists kwargs, b. apply elem_of_cons. by left.
  - (* another exception: swallowed, a record without a build is appended *)
    unfold mbind, M_bind, append_worker_build. simpl. intros [= <- <-].
    destruct Ht1 as [evs Hevs].
    eapply (attempt_recorded ci st (Return ()) (new_WorkerBuildInfo None ci) evs); simpl.
    + done.
    + congruence.
    + done.
    + congruence.
    + congruence.
    + by intros [? [=]].
  - (* a client error: raised again *)
    intros [= <- <-]. eapply attempt_client_error; [done|congruence|congruence| |congruence].
    rewrite Ht1. by rewrite Ht0.
Qed.
(** ** select_and_start_cluster *)

Lemma bind_inv {A B : Type} (m : M A) (f : A → M B) (st st' : State) (o : outcome B) :
  (m ≫= f) st = (o, st') →
  (∃ a st1, m st = (Return a, st1) ∧ f a st1 = (o, st')) ∨
  (∃ e, m st = (Raise e, st') ∧ o = Raise e) ∨
  (m st = (Timeout, st') ∧ o = Timeout).
Proof.
  unfold mbind, M_bind. destruct (m st) as [[a|e|] st1]; intros Hrun.
  - left. by exists a, st1.
  - right. left. injection Hrun as <- <-. by exists e.
  - right. right. by injection Hrun as <- <-.
Qed.

Lemma try_except_inv {A : Type} (m : M A) (h : exn → M A) (st st' : State) (o : outcome A) :
  try_except m h st = (o, st') →
  (∃ a, m st = (Return a, st') ∧ o = Return a) ∨
  (∃ e st1, m st = (Raise e, st1) ∧ h e st1 = (o, st')) ∨
  (m st = (Timeout, st') ∧ o = Timeout).
Proof.
  unfold try_except. destruct (m st) as [[a|e|] st1]; intros Hrun.
  - left. injection Hrun as <- <-. by exists a.
  - right. left. by exists e, st1.
  - right. right. by injection Hrun as <- <-.
Qed.

Lemma foldM_Return_invariant {A S : Type} (I : S → Prop) (f : S → A → M S) (l : list A) :
  (∀ s x st s' st', I s → f s x st = (Return s', st') → I s') →
  ∀ s st s' st', I s → foldM f s l st = (Return s', st') → I s'.
Proof.
  intros Hf. induction l as [|x l IH]; simpl; intros s st s' st' Hs Hrun.
  - by injection Hrun as <- <-.
  - apply bind_inv in Hrun as [(s1 & st1 & Hx & Hrun)|[(e & _ & [=])|[_ [=]]]].
    eapply IH; [|exact Hrun]. by eapply Hf.
Qed.

(** Every [ClusterInfo] the selector returns is for the platform asked. *)
Lemma probe_cluster_platform (env : Env) (self : OrchestrateBuildPlugin) (plat : string)
    (acc acc' : list ClusterInfo * gmap string ClusterRetryContext) (c : Cluster)
    (st st' : State) :
  Forall (λ ci, platform ci = plat) acc.1 →
  probe_cluster env self plat acc c st = (Return acc', st') →
  Forall (λ ci, platform ci = plat) acc'.1.
Proof.
  intros Hacc. unfold probe_cluster. destruct (acc.2 !! name c) as [ctx|]; [|done].
  intros [(w & st1 & _ & Hrun)|[(e & _ & [=])|[_ [=]]]]%bind_inv.
  destruct w; [by injection Hrun as <- <-|].
  destruct (failed ctx); [by injection Hrun as <- <-|].
  apply try_except_inv in Hrun as [(a & Hrun & [= <-])|[(e & st2 & _ & Hrun)|[_ [=]]]].
  - apply bind_inv in Hrun as [(ci & st2 & Hci & Hrun)|[(e & _ & [=])|[_ [=]]]].
    injection Hrun as <- <-. simpl. apply Forall_app. split; [done|].
    apply Forall_singleton.
    unfold get_cluster_info in Hci.
    apply bind_inv in Hci as [(n & st3 & _ & Hci)|[(e & _ & [=])|[_ [=]]]].
    destruct (max_concurrent_builds c =? 0); [done|]. by injection Hci as <- <-.
  - destruct (is_OsbsException e); [|done].
    apply bind_inv in Hrun as [(ctx' & st3 & _ & Hrun)|[(e' & _ & [=])|[_ [=]]]].
    by injection Hrun as <- <-.
Qed.

Lemma get_clusters_loop_platform (env : Env) (self : OrchestrateBuildPlugin) (fuel : nat)
    (plat : string) (contexts : gmap string ClusterRetryContext) (candidates : list Cluster)
    (st st' : State) (acc : list ClusterInfo * gmap string ClusterRetryContext) :
  get_clusters_loop env self fuel plat contexts candidates st = (Return acc, st') →
  Forall (λ ci, platform ci = plat) acc.1.
Proof.
  revert contexts candidates st. induction fuel as [|fuel IH];
    intros contexts candidates st; simpl; [done|].
  destruct candidates as [|c candidates]; [by intros [= <- <-]|].
  intros [(u & st1 & _ & Hrun)|[(e & _ & [=])|[_ [=]]]]%bind_inv.
  apply bind_inv in Hrun as [(acc1 & st2 & Hfold & Hrun)|[(e & _ & [=])|[_ [=]]]].
  assert (Forall (λ ci, platform ci = plat) acc1.1) as Hacc1.
  { refine (foldM_Return_invariant (λ a, Forall (λ ci, platform ci = plat) a.1)
              _ _ _ _ _ _ _ _ Hfold).
    - intros s x sta s' sta'. apply probe_cluster_platform.
    - by apply Forall_nil_2. }
  destruct acc1.1 eqn:Hnil; [by eapply IH|]. injection Hrun as <- <-. by rewrite Hnil.
Qed.

Lemma get_clusters_platform (env : Env) (self : OrchestrateBuildPlugin) (fuel : nat)
    (plat : string) (contexts : gmap string ClusterRetryContext) (clusters : list Cluster)
    (st st' : State) (r : list ClusterInfo * gmap string ClusterRetryContext) :
  get_clusters env self fuel plat contexts clusters st = (Return r, st') →
  Forall (λ ci, platform ci = plat) r.1.
Proof.
  intros [(acc & st1 & Hloop & Hrun)|[(e & _ & [=])|[_ [=]]]]%bind_inv.
  injection Hrun as <- <-. simpl.
  apply get_clusters_loop_platform in Hloop.
  by rewrite sort_cluster_infos_Permutation.
Qed.

(** What [get_clusters] returns is the sorted list of the values it has
    probed: sorted by load, then by priority. *)
Lemma get_clusters_returns_sorted (env : Env) (self : OrchestrateBuildPlugin) (fuel : nat)
    (plat : string) (contexts : gmap string ClusterRetryContext) (clusters : list Cluster)
    (st st' : State) (r : list ClusterInfo * gmap string ClusterRetryContext) :
  get_clusters env self fuel plat contexts clusters st = (Return r, st') →
  StronglySorted by_load_then_priority r.1.
Proof.
  intros [(acc & st1 & Hloop & Hrun)|[(e & _ & [=])|[_ [=]]]]%bind_inv.
  injection Hrun as <- <-. apply sort_cluster_infos_StronglySorted.
Qed.

(** A run of [get_clusters] in which the cluster of priority 1 is busy: it
    comes second. *)
Example get_clusters_prefers_idle_cluster :
  (get_clusters Examples.loaded_env Examples.example_plugin 2 "x86_64"
     (new_retry_contexts Examples.example_plugin
        [cluster Examples.preferred_busy; cluster Examples.fallback_idle])
     [cluster Examples.preferred_busy; cluster Examples.fallback_idle]
     Examples.initial_state).1
  = Return ([Examples.fallback_idle; Examples.preferred_busy],
            new_retry_contexts Examples.example_plugin
              [cluster Examples.preferred_busy; cluster Examples.fallback_idle]).
Proof. by vm_compute. Qed.

Lemma world_only_dispatched (plat : string) (st st' : State) :
  world_only st st' → dispatched plat st false st'.
Proof. intros (Hw & Hd & Ho & Ht & Hn). by constructor. Qed.

Lemma dispatched_nothing_then (plat : string) (appended : bool) (st st1 st2 : State) :
  dispatched plat st false st1 → dispatched plat st1 appended st2 →
  dispatched plat st appended st2.
Proof.
  intros H1 H2. inversion H1 as [s1 Hw1 Ho1 [k Hk]|]; subst s1.
  inversion H2 as [s2 Hw2 Ho2 Ht2|bi evs s2 Hw2 Hp Ho2 Ht2 Hb]; subst s2.
  - constructor; [congruence|congruence|]. etrans; [by exists k|done].
  - apply (dispatched_one plat st bi (k ++ evs)); [congruence|done|congruence| |].
    + rewrite Ht2, Hk. by rewrite app_assoc.
    + intros Hsome. destruct (Hb Hsome) as (c & kw & b & Hin).
      exists c, kw, b. apply elem_of_app. by right.
Qed.

Lemma dispatch_outcome_after_nothing {A : Type} (plat : string) (returned : A → bool)
    (st st1 st2 : State) (o : outcome A) :
  dispatched plat st false st1 → dispatch_outcome plat st1 returned o st2 →
  dispatch_outcome plat st returned o st2.
Proof.
  intros H1. destruct o as [a|e|]; simpl.
  - by apply dispatched_nothing_then.
  - intros [b Hb]. exists b. by eapply dispatched_nothing_then.
  - by apply dispatched_nothing_then.
Qed.

Lemma worker_build_attempt_dispatched (ci : ClusterInfo) (st st' : State) (o : outcome unit) :
  worker_build_attempt ci st o st' →
  match o with
  | Raise e => if is_OsbsException e then dispatched (platform ci) st false st'
               else dispatched (platform ci) st true st'
  | _ => dispatched (platform ci) st true st'
  end.
Proof.
  intros [e kw st1 He Hw Ho Ht _|o1 bi evs st1 Hfail Hw Hp Ho Ht Hb].
  - rewrite He. constructor; [done|done|]. rewrite Ht. by apply prefix_app_r.
  - assert (dispatched (platform ci) st true st1) as Hone.
    { apply (dispatched_one _ st bi evs); [done..|].
      intros Hsome. destruct (Hb Hsome) as (kw & b & Hin). by exists (osbs ci), kw, b. }
    destruct o1 as [[]|e|]; [done| |done].
    destruct Hfail as (e' & [= <-] & ->). done.
Qed.

Lemma start_on_first_cluster_outcome (env : Env) (self : OrchestrateBuildPlugin)
    (plat : string) (possible : list ClusterInfo)
    (contexts : gmap string ClusterRetryContext) (st st' : State)
    (o : outcome (option (gmap string ClusterRetryContext))) :
  Forall (λ ci, platform ci = plat) possible →
  start_on_first_cluster env self possible contexts st = (o, st') →
  dispatch_outcome plat st (λ r, bool_decide (r = None)) o st'.
Proof.
  intros Hplat. revert contexts st.
  induction Hplat as [|ci possible Hci Hplat IH]; intros contexts st; simpl.
  - intros [= <- <-]. simpl. apply world_only_dispatched. reflexivity.
  - destruct (contexts !! name (cluster ci)) as [ctx|].
    2:{ intros [= <- <-]. exists false. apply world_only_dispatched. reflexivity. }
    intros [(r & st1 & Htry & Hrun)|[(e & Htry & ->)|[Htry ->]]]%bind_inv.
    + (* the attempt returned, or a client error was handled *)
      apply try_except_inv in Htry
        as [(a & Hdo & [= <-])|[(e & st2 & Hdo & Hh)|[_ [=]]]].
      * apply bind_inv in Hdo as [([] & st2 & Hdo & [= <- <-])|[(e & _ & [=])|[_ [=]]]].
        apply do_worker_build_attempt, worker_build_attempt_dispatched in Hdo.
        rewrite Hci in Hdo. injection Hrun as <- <-. done.
      * apply bind_inv in Hdo as [(? & ? & _ & [=])|[(e' & Hdo & [= <-])|[_ [=]]]].
        apply do_worker_build_attempt, worker_build_attempt_dispatched in Hdo.
        rewrite Hci in Hdo. destruct (is_OsbsException e); [|done].
        apply bind_inv in Hh as [(ctx' & st3 & Hlater & [= <- <-])|[(? & _ & [=])|[_ [=]]]].
        pose proof (frame_try_again_later env (failure_retry_delay self) ctx st2) as Hf.
        rewrite Hlater in Hf. simpl in Hf.
        eapply dispatch_outcome_after_nothing; [|by eapply IH].
        eapply dispatched_nothing_then; [exact Hdo|by apply world_only_dispatched].
    + (* an exception escaped *)
      apply try_except_inv in Htry
        as [(a & _ & [=])|[(e0 & st2 & Hdo & Hh)|[_ [=]]]].
      apply bind_inv in Hdo as [(? & ? & _ & [=])|[(e' & Hdo & [= <-])|[_ [=]]]].
      apply do_worker_build_attempt, worker_build_attempt_dispatched in Hdo.
      rewrite Hci in Hdo. destruct (is_OsbsException e0).
      * apply bind_inv in Hh as [(? & ? & _ & [=])|[(e1 & Hlater & _)|[_ [=]]]].
        pose proof (frame_try_again_later env (failure_retry_delay self) ctx st2) as Hf.
        rewrite Hlater in Hf. simpl in Hf. exists false.
        eapply dispatched_nothing_then; [exact Hdo|by apply world_only_dispatched].
      * injection Hh as <- <-. by exists true.
    + (* no fuel is used here *)
      apply try_except_inv in Htry
        as [(a & _ & [=])|[(e0 & st2 & Hdo & Hh)|[Hdo _]]].
      * apply bind_inv in Hdo as [(? & ? & _ & [=])|[(e' & Hdo & [= <-])|[_ [=]]]].
        apply do_worker_build_attempt, worker_build_attempt_dispatched in Hdo.
        rewrite Hci in Hdo. destruct (is_OsbsException e0); [|done].
        apply bind_inv in Hh as [(? & ? & _ & [=])|[(? & _ & [=])|[Hlater _]]].
        pose proof (frame_try_again_later env (failure_retry_delay self) ctx st2) as Hf.
        rewrite Hlater in Hf. simpl in Hf.
        eapply dispatched_nothing_then; [exact Hdo|by apply world_only_dispatched].
      * apply bind_inv in Hdo as [(? & ? & _ & [=])|[(? & _ & [=])|[Hdo _]]].
        apply do_worker_build_attempt in Hdo. inversion Hdo as [|? ? ? ? Hfail].
        by destruct Hfail as (? & [=] & _).
Qed.
Lemma select_loop_outcome (env : Env) (self : OrchestrateBuildPlugin) (fuel : nat)
    (plat : string) (clusters : list Cluster)
    (contexts : gmap string ClusterRetryContext) (st st' : State) (o : outcome unit) :
  select_loop env self fuel plat clusters contexts st = (o, st') →
  dispatch_outcome plat st (λ _, true) o st'.
Proof.
  revert contexts st. induction fuel as [|fuel IH]; intros contexts st; simpl.
  - intros [= <- <-]. apply world_only_dispatched. reflexivity.
  - pose proof (frame_get_clusters env self (S fuel) plat contexts clusters st) as Hframe.
    intros [(r & st1 & Htry & Hrun)|[(e & Htry & ->)|[Htry ->]]]%bind_inv.
    + apply try_except_inv in Htry
        as [(a & Hget & [= <-])|[(e & st2 & Hget & Hh)|[_ [=]]]].
      * (* the selector returned its list *)
        apply bind_inv in Hget as [(r0 & st2 & Hget & [= <- <-])|[(? & _ & [=])|[_ [=]]]].
        rewrite Hget in Hframe. simpl in Hframe.
        pose proof (get_clusters_platform _ _ _ _ _ _ _ _ _ Hget) as Hplat.
        destruct r0 as [possible contexts'].
        apply bind_inv in Hrun as [(r' & st3 & Hstart & Hrun)|[(e & Hstart & ->)|[Hstart ->]]].
        -- apply (start_on_first_cluster_outcome _ _ plat) in Hstart; [|done].
           simpl in Hstart. destruct r' as [contexts''|].
           ++ rewrite bool_decide_eq_false_2 in Hstart by done.
              eapply dispatch_outcome_after_nothing; [|by eapply IH].
              eapply dispatched_nothing_then; [by apply world_only_dispatched|done].
           ++ injection Hrun as <- <-. simpl.
              eapply dispatched_nothing_then; [by apply world_only_dispatched|done].
        -- apply (start_on_first_cluster_outcome _ _ plat) in Hstart; [|done].
           destruct Hstart as [b Hb]. exists b.
           eapply dispatched_nothing_then; [by apply world_only_dispatched|done].
        -- apply (start_on_first_cluster_outcome _ _ plat) in Hstart; [|done].
           simpl in *.
           eapply dispatched_nothing_then; [by apply world_only_dispatched|done].
      * (* every cluster has failed: the sentinel record *)
        apply bind_inv in Hget as [(? & ? & _ & [=])|[(e' & Hget & [= <-])|[_ [=]]]].
        rewrite Hget in Hframe. simpl in Hframe.
        destruct (is_AllClustersFailedException e); [|done].
        unfold mbind, M_bind, append_worker_build in Hh. injection Hh as <- <-.
        injection Hrun as <- <-. simpl.
        eapply dispatched_nothing_then; [by apply world_only_dispatched|].
        apply (dispatched_one plat st2 (sentinel_WorkerBuildInfo plat e) []); simpl;
          [done|done|done|by rewrite app_nil_r|by intros [? [=]]].
    + apply try_except_inv in Htry
        as [(a & _ & [=])|[(e0 & st2 & Hget & Hh)|[_ [=]]]].
      apply bind_inv in Hget as [(? & ? & _ & [=])|[(e' & Hget & [= <-])|[_ [=]]]].
      rewrite Hget in Hframe. simpl in Hframe.
      destruct (is_AllClustersFailedException e0).
      * unfold mbind, M_bind, append_worker_build in Hh. discriminate Hh.
      * injection Hh as <- <-. exists false. by apply world_only_dispatched.
    + apply try_except_inv in Htry
        as [(a & _ & [=])|[(e0 & st2 & Hget & Hh)|[Hget _]]].
      * apply bind_inv in Hget as [(? & ? & _ & [=])|[(e' & Hget & [= <-])|[_ [=]]]].
        destruct (is_AllClustersFailedException e0); [|done].
        unfold mbind, M_bind, append_worker_build in Hh. discriminate Hh.
      * apply bind_inv in Hget as [(? & ? & _ & [=])|[(? & _ & [=])|[Hget _]]].
        rewrite Hget in Hframe. simpl in Hframe. by apply world_only_dispatched.
Qed.

Lemma select_and_start_cluster_outcome (env : Env) (self : OrchestrateBuildPlugin)
    (fuel : nat) (plat : string) (st st' : State) (o : outcome unit) :
  select_and_start_cluster env self fuel plat st = (o, st') →
  dispatch_outcome plat st (λ _, true) o st'.
Proof.
  unfold select_and_start_cluster.
  destruct (get_enabled_clusters_for_platform self plat) as [|c clusters].
  - intros [= <- <-]. exists false. apply world_only_dispatched. reflexivity.
  - apply select_loop_outcome.
Qed.

(** ** do_worker_build in a well-formed state *)

(** [do_worker_build] step by step, when the base keyword arguments and
    the workspace's overrides are dictionaries of the store: [D] is the
    store after the keyword arguments were composed. *)
Lemma run_do_worker_build (env : Env) (self : OrchestrateBuildPlugin) (ci : ClusterInfo)
    (st : State) (base ov : kwargs_dict) :
  dicts st !! build_kwargs self = Some base →
  override_kwargs_content st = Some ov →
  let kwargs := ov ∪ worker_build_kwargs_content base (release self) (platform ci)
                       (koji_upload_dir self) (is_rebuild self) (fs_task_id self) in
  let r := env_create_worker_build env (tick st) (osbs ci) kwargs in
  ∃ D, D !! build_kwargs self = Some base ∧
    let st1 := interact [EvCreateWorkerBuild (osbs ci) kwargs r] (set_dicts D st) in
    do_worker_build env self ci st =
    match r with
    | ExtOk b =>
        monitor_build env (length (worker_builds st))
          (set_worker_builds (worker_builds st ++ [new_WorkerBuildInfo (Some b) ci]) st1)
    | ExtRaise e =>
        if is_OsbsException e then (Raise e, st1)
        else (Return (),
              set_worker_builds (worker_builds st ++ [new_WorkerBuildInfo None ci]) st1)
    end.
Proof.
  intros Hbase Hov kwargs r.
  destruct (run_workspace_override_kwargs st ov Hov) as (lo & D0 & Hrun0 & Hlo & Hext).
  exists (<[fresh (dom D0) := kwargs]> D0). split.
  { rewrite lookup_insert_ne; [by apply Hext|].
    intros Heq. pose proof (is_fresh (dom D0)) as Hfresh.
    rewrite Heq in Hfresh. apply Hfresh, elem_of_dom. exists base. by apply Hext. }
  intros st1. unfold do_worker_build.
  rewrite (bind_Return _ _ _ _ _ Hrun0).
  pose proof (run_create_build env self ci lo (set_dicts D0 st) base ov) as Hcreate.
  simpl in Hcreate. specialize (Hcreate (Hext _ _ Hbase) Hlo).
  fold kwargs in Hcreate. fold r in Hcreate.
  unfold mbind at 1, M_bind at 1. rewrite Hcreate.
  change (interact _ (set_dicts _ (set_dicts D0 st))) with st1.
  destruct r as [b|e]; [done|]. by destruct (is_OsbsException e).
Qed.

(** C3. Of the exceptions the creation call raises, [do_worker_build]
    lets only an [OsbsException] through, and it appends nothing then; any
    other exception of the call is swallowed: [do_worker_build] returns,
    having appended a [WorkerBuildInfo] for the platform whose build is
    [None].  Conversely an [OsbsException] leaves [do_worker_build] only
    if the creation call raised it.  (The state is one of a run: the base
    keyword arguments and the overrides are dictionaries of the store.) *)
Theorem do_worker_build_create_exceptions (env : Env) (self : OrchestrateBuildPlugin)
    (ci : ClusterInfo) (st : State) (base ov : kwargs_dict) :
  dicts st !! build_kwargs self = Some base →
  override_kwargs_content st = Some ov →
  let kwargs := ov ∪ worker_build_kwargs_content base (release self) (platform ci)
                       (koji_upload_dir self) (is_rebuild self) (fs_task_id self) in
  let created := env_create_worker_build env (tick st) (osbs ci) kwargs in
  (∀ e, created = ExtRaise e → is_OsbsException e = true →
     ∃ st', do_worker_build env self ci st = (Raise e, st') ∧
            worker_builds st' = worker_builds st) ∧
  (∀ e, created = ExtRaise e → is_OsbsException e = false →
     ∃ st' bi, do_worker_build env self ci st = (Return (), st') ∧
               worker_builds st' = worker_builds st ++ [bi] ∧
               build bi = None ∧ wb_platform bi = platform ci) ∧
  (∀ e st', do_worker_build env self ci st = (Raise e, st') →
     is_OsbsException e = true → created = ExtRaise e).
Proof.
  intros Hbase Hov kwargs created.
  destruct (run_do_worker_build env self ci st base ov Hbase Hov) as (D & _ & Hrun).
  fold kwargs in Hrun. fold created in Hrun. simpl in Hrun.
  split; [|split].
  - intros e He Hosbs. rewrite He, Hosbs in Hrun. eexists. by split.
  - intros e He Hother. rewrite He, Hother in Hrun.
    eexists _, (new_WorkerBuildInfo None ci). by split.
  - intros e st' Hraise Hosbs. rewrite Hraise in Hrun.
    destruct created as [b|e0].
    + pose proof (fails_only_monitor_build env (length (worker_builds st))
        (set_worker_builds (worker_builds st ++ [new_WorkerBuildInfo (Some b) ci])
           (interact [EvCreateWorkerBuild (osbs ci) kwargs (ExtOk b)] (set_dicts D st))))
        as Hfail.
      rewrite <- Hrun in Hfail. simpl in Hfail.
      destruct Hfail as (e' & [= <-] & Hnot). congruence.
    + destruct (is_OsbsException e0); [by injection Hrun as -> _|discriminate Hrun].
Qed.
(** ** The keyword arguments handed to create_worker_build *)

Lemma worker_build_kwargs_content_lookup (base : kwargs_dict) (rel : option string)
    (plat dir : string) (rebuild : bool) (task : option Z) :
  let computed := worker_build_kwargs_content base rel plat dir rebuild task in
  computed !! "architecture" = None ∧
  computed !! "release" = Some (pyval_of_option_string rel) ∧
  computed !! "platform" = Some (PyStr plat) ∧
  computed !! "koji_upload_dir" = Some (PyStr dir) ∧
  computed !! "is_auto" = Some (PyBool rebuild) ∧
  (∀ t, task = Some t → t ≠ 0 →
        computed !! "filesystem_koji_task_id" = Some (PyInt t)) ∧
  (truthy_option_int task = false →
   computed !! "filesystem_koji_task_id" = base !! "filesystem_koji_task_id") ∧
  (∀ k, k ∉ ["architecture"; "release"; "platform"; "koji_upload_dir"; "is_auto";
             "filesystem_koji_task_id"] →
        computed !! k = base !! k).
Proof.
  intros computed. unfold computed, worker_build_kwargs_content, truthy_option_int.
  destruct task as [t|]; [destruct (Z.eqb_spec t 0) as [->|Ht]|]; simpl;
    repeat split; intros; simplify_map_eq; try done;
    repeat match goal with
      | H : _ ∉ _ :: _ |- _ => apply not_elem_of_cons in H as [? H]
      end; by simplify_map_eq.
Qed.

(** The creation call of [do_worker_build] is the first thing it does to
    the outside world; its keyword arguments are the overrides on top of
    the composed arguments, and the base dictionary is the same afterwards. *)
Lemma do_worker_build_create_event (env : Env) (self : OrchestrateBuildPlugin)
    (ci : ClusterInfo) (st : State) (base ov : kwargs_dict) :
  dicts st !! build_kwargs self = Some base →
  override_kwargs_content st = Some ov →
  let kwargs := ov ∪ worker_build_kwargs_content base (release self) (platform ci)
                       (koji_upload_dir self) (is_rebuild self) (fs_task_id self) in
  ∃ r rest,
    trace (do_worker_build env self ci st).2
    = trace st ++ EvCreateWorkerBuild (osbs ci) kwargs r :: rest ∧
    dicts (do_worker_build env self ci st).2 !! build_kwargs self = Some base.
Proof.
  intros Hbase Hov kwargs.
  destruct (run_do_worker_build env self ci st base ov Hbase Hov) as (D & HD & Hrun).
  fold kwargs in Hrun. simpl in Hrun.
  set (r := env_create_worker_build env (tick st) (osbs ci) kwargs) in *.
  exists r. rewrite Hrun. destruct r as [b|e].
  - match goal with |- context [monitor_build env ?i ?s] =>
      pose proof (frame_monitor_build env i s) as (Hd & _ & [rest Hrest] & _)
    end.
    exists rest. split; [rewrite Hrest; simpl; by rewrite <- app_assoc|].
    by rewrite Hd.
  - exists []. by destruct (is_OsbsException e).
Qed.

(** C7. The keyword arguments [do_worker_build] hands to
    [create_worker_build] are a copy of the base [build_kwargs] without
    [architecture], with [release], [platform], [koji_upload_dir] and
    [is_auto] set, with [filesystem_koji_task_id] set when there is a task
    id (the code tests [if task_id:], so a task id is an integer other than
    0), and with the workspace's overrides applied last: an overridden key
    has the override's value, every other key the computed one.  The base
    dictionary itself is the same after the call. *)
Theorem worker_build_kwargs_spec (env : Env) (self : OrchestrateBuildPlugin)
    (ci : ClusterInfo) (st : State) (base ov : kwargs_dict) :
  dicts st !! build_kwargs self = Some base →
  override_kwargs_content st = Some ov →
  ∃ (computed kwargs : kwargs_dict) r rest,
    trace (do_worker_build env self ci st).2
    = trace st ++ EvCreateWorkerBuild (osbs ci) kwargs r :: rest ∧
    computed !! "architecture" = None ∧
    computed !! "release" = Some (pyval_of_option_string (release self)) ∧
    computed !! "platform" = Some (PyStr (platform ci)) ∧
    computed !! "koji_upload_dir" = Some (PyStr (koji_upload_dir self)) ∧
    computed !! "is_auto" = Some (PyBool (is_rebuild self)) ∧
    (∀ t, fs_task_id self = Some t → t ≠ 0 →
          computed !! "filesystem_koji_task_id" = Some (PyInt t)) ∧
    (∀ k, k ∉ ["architecture"; "release"; "platform"; "koji_upload_dir"; "is_auto";
               "filesystem_koji_task_id"] →
          computed !! k = base !! k) ∧
    (∀ k v, ov !! k = Some v → kwargs !! k = Some v) ∧
    (∀ k, ov !! k = None → kwargs !! k = computed !! k) ∧
    dicts (do_worker_build env self ci st).2 !! build_kwargs self = Some base.
Proof.
  intros Hbase Hov.
  destruct (do_worker_build_create_event env self ci st base ov Hbase Hov)
    as (r & rest & Htrace & Hdicts).
  destruct (worker_build_kwargs_content_lookup base (release self) (platform ci)
              (koji_upload_dir self) (is_rebuild self) (fs_task_id self))
    as (Ha & Hr & Hp & Hk & Hi & Ht & _ & Hrest).
  set (computed := worker_build_kwargs_content base (release self) (platform ci)
                     (koji_upload_dir self) (is_rebuild self) (fs_task_id self)) in *.
  exists computed, (ov ∪ computed), r, rest.
  repeat split; try done.
  - intros k v Hkv. by apply lookup_union_Some_l.
  - intros k Hk0. by apply lookup_union_r.
Qed.
(** ** Concrete runs *)

(** C5 at concrete inputs: a dead context and a live one. *)
Lemma try_again_later_spec_witness :
  (failed Examples.dead_context = true ∧
   try_again_later Examples.friendly_env (timedelta_of_seconds 10) Examples.dead_context
     Examples.initial_state
   = (Return Examples.dead_context, Examples.initial_state)) ∧
  (failed Examples.waiting_context = false ∧
   ∃ ctx', try_again_later Examples.friendly_env (timedelta_of_seconds 10)
             Examples.waiting_context Examples.initial_state
           = (Return ctx', interact [] Examples.initial_state) ∧
     fails ctx' = 2 ∧ retry_at ctx' = Examples.clock_start + timedelta_of_seconds 10).
Proof.
  split.
  - split; [reflexivity|].
    exact (proj1 (proj1 (try_again_later_spec Examples.friendly_env (timedelta_of_seconds 10)
                           Examples.dead_context Examples.initial_state) eq_refl)).
  - split; [reflexivity|].
    destruct (proj2 (try_again_later_spec Examples.friendly_env (timedelta_of_seconds 10)
                       Examples.waiting_context Examples.initial_state) eq_refl)
      as (ctx' & Hrun & Hfails & Hretry & _).
    exists ctx'. split; [exact Hrun|]. split; [exact Hfails|exact Hretry].
Defined.

(** The three ways in which a dispatch returns: a cluster takes the build,
    every cluster is exhausted (the sentinel record), and the creation
    fails with an exception that is not a client error. *)
Example dispatch_succeeds :
  let run := select_and_start_cluster Examples.friendly_env Examples.example_plugin 3
               "x86_64" Examples.initial_state in
  run.1 = Return () ∧
  worker_builds run.2
  = [{| build := Some Examples.finished_build;
        wb_cluster := Some (cluster Examples.preferred_busy);
        wb_osbs := Some "A"; wb_platform := "x86_64"; monitor_exception := None |}].
Proof. vm_compute. done. Qed.

Example dispatch_exhausts_every_cluster :
  let run := select_and_start_cluster Examples.unreachable_env Examples.example_plugin 10
               "x86_64" Examples.initial_state in
  run.1 = Return () ∧
  worker_builds run.2
  = [sentinel_WorkerBuildInfo "x86_64" (AllClustersFailedException ALL_CLUSTERS_FAILED_MSG)].
Proof. vm_compute. done. Qed.

Example dispatch_swallows_other_exception :
  let run := select_and_start_cluster Examples.broken_env Examples.example_plugin 3
               "x86_64" Examples.initial_state in
  run.1 = Return () ∧
  worker_builds run.2 = [new_WorkerBuildInfo None Examples.preferred_busy].
Proof. vm_compute. done. Qed.

(** C3 at concrete runs: a client error, and another exception. *)
Lemma do_worker_build_create_exceptions_witness :
  (dicts Examples.initial_state !! build_kwargs Examples.example_plugin
   = Some Examples.base_kwargs ∧
   override_kwargs_content Examples.initial_state = Some ∅) ∧
  (∃ st', do_worker_build Examples.refusing_env Examples.example_plugin
            Examples.preferred_busy Examples.initial_state
          = (Raise (OsbsException "busy"), st') ∧
     worker_builds st' = worker_builds Examples.initial_state) ∧
  (∃ st' bi, do_worker_build Examples.broken_env Examples.example_plugin
               Examples.preferred_busy Examples.initial_state
             = (Return (), st') ∧
     worker_builds st' = worker_builds Examples.initial_state ++ [bi] ∧
     build bi = None ∧ wb_platform bi = platform Examples.preferred_busy).
Proof.
  assert (dicts Examples.initial_state !! build_kwargs Examples.example_plugin
          = Some Examples.base_kwargs) as Hbase by reflexivity.
  assert (override_kwargs_content Examples.initial_state = Some ∅) as Hov by reflexivity.
  split; [by split|]. split.
  - exact (proj1 (do_worker_build_create_exceptions Examples.refusing_env
                    Examples.example_plugin Examples.preferred_busy Examples.initial_state
                    Examples.base_kwargs ∅ Hbase Hov)
                 (OsbsException "busy") eq_refl eq_refl).
  - exact (proj1 (proj2 (do_worker_build_create_exceptions Examples.broken_env
                    Examples.example_plugin Examples.preferred_busy Examples.initial_state
                    Examples.base_kwargs ∅ Hbase Hov))
                 (OtherException "RuntimeError") eq_refl eq_refl).
Defined.

(** C7 at a concrete run: the base arguments name an architecture, and the
    workspace overrides the release. *)
Lemma worker_build_kwargs_spec_witness :
  let st := set_override_kwargs (Some 2%positive)
              (set_dicts {[ 1%positive := Examples.base_kwargs;
                            2%positive := {[ "release" := PyStr "2.0" ]} ]}
                         Examples.initial_state) in
  (dicts st !! build_kwargs Examples.example_plugin = Some Examples.base_kwargs ∧
   override_kwargs_content st = Some {[ "release" := PyStr "2.0" ]}) ∧
  ∃ (kwargs : kwargs_dict) r rest,
    trace (do_worker_build Examples.friendly_env Examples.example_plugin
             Examples.preferred_busy st).2
    = trace st ++ EvCreateWorkerBuild "A" kwargs r :: rest ∧
    kwargs !! "release" = Some (PyStr "2.0") ∧
    kwargs !! "architecture" = None ∧
    kwargs !! "platform" = Some (PyStr "x86_64") ∧
    kwargs !! "filesystem_koji_task_id" = Some (PyInt 42) ∧
    kwargs !! "user" = Some (PyStr "osbs").
Proof.
  intros st.
  assert (dicts st !! build_kwargs Examples.example_plugin = Some Examples.base_kwargs)
    as Hbase by reflexivity.
  assert (override_kwargs_content st = Some {[ "release" := PyStr "2.0" ]})
    as Hov by reflexivity.
  split; [by split|].
  destruct (worker_build_kwargs_spec Examples.friendly_env Examples.example_plugin
              Examples.preferred_busy st Examples.base_kwargs _ Hbase Hov)
    as (computed & kwargs & r & rest & Htrace & Ha & _ & Hp & _ & _ & Ht & Hrest & Hov1
        & Hov2 & _).
  exists kwargs, r, rest. split; [exact Htrace|].
  split; [by apply Hov1|].
  split; [by rewrite Hov2|].
  split; [by rewrite Hov2|].
  split; [rewrite Hov2 by done; by apply Ht|].
  rewrite Hov2 by done. rewrite Hrest; [done|].
  rewrite !not_elem_of_cons. repeat split; try done. apply not_elem_of_nil.
Defined.

(** ** The upload directory *)

Lemma nullable_complete (r : regex) : in_language r [] → nullable r = true.
Proof.
  intros H. remember [] as s eqn:Hs. induction H as
    [|p c Hp|r1 r2 s1 s2 H1 IH1 H2 IH2|r1 r2 s H1 IH1|r1 r2 s H2 IH2
     |r|r s1 s2 H1 IH1 H2 IH2]; simpl; try done.
  - apply app_eq_nil in Hs as [-> ->]. by rewrite IH1, IH2.
  - by rewrite IH1.
  - rewrite IH2 by done. apply orb_true_r.
Qed.

Lemma derive_complete (r : regex) (c : ascii) (s : list ascii) :
  in_language r (c :: s) → in_language (derive c r) s.
Proof.
  intros H. remember (c :: s) as s' eqn:Hs. revert s Hs.
  induction H as
    [|p c' Hp|r1 r2 s1 s2 H1 IH1 H2 IH2|r1 r2 s' H1 IH1|r1 r2 s' H2 IH2
     |r|r s1 s2 H1 IH1 H2 IH2]; intros s Hs; simpl.
  - discriminate Hs.
  - injection Hs as -> <-. rewrite Hp. constructor.
  - destruct s1 as [|c1 s1]; simpl in Hs.
    + subst s2. rewrite (nullable_complete r1 H1). apply in_Alt_r. by apply IH2.
    + injection Hs as -> <-.
      assert (in_language (Cat (derive c r1) r2) (s1 ++ s2)) as Hcat
        by (constructor; [by apply IH1|done]).
      destruct (nullable r1); [by apply in_Alt_l|done].
  - apply in_Alt_l. by apply IH1.
  - apply in_Alt_r. by apply IH2.
  - discriminate Hs.
  - destruct s1 as [|c1 s1]; simpl in Hs.
    + by apply IH2.
    + injection Hs as -> <-. constructor; [by apply IH1|done].
Qed.

Lemma matches_chars_complete (r : regex) (s : list ascii) :
  in_language r s → matches_chars r s = true.
Proof.
  revert r. induction s as [|c s IH]; intros r H; simpl.
  - by apply nullable_complete.
  - by apply IH, derive_complete.
Qed.

Lemma in_language_Lit (s : string) : in_language (Lit s) (String.list_ascii_of_string s).
Proof.
  induction s as [|c s IH]; simpl; [constructor|].
  change (c :: String.list_ascii_of_string s) with ([c] ++ String.list_ascii_of_string s).
  constructor; [|done]. constructor. apply Ascii.eqb_refl.
Qed.

Lemma in_language_Star_Class (p : ascii → bool) (s : list ascii) :
  Forall (λ c, p c = true) s → in_language (Star (Class p)) s.
Proof.
  induction 1 as [|c s Hc Hs IH]; [constructor|].
  change (c :: s) with ([c] ++ s). constructor; [by constructor|done].
Qed.

Lemma in_language_Plus_Class (p : ascii → bool) (c : ascii) (s : list ascii) :
  p c = true → Forall (λ c, p c = true) s → in_language (Plus (Class p)) (c :: s).
Proof.
  intros Hc Hs. change (c :: s) with ([c] ++ s).
  constructor; [by constructor|by apply in_language_Star_Class].
Qed.

Lemma in_language_Times_Class (p : ascii → bool) (s : list ascii) :
  Forall (λ c, p c = true) s → in_language (Times (length s) (Class p)) s.
Proof.
  induction 1 as [|c s Hc Hs IH]; simpl; [constructor|].
  change (c :: s) with ([c] ++ s). constructor; [by constructor|done].
Qed.

Lemma list_ascii_of_string_app (s1 s2 : string) :
  String.list_ascii_of_string (s1 ++ s2)%string
  = String.list_ascii_of_string s1 ++ String.list_ascii_of_string s2.
Proof. induction s1 as [|c s1 IH]; simpl; [done|]. by rewrite IH. Qed.

Lemma is_digit_digit_char (d : digit) : is_digit (digit_char d) = true.
Proof. by destruct d. Qed.

Lemma digits_chars_are_digits (ds : digit * list digit) :
  ∃ c s, digits_chars ds = c :: s ∧ is_digit c = true ∧ Forall (λ c, is_digit c = true) s.
Proof.
  destruct ds as [d ds]. exists (digit_char d), (digit_char <$> ds).
  split; [done|]. split; [apply is_digit_digit_char|].
  apply Forall_fmap, Forall_true. intros d'. apply is_digit_digit_char.
Qed.

Lemma random_choice_ascii_letters (draw : nat) :
  is_ascii_letter (random_choice ascii_letters draw) = true.
Proof.
  unfold random_choice.
  set (chars := String.list_ascii_of_string ascii_letters).
  assert (Forall (λ c, is_ascii_letter c = true) chars) as Hall
    by (unfold chars; simpl; repeat constructor).
  rewrite Forall_forall in Hall. apply Hall, list_elem_of_In, nth_In.
  apply Nat.mod_upper_bound. unfold chars. simpl. lia.
Qed.

Lemma os_path_join_relative (c : ascii) (rest : string) :
  c ≠ "/"%char →
  os_path_join "koji-upload" (String c rest) = ("koji-upload/" ++ String c rest)%string.
Proof.
  intros Hne. destruct c as [[] [] [] [] [] [] [] []]; try reflexivity. by destruct Hne.
Qed.

(** The generated name, character by character. *)
Lemma get_koji_upload_dir_chars (time_time : float_repr) (draws : nat → nat) :
  String.list_ascii_of_string (get_koji_upload_dir time_time draws)
  = String.list_ascii_of_string "koji-upload/" ++
    digits_chars (whole_digits time_time) ++ ["."%char] ++
    digits_chars (fraction_digits time_time) ++ ["."%char] ++
    ((λ i, random_choice ascii_letters (draws i)) <$> seq 0 8).
Proof.
  unfold get_koji_upload_dir, repr_float.
  destruct (digits_chars_are_digits (whole_digits time_time)) as (c & s & Hw & Hc & _).
  rewrite Hw. cbn [String.string_of_list_ascii].
  change (String c ?x ++ ?y)%string with (String c (x ++ y)%string).
  change (String c ?x ++ ?y)%string with (String c (x ++ y)%string).
  rewrite os_path_join_relative by (intros ->; discriminate Hc).
  rewrite list_ascii_of_string_app.
  change (String c ?x) with (String.string_of_list_ascii [c] ++ x)%string.
  rewrite !list_ascii_of_string_app, !String.list_ascii_of_string_of_list_ascii.
  change (String.list_ascii_of_string ".") with ["."%char].
  by rewrite <- !app_assoc.
Qed.

Lemma get_koji_upload_dir_matches (time_time : float_repr) (draws : nat → nat) :
  fullmatch KOJI_UPLOAD_DIR_PATTERN (get_koji_upload_dir time_time draws) = true.
Proof.
  unfold fullmatch. apply matches_chars_complete.
  rewrite get_koji_upload_dir_chars. unfold KOJI_UPLOAD_DIR_PATTERN.
  destruct (digits_chars_are_digits (whole_digits time_time)) as (c1 & s1 & -> & Hc1 & Hs1).
  destruct (digits_chars_are_digits (fraction_digits time_time))
    as (c2 & s2 & -> & Hc2 & Hs2).
  constructor; [apply in_language_Lit|].
  constructor; [by apply in_language_Plus_Class|].
  rewrite (app_assoc ["."%char] (c2 :: s2)).
  constructor.
  - apply in_Alt_l. constructor; [by constructor|by apply in_language_Plus_Class].
  - constructor; [by constructor|].
    pose proof (in_language_Times_Class is_ascii_letter
                  ((λ i, random_choice ascii_letters (draws i)) <$> seq 0 8)) as Hletters.
    rewrite length_fmap, length_seq in Hletters. apply Hletters.
    apply Forall_fmap, Forall_true. intros i. apply random_choice_ascii_letters.
Qed.

Lemma nullable_sound (r : regex) : nullable r = true → in_language r [].
Proof.
  induction r as [| |p|r1 IH1 r2 IH2|r1 IH1 r2 IH2|r IH]; simpl; try done.
  - constructor.
  - intros [H1 H2]%andb_prop. change [] with (@nil ascii ++ []). by constructor; auto.
  - intros [H1|H2]%orb_prop; [apply in_Alt_l|apply in_Alt_r]; auto.
  - constructor.
Qed.

Lemma derive_sound (r : regex) (c : ascii) (s : list ascii) :
  in_language (derive c r) s → in_language r (c :: s).
Proof.
  revert s. induction r as [| |p|r1 IH1 r2 IH2|r1 IH1 r2 IH2|r IH]; simpl; intros s H.
  - inversion H.
  - inversion H.
  - destruct (p c) eqn:Hp; inversion H; subst. by constructor.
  - assert (∀ s, in_language (Cat (derive c r1) r2) s → in_language (Cat r1 r2) (c :: s))
      as Hcat.
    { intros s0 H0. inversion H0 as [| |? ? s1 s2 H1 H2| | | |]; subst.
      change (c :: s1 ++ s2) with ((c :: s1) ++ s2). constructor; auto. }
    destruct (nullable r1) eqn:Hn; [|by apply Hcat].
    inversion H as [| | |? ? ? H1|? ? ? H2| |]; subst; [by apply Hcat|].
    change (c :: s) with ([] ++ c :: s). constructor; [by apply nullable_sound|auto].
  - inversion H as [| | |? ? ? H1|? ? ? H2| |]; subst;
      [apply in_Alt_l|apply in_Alt_r]; auto.
  - inversion H as [| |? ? s1 s2 H1 H2| | | |]; subst.
    change (c :: s1 ++ s2) with ((c :: s1) ++ s2). constructor; auto.
Qed.

(** The matcher decides membership in the language of the pattern. *)
Lemma matches_chars_in_language (r : regex) (s : list ascii) :
  matches_chars r s = true ↔ in_language r s.
Proof.
  split; [|apply matches_chars_complete].
  revert r. induction s as [|c s IH]; simpl; intros r H.
  - by apply nullable_sound.
  - by apply derive_sound, IH.
Qed.

Example koji_upload_dir_pattern_accepts :
  fullmatch KOJI_UPLOAD_DIR_PATTERN "koji-upload/1500000000.5.abcdEFGH" = true ∧
  fullmatch KOJI_UPLOAD_DIR_PATTERN "koji-upload/1500000000.abcdEFGH" = true.
Proof. by vm_compute. Qed.

Example koji_upload_dir_pattern_rejects :
  fullmatch KOJI_UPLOAD_DIR_PATTERN "koji-upload/1500000000.5.abcdEFG" = false ∧
  fullmatch KOJI_UPLOAD_DIR_PATTERN "koji-upload/1500000000.5.abcdEFG1" = false ∧
  fullmatch KOJI_UPLOAD_DIR_PATTERN "koji-upload/.5.abcdEFGH" = false ∧
  fullmatch KOJI_UPLOAD_DIR_PATTERN "upload/1500000000.5.abcdEFGH" = false ∧
  fullmatch KOJI_UPLOAD_DIR_PATTERN "koji-upload/1500000000.5.abcdEFGH/" = false.
Proof. by vm_compute. Qed.

(** C8. The upload directory is made when the plugin is constructed, from
    one reading of the clock and one series of eight random letters; it
    has the shape [^koji-upload/\\d+(\\.\\d+)?\\.[A-Za-z]{8}$]; and every worker
    build, whatever its platform and cluster, is created with that same
    value under [koji_upload_dir] (with the override's value, when the
    workspace overrides this very key: overrides are applied last). *)
Theorem koji_upload_dir_spec (time_time : float_repr) (draws : nat → nat)
    (kwargs : loc) (find_delay failure_delay : timedelta) (max_fails : Z)
    (task_id : option Z) (rel : option string) (rebuild : bool)
    (clusters : string → list Cluster) :
  let self := new_OrchestrateBuildPlugin time_time draws kwargs find_delay failure_delay
                max_fails task_id rel rebuild clusters in
  koji_upload_dir self = get_koji_upload_dir time_time draws ∧
  fullmatch KOJI_UPLOAD_DIR_PATTERN (koji_upload_dir self) = true ∧
  ∀ env ci st base ov,
    dicts st !! build_kwargs self = Some base →
    override_kwargs_content st = Some ov →
    ∃ (worker_kwargs : kwargs_dict) r rest,
      trace (do_worker_build env self ci st).2
      = trace st ++ EvCreateWorkerBuild (osbs ci) worker_kwargs r :: rest ∧
      worker_kwargs !! "koji_upload_dir"
      = Some (default (PyStr (get_koji_upload_dir time_time draws))
                      (ov !! "koji_upload_dir")).
Proof.
  intros self. split; [done|]. split; [apply get_koji_upload_dir_matches|].
  intros env ci st base ov Hbase Hov.
  destruct (do_worker_build_create_event env self ci st base ov Hbase Hov)
    as (r & rest & Htrace & _).
  eexists _, r, rest. split; [exact Htrace|].
  destruct (worker_build_kwargs_content_lookup base (release self) (platform ci)
              (koji_upload_dir self) (is_rebuild self) (fs_task_id self))
    as (_ & _ & _ & Hk & _).
  destruct (ov !! "koji_upload_dir") as [v|] eqn:Hv; simpl.
  - by apply lookup_union_Some_l.
  - rewrite lookup_union_r by done. exact Hk.
Qed.

(** C8 at a concrete run: two platforms, no override. *)
Lemma koji_upload_dir_spec_witness :
  let self := new_OrchestrateBuildPlugin Examples.clock_start_repr (λ i, 7 * i)%nat
                1%positive 15000000 10000000 20 None (Some "1") false
                (λ _, [cluster Examples.preferred_busy]) in
  let dispatched_kwargs ci (worker_kwargs : kwargs_dict) :=
    ∃ r rest,
      trace (do_worker_build Examples.friendly_env self ci Examples.initial_state).2
      = trace Examples.initial_state ++ EvCreateWorkerBuild (osbs ci) worker_kwargs r :: rest in
  koji_upload_dir self = "koji-upload/1500000000.5.ahovCJQX" ∧
  (dicts Examples.initial_state !! build_kwargs self = Some Examples.base_kwargs ∧
   override_kwargs_content Examples.initial_state = Some ∅) ∧
  (∃ worker_kwargs, dispatched_kwargs Examples.preferred_busy worker_kwargs ∧
     worker_kwargs !! "koji_upload_dir" = Some (PyStr "koji-upload/1500000000.5.ahovCJQX")) ∧
  (∃ worker_kwargs, dispatched_kwargs Examples.power_cluster worker_kwargs ∧
     worker_kwargs !! "koji_upload_dir" = Some (PyStr "koji-upload/1500000000.5.ahovCJQX")).
Proof.
  intros self dispatched_kwargs. split; [by vm_compute|].
  assert (dicts Examples.initial_state !! build_kwargs self = Some Examples.base_kwargs)
    as Hbase by reflexivity.
  assert (override_kwargs_content Examples.initial_state = Some ∅) as Hov by reflexivity.
  pose proof (proj2 (proj2 (koji_upload_dir_spec Examples.clock_start_repr (λ i, 7 * i)%nat
                              1%positive 15000000 10000000 20 None (Some "1") false
                              (λ _, [cluster Examples.preferred_busy])))
                Examples.friendly_env) as Hall.
  split; [by split|]. split.
  - destruct (Hall Examples.preferred_busy Examples.initial_state Examples.base_kwargs ∅
                Hbase Hov) as (kw & r & rest & Htrace & Hkw).
    exists kw. split; [by exists r, rest|exact Hkw].
  - destruct (Hall Examples.power_cluster Examples.initial_state Examples.base_kwargs ∅
                Hbase Hov) as (kw & r & rest & Htrace & Hkw).
    exists kw. split; [by exists r, rest|exact Hkw].
Defined.
(** ** Overrides *)

Lemma run_override_build_kwarg (k : string) (v : pyval) (st : State)
    (ov : kwargs_dict) :
  override_kwargs_content st = Some ov →
  ∃ st', override_build_kwarg k v st = (Return (), st') ∧
    override_kwargs_content st' = Some (<[k := v]> ov) ∧
    worker_builds st' = worker_builds st ∧ trace st' = trace st ∧ tick st' = tick st ∧
    ∀ l d, dicts st !! l = Some d → override_kwargs st ≠ Some l → dicts st' !! l = Some d.
Proof.
  unfold override_kwargs_content, override_build_kwarg, get_state. intros Hov.
  unfold mbind at 1, M_bind at 1.
  destruct (override_kwargs st) as [lo|] eqn:Hslot.
  - rewrite (bind_Return _ _ st st lo) by done.
    rewrite (run_dict_setitem lo k v ov st Hov). eexists. split; [done|].
    unfold override_kwargs_content. simpl. rewrite Hslot, lookup_insert_eq.
    repeat split; try done. intros l d Hl Hne. rewrite lookup_insert_ne; [done|congruence].
  - injection Hov as <-.
    set (l0 := fresh (dom (dicts st))).
    set (st0 := set_override_kwargs (Some l0) (set_dicts (<[l0 := ∅]> (dicts st)) st)).
    rewrite (bind_Return _ _ st st0 l0) by done.
    rewrite (run_dict_setitem l0 k v ∅ st0) by (simpl; apply lookup_insert_eq).
    eexists. split; [done|].
    unfold override_kwargs_content. simpl. rewrite lookup_insert_eq.
    repeat split; try done. intros l d Hl _.
    assert (l0 ≠ l) as Hfresh
      by (intros <-; unfold l0 in Hl; by rewrite fresh_loc_unused in Hl).
    by rewrite !lookup_insert_ne.
Qed.

(** X1. A build keyword argument that a peer overrides before the dispatch has
    the override's value in the creation call, whatever the plugin
    computes for that key. *)
Theorem overridden_kwarg_wins (env : Env) (self : OrchestrateBuildPlugin) (ci : ClusterInfo)
    (k : string) (v : pyval) (st : State) (base ov : kwargs_dict) :
  dicts st !! build_kwargs self = Some base →
  override_kwargs_content st = Some ov →
  override_kwargs st ≠ Some (build_kwargs self) →
  ∃ st1 (worker_kwargs : kwargs_dict) r rest,
    override_build_kwarg k v st = (Return (), st1) ∧
    trace (do_worker_build env self ci st1).2
    = trace st ++ EvCreateWorkerBuild (osbs ci) worker_kwargs r :: rest ∧
    worker_kwargs !! k = Some v.
Proof.
  intros Hbase Hov Hne.
  destruct (run_override_build_kwarg k v st ov Hov)
    as (st1 & Hrun & Hov1 & _ & Ht & _ & Hkeep).
  destruct (do_worker_build_create_event env self ci st1 base _ (Hkeep _ _ Hbase Hne) Hov1)
    as (r & rest & Htrace & _).
  eexists st1, _, r, rest. split; [exact Hrun|]. split; [by rewrite <- Ht|].
  apply lookup_union_Some_l, lookup_insert_eq.
Qed.

Lemma overridden_kwarg_wins_witness :
  (dicts Examples.initial_state !! build_kwargs Examples.example_plugin
   = Some Examples.base_kwargs ∧
   override_kwargs_content Examples.initial_state = Some ∅ ∧
   override_kwargs Examples.initial_state ≠ Some (build_kwargs Examples.example_plugin)) ∧
  ∃ st1 (worker_kwargs : kwargs_dict) r rest,
    override_build_kwarg "release" (PyStr "2.0") Examples.initial_state = (Return (), st1) ∧
    trace (do_worker_build Examples.friendly_env Examples.example_plugin
             Examples.preferred_busy st1).2
    = trace Examples.initial_state
      ++ EvCreateWorkerBuild (osbs Examples.preferred_busy) worker_kwargs r :: rest ∧
    worker_kwargs !! "release" = Some (PyStr "2.0").
Proof.
  assert (dicts Examples.initial_state !! build_kwargs Examples.example_plugin
          = Some Examples.base_kwargs) as Hbase by reflexivity.
  assert (override_kwargs_content Examples.initial_state = Some ∅) as Hov by reflexivity.
  assert (override_kwargs Examples.initial_state
          ≠ Some (build_kwargs Examples.example_plugin)) as Hne by discriminate.
  split; [by repeat split|].
  exact (overridden_kwarg_wins Examples.friendly_env Examples.example_plugin
           Examples.preferred_busy "release" (PyStr "2.0") Examples.initial_state
           Examples.base_kwargs ∅ Hbase Hov Hne).
Defined.

(* ===================================================================== *)
(** * Termination of the dispatch                                         *)
(* ===================================================================== *)

Lemma failed_remaining_fails (ctx : ClusterRetryContext) :
  failed ctx = true ↔ remaining_fails ctx = 0%nat.
Proof. unfold failed, remaining_fails. rewrite Z.leb_le. lia. Qed.

Lemma budget_lookup (contexts : gmap string ClusterRetryContext) (n : string)
    (ctx : ClusterRetryContext) :
  contexts !! n = Some ctx →
  budget contexts = (remaining_fails ctx + budget (delete n contexts))%nat.
Proof.
  intros Hn. unfold budget.
  rewrite (map_fold_delete_L (λ _ c acc, (remaining_fails c + acc)%nat) 0%nat n ctx contexts);
    [done| |done].
  intros. lia.
Qed.

Lemma budget_insert (contexts : gmap string ClusterRetryContext) (n : string)
    (ctx ctx' : ClusterRetryContext) :
  contexts !! n = Some ctx →
  (budget (<[n := ctx']> contexts) + remaining_fails ctx
   = budget contexts + remaining_fails ctx')%nat.
Proof.
  intros Hn. rewrite (budget_lookup contexts n ctx Hn).
  rewrite (budget_lookup (<[n := ctx']> contexts) n ctx') by apply lookup_insert_eq.
  rewrite delete_insert_eq. lia.
Qed.

Lemma budget_zero (contexts : gmap string ClusterRetryContext) :
  budget contexts = 0%nat ↔ ∀ n ctx, contexts !! n = Some ctx → failed ctx = true.
Proof.
  split.
  - intros Hzero n ctx Hn. rewrite (budget_lookup _ _ _ Hn) in Hzero.
    apply failed_remaining_fails. lia.
  - induction contexts as [|n ctx m Hn IH] using map_ind.
    + intros _. apply map_fold_empty.
    + intros Hall.
      rewrite (budget_lookup (<[n := ctx]> m) n ctx) by apply lookup_insert_eq.
      rewrite delete_insert_id by done. rewrite IH.
      * assert (failed ctx = true) as Hf by (apply (Hall n); apply lookup_insert_eq).
        apply failed_remaining_fails in Hf. lia.
      * intros n' ctx' Hn'. apply (Hall n'). rewrite lookup_insert_ne; [done|].
        intros <-. congruence.
Qed.

Section termination.
Context (env : Env) (self : OrchestrateBuildPlugin).
Context (Hclock : clock_advances env).

Lemma clock_later (n m : nat) : (n ≤ m)%nat → env_now env n + Z.of_nat (m - n) ≤ env_now env m.
Proof.
  induction 1 as [|m Hle IH].
  - rewrite Nat.sub_diag. simpl. lia.
  - specialize (Hclock m). replace (S m - n)%nat with (S (m - n)) by lia. lia.
Qed.

Lemma clock_monotone (n m : nat) : (n ≤ m)%nat → env_now env n ≤ env_now env m.
Proof. intros Hle. pose proof (clock_later n m Hle). lia. Qed.

Lemma retry_bounded_later (D : Z) (contexts : gmap string ClusterRetryContext)
    (t t' : nat) :
  (t ≤ t')%nat → retry_bounded env D contexts t → retry_bounded env D contexts t'.
Proof.
  intros Hle Hb n ctx Hn. specialize (Hb n ctx Hn).
  pose proof (clock_monotone t t' Hle). lia.
Qed.


Lemma run_in_retry_wait (ctx : ClusterRetryContext) (st : State) :
  in_retry_wait env ctx st = (Return (env_now env (tick st) <? retry_at ctx), interact [] st).
Proof. done. Qed.

Lemma run_try_again_later (delay : timedelta) (ctx : ClusterRetryContext) (st : State) :
  failed ctx = false →
  try_again_later env delay ctx st
  = (Return {| fails := fails ctx + 1; retry_at := env_now env (tick st) + delay;
               max_cluster_fails := max_cluster_fails ctx |},
     interact [] st).
Proof. intros Hf. unfold try_again_later. by rewrite Hf. Qed.

(** One round of the probing loop on one candidate: it is skipped, or it
    answers, or its context counts a failure. *)
Lemma probe_cluster_step (plat : string)
    (acc : list ClusterInfo * gmap string ClusterRetryContext) (c : Cluster) (st : State) :
  ∃ o st', probe_cluster env self plat acc c st = (o, st') ∧
    (tick st ≤ tick st')%nat ∧ o ≠ Timeout ∧
    ∀ acc', o = Return acc' →
      (acc' = acc ∧ ∃ ctx, acc.2 !! name c = Some ctx ∧
         (failed ctx = true ∨ env_now env (tick st) < retry_at ctx)) ∨
      (∃ ci, acc' = (acc.1 ++ [ci], acc.2) ∧ cluster ci = c ∧
         context_failed acc.2 c = false) ∨
      (∃ ctx ctx' t, acc.2 !! name c = Some ctx ∧ failed ctx = false ∧
         acc' = (acc.1, <[name c := ctx']> acc.2) ∧
         fails ctx' = fails ctx + 1 ∧ max_cluster_fails ctx' = max_cluster_fails ctx ∧
         (tick st ≤ t ≤ tick st')%nat ∧
         retry_at ctx' = env_now env t + find_cluster_retry_delay self).
Proof.
  unfold probe_cluster. destruct (acc.2 !! name c) as [ctx|] eqn:Hctx.
  2:{ eexists _, _. split; [done|]. split; [done|]. split; [done|]. by intros ? [=]. }
  rewrite (bind_Return _ _ _ _ _ (run_in_retry_wait ctx st)).
  destruct (env_now env (tick st) <? retry_at ctx) eqn:Hwait.
  { eexists _, _. split; [done|]. split; [simpl; lia|]. split; [done|].
    intros acc' [= <-]. left. split; [done|]. exists ctx. split; [done|].
    right. by apply Z.ltb_lt. }
  destruct (failed ctx) eqn:Hfailed.
  { eexists _, _. split; [done|]. split; [simpl; lia|]. split; [done|].
    intros acc' [= <-]. left. split; [done|]. exists ctx. split; [done|]. by left. }
  unfold try_except, get_cluster_info, get_current_builds, client_call, mbind, M_bind.
  simpl.
  destruct (env_list_builds env (S (tick st)) (name c)) as [n|e]; simpl.
  - destruct (max_concurrent_builds c =? 0); simpl.
    + eexists _, _. split; [done|]. split; [simpl; lia|]. split; [done|]. by intros ? [=].
    + eexists _, _. split; [done|]. split; [simpl; lia|]. split; [done|].
      intros acc' [= <-]. right. left. eexists. split; [done|]. split; [done|].
      unfold context_failed. by rewrite Hctx.
  - destruct (is_OsbsException e); simpl.
    + unfold try_again_later. rewrite Hfailed. simpl.
      eexists _, _. split; [done|]. split; [simpl; lia|]. split; [done|].
      intros acc' [= <-]. right. right. eexists ctx, _, (S (S (tick st))).
      split; [done|]. split; [done|]. split; [done|]. simpl.
      split; [done|]. split; [done|]. split; [lia|done].
    + eexists _, _. split; [done|]. split; [simpl; lia|]. split; [done|]. by intros ? [=].
Qed.

Context (D : Z) (Hfind : find_cluster_retry_delay self ≤ D)
        (Hfailure : failure_retry_delay self ≤ D).

Lemma foldM_probe_cluster (plat : string) (cs : list Cluster)
    (acc : list ClusterInfo * gmap string ClusterRetryContext) (st : State) :
  ∃ o st', foldM (probe_cluster env self plat) acc cs st = (o, st') ∧ o ≠ Timeout ∧
    ∀ acc', o = Return acc' → probing_round env D acc.2 acc.1 cs st acc' st'.
Proof.
  revert acc st. induction cs as [|c cs IH]; intros acc st; simpl.
  { eexists _, _. split; [done|]. split; [done|]. intros acc' [= <-].
    split; [done|]. split; [done|]. split; [done|]. split; [done|]. right. split; [done|].
    exists []. split; [by rewrite app_nil_r|]. split; [by intros ? ?%elem_of_nil|].
    by intros _ ? ?%elem_of_nil. }
  destruct (probe_cluster_step plat acc c st) as (o1 & st1 & Hrun1 & Htick1 & Hto1 & Hstep).
  destruct o1 as [acc1|e|]; [|by rewrite (bind_Raise _ _ _ _ _ Hrun1); eexists _, _|done].
  rewrite (bind_Return _ _ _ _ _ Hrun1).
  destruct (IH acc1 st1) as (o & st' & Hrun & Hto & Hsum).
  exists o, st'. split; [done|]. split; [done|]. intros acc' ->.
  destruct (Hsum acc' eq_refl) as (Hdom & Htick & Hbound & Hdead & Hcases).
  destruct (Hstep acc1 eq_refl)
    as [[-> (ctx & Hctx & Hskip)]
       |[(ci & -> & Hci & Hlive)
        |(ctx & ctx' & t & Hctx & Hlive & -> & Hfails & Hmax & Ht & Hretry)]].
  - (* the candidate was skipped *)
    split; [done|]. split; [lia|]. split.
    { intros Hb. by apply Hbound, (retry_bounded_later D _ (tick st)). }
    split; [done|].
    destruct Hcases as [Hless|(Heq & new & Hnew & Hlive & Hnone)]; [by left|].
    right. split; [done|]. exists new. split; [done|]. split; [done|].
    intros Hnil c' [->|Hc']%elem_of_cons.
    + exists ctx, (tick st). split; [done|].
      destruct Hskip as [?|?]; [by left|right; by split].
    + destruct (Hnone Hnil c' Hc') as (ctx0 & t & Hctx0 & Hev). exists ctx0, t.
      split; [done|]. destruct Hev as [?|[? ?]]; [by left|right; split; [lia|done]].
  - (* the candidate answered *)
    simpl in *. split; [done|]. split; [lia|]. split.
    { intros Hb. by apply Hbound, (retry_bounded_later D _ (tick st)). }
    split; [done|].
    destruct Hcases as [Hless|(Heq & new & Hnew & Hlive' & Hnone)]; [by left|].
    right. split; [done|]. exists (ci :: new). split; [by rewrite Hnew, <- app_assoc|].
    split; [|done]. intros ci' [->|Hin]%elem_of_cons; [by rewrite Hci|by apply Hlive'].
  - (* the candidate failed: its context counts it *)
    simpl in *.
    assert (budget (<[name c := ctx']> acc.2) < budget acc.2)%nat as Hless.
    { pose proof (budget_insert acc.2 (name c) ctx ctx' Hctx) as Hb.
      assert (remaining_fails ctx' < remaining_fails ctx)%nat; [|lia].
      unfold remaining_fails. rewrite Hfails, Hmax.
      unfold failed in Hlive. apply Z.leb_gt in Hlive. lia. }
    split.
    { intros n. rewrite Hdom. destruct (decide (n = name c)) as [->|Hne].
      - rewrite lookup_insert_eq, Hctx. split; by eexists.
      - by rewrite lookup_insert_ne. }
    split; [lia|]. split.
    { intros Hb. apply Hbound. intros n ctx0.
      destruct (decide (n = name c)) as [->|Hne].
      - rewrite lookup_insert_eq. intros [= <-]. rewrite Hretry.
        pose proof (clock_monotone t (tick st1)). lia.
      - rewrite lookup_insert_ne by done. intros Hn.
        by apply (retry_bounded_later D _ (tick st) (tick st1) Htick1 Hb n). }
    split.
    { intros n ctx0 Hn Hf. apply Hdead; [|done]. rewrite lookup_insert_ne; [done|].
      intros <-. congruence. }
    left. destruct Hcases as [?|[-> _]]; lia.
Qed.

Lemma wait_left_bounded (contexts : gmap string ClusterRetryContext) (t : nat) :
  retry_bounded env D contexts t → (wait_left env contexts t ≤ Z.to_nat D)%nat.
Proof.
  intros Hb. unfold wait_left. destruct (earliest_retry_at contexts) as [e|] eqn:He; [|lia].
  apply earliest_retry_at_Some in He as [(n & ctx & Hn & _ & <-) _].
  specialize (Hb n ctx Hn). lia.
Qed.

Context (clusters : list Cluster).

Lemma contexts_of_same_keys (contexts contexts' : gmap string ClusterRetryContext) :
  (∀ n, is_Some (contexts' !! n) ↔ is_Some (contexts !! n)) →
  contexts_of clusters contexts → contexts_of clusters contexts'.
Proof.
  intros Hdom [H1 H2]. split.
  - intros c Hc. apply Hdom. by apply H1.
  - intros n Hn. apply H2. by apply Hdom.
Qed.

Lemma get_clusters_loop_terminates (plat : string) (fuel : nat)
    (contexts : gmap string ClusterRetryContext) (candidates : list Cluster) (st : State) :
  contexts_of clusters contexts →
  (∀ c, c ∈ candidates → c ∈ clusters) →
  (∀ c, c ∈ clusters → context_failed contexts c = false → c ∈ candidates) →
  retry_bounded env D contexts (tick st) →
  (selector_measure env D contexts (tick st) < fuel)%nat →
  ∃ o st', get_clusters_loop env self fuel plat contexts candidates st = (o, st') ∧
    o ≠ Timeout ∧ ∀ acc, o = Return acc → selector_result env D clusters contexts st acc st'.
Proof.
  revert contexts candidates st.
  induction fuel as [|fuel IH]; intros contexts candidates st Hof Hsub Hall Hb Hfuel;
    [lia|].
  simpl. destruct candidates as [|c0 candidates0] eqn:Hcand.
  { (* no candidate is left: every context is dead *)
    eexists _, _. split; [done|]. split; [done|]. intros acc [= <-]. simpl.
    assert (budget contexts = 0%nat) as Hzero.
    { apply budget_zero. intros n ctx Hn.
      destruct (proj2 Hof n) as (c & Hc & <-); [by eexists|].
      destruct (context_failed contexts c) eqn:Hf.
      - unfold context_failed in Hf. by rewrite Hn in Hf.
      - by apply Hall, elem_of_nil in Hf. }
    split; [done|]. split; [done|]. split; [done|]. split; [|done].
    right. split; [done|]. by intros ? ?%elem_of_nil. }
  rewrite <- Hcand in *. clear Hcand c0 candidates0.
  unfold wait_for_any_cluster.
  destruct (earliest_retry_at contexts) as [e|] eqn:He.
  2:{ eexists _, _. split; [done|]. split; [done|]. by intros ? [=]. }
  set (st1 := interact [EvSleep (td_seconds (Z.max 0 (e - env_now env (tick st))))]
                (interact [] st)).
  rewrite (bind_Return _ _ st st1 ()) by done.
  destruct (foldM_probe_cluster plat (sorted priority Z.leb candidates) ([], contexts) st1)
    as (o1 & st2 & Hfold & Hto & Hround).
  destruct o1 as [acc|ex|]; [|by rewrite (bind_Raise _ _ _ _ _ Hfold); eexists _, _|done].
  rewrite (bind_Return _ _ _ _ _ Hfold).
  destruct (Hround acc eq_refl) as (Hdom & Htick & Hbound & Hdead & Hcases).
  simpl in Hdom, Hbound, Hdead, Hcases.
  assert (tick st1 = S (S (tick st))) as Htick1 by done.
  assert (retry_bounded env D acc.2 (tick st2)) as Hb2.
  { apply Hbound, (retry_bounded_later D _ (tick st)); [lia|done]. }
  assert (contexts_of clusters acc.2) as Hof2 by (by apply (contexts_of_same_keys contexts)).
  destruct acc.1 as [|ci possible] eqn:Hposs.
  2:{ (* some cluster answered *)
      eexists _, _. split; [done|]. split; [done|]. intros acc' [= <-].
      split; [done|]. split; [lia|]. split; [done|]. split; [|by rewrite Hposs].
      destruct Hcases as [?|(Heq & new & Hnew & Hlive & _)]; [by left|].
      right. split; [done|]. rewrite Hposs. simpl in Hnew. by rewrite Hnew. }
  (* nobody answered: the loop goes on, with a smaller measure *)
  set (candidates' := filter (λ c, context_failed acc.2 c = false) candidates).
  assert (selector_measure env D acc.2 (tick st2) < selector_measure env D contexts (tick st))%nat
    as Hless.
  { unfold selector_measure.
    destruct Hcases as [Hbudget|(Heq & new & Hnew & _ & Hskipped)].
    - pose proof (wait_left_bounded acc.2 (tick st2) Hb2). nia.
    - rewrite Heq. simpl in Hnew. subst new.
      assert (wait_left env contexts (tick st2) < wait_left env contexts (tick st))%nat; [|lia].
      unfold wait_left. rewrite He.
      pose proof (earliest_retry_at_Some _ _ He) as [(n & ctx & Hn & Hlive & Hretry) _].
      destruct (proj2 Hof n) as (c & Hc & <-); [by eexists|].
      assert (c ∈ sorted priority Z.leb candidates) as Hin.
      { rewrite sorted_Permutation. apply Hall; [done|].
        unfold context_failed. by rewrite Hn. }
      destruct (Hskipped eq_refl c Hin) as (ctx' & t & Hn' & Hev).
      rewrite Hn in Hn'. injection Hn' as <-.
      destruct Hev as [Hf|[Ht Hearly]]; [congruence|].
      pose proof (Hclock (tick st)). pose proof (Hclock (S (tick st))).
      pose proof (clock_monotone (tick st1) t Ht).
      pose proof (clock_monotone (tick st1) (tick st2) Htick).
      rewrite Htick1 in *. lia. }
  destruct (IH acc.2 candidates' st2) as (o & st' & Hrun & Hto' & Hres).
  - done.
  - intros c [_ Hc]%list_elem_of_filter. by apply Hsub.
  - intros c Hc Hlive. apply list_elem_of_filter. split; [done|]. apply Hall; [done|].
    unfold context_failed in *. destruct (contexts !! name c) as [ctx|] eqn:Hn; [|done].
    destruct (failed ctx) eqn:Hf; [|done]. rewrite (Hdead _ _ Hn Hf) in Hlive. congruence.
  - done.
  - lia.
  - exists o, st'. split; [done|]. split; [done|]. intros acc' ->.
    destruct (Hres acc' eq_refl) as (Hof' & Htick' & Hb' & Hcases' & Hnone').
    split; [done|]. split; [lia|]. split; [done|]. split; [|done].
    destruct Hcases as [Hbudget|(Heq & _)].
    + left. destruct Hcases' as [?|[-> _]]; lia.
    + rewrite Heq in Hcases'. done.
Qed.

Lemma contexts_of_insert (contexts : gmap string ClusterRetryContext) (n : string)
    (ctx' : ClusterRetryContext) :
  is_Some (contexts !! n) → contexts_of clusters contexts →
  contexts_of clusters (<[n := ctx']> contexts).
Proof.
  intros Hn. apply contexts_of_same_keys. intros n'.
  destruct (decide (n' = n)) as [->|Hne].
  - rewrite lookup_insert_eq. split; [done|by eexists].
  - by rewrite lookup_insert_ne.
Qed.

(** The loop over the probed clusters, when every creation fails with a
    client error: the contexts it hands back. *)
Lemma start_on_first_cluster_terminates (possible : list ClusterInfo)
    (contexts : gmap string ClusterRetryContext) (st : State) :
  contexts_of clusters contexts →
  retry_bounded env D contexts (tick st) →
  ∃ o st', start_on_first_cluster env self possible contexts st = (o, st') ∧
    o ≠ Timeout ∧
    ∀ contexts', o = Return (Some contexts') →
      contexts_of clusters contexts' ∧ (tick st ≤ tick st')%nat ∧
      retry_bounded env D contexts' (tick st') ∧
      (budget contexts' ≤ budget contexts)%nat ∧
      (∀ ci rest, possible = ci :: rest → context_failed contexts (cluster ci) = false →
                  (budget contexts' < budget contexts)%nat).
Proof.
  revert contexts st. induction possible as [|ci possible IH]; intros contexts st Hof Hb; simpl.
  { eexists _, _. split; [done|]. split; [done|]. intros ? [= <-].
    split; [done|]. split; [done|]. split; [done|]. split; [done|]. by intros ? ? [=]. }
  destruct (contexts !! name (cluster ci)) as [ctx|] eqn:Hctx.
  2:{ eexists _, _. split; [done|]. split; [done|]. by intros ? [=]. }
  unfold mbind at 1, M_bind at 1, try_except. unfold mbind at 1, M_bind at 1.
  destruct (do_worker_build env self ci st) as [o1 st1] eqn:Hdo.
  apply do_worker_build_attempt in Hdo.
  destruct Hdo as [e kw st1 He Hw Ho Ht Htick|o1 bi evs st1 Hfail Hw Hp Ho Ht Hbi].
  2:{ (* a record was appended: the function returns or raises *)
      destruct o1 as [[]|e|]; simpl in Hfail.
      - eexists _, _. split; [done|]. split; [done|]. by intros ? [=].
      - destruct Hfail as (e' & [= <-] & ->).
        eexists _, _. split; [done|]. split; [done|]. by intros ? [=].
      - by destruct Hfail as (? & [=] & _). }
  (* a client error: the context counts it and the next cluster is tried *)
  rewrite He.
  destruct (failed ctx) eqn:Hfailed.
  - assert (try_again_later env (failure_retry_delay self) ctx st1 = (Return ctx, st1))
      as Hlater by (unfold try_again_later; by rewrite Hfailed).
    rewrite (bind_Return _ _ _ _ _ Hlater). simpl. rewrite insert_id by done.
    destruct (IH contexts st1) as (o & st' & Hrun & Hto & Hres); [done| |].
    { apply (retry_bounded_later D _ (tick st)); [lia|done]. }
    exists o, st'. split; [done|]. split; [done|]. intros contexts' ->.
    destruct (Hres contexts' eq_refl) as (Hof' & Htick' & Hb' & Hle & _).
    split; [done|]. split; [lia|]. split; [done|]. split; [done|].
    intros ci' rest [= <- <-] Hlive. unfold context_failed in Hlive.
    rewrite Hctx in Hlive. congruence.
  - rewrite (bind_Return _ _ _ _ _ (run_try_again_later (failure_retry_delay self) ctx st1
                                      Hfailed)).
    simpl.
    set (ctx' := {| fails := fails ctx + 1;
                    retry_at := env_now env (tick st1) + failure_retry_delay self;
                    max_cluster_fails := max_cluster_fails ctx |}).
    assert (budget (<[name (cluster ci) := ctx']> contexts) < budget contexts)%nat as Hless.
    { pose proof (budget_insert contexts (name (cluster ci)) ctx ctx' Hctx) as Hbi.
      assert (remaining_fails ctx' < remaining_fails ctx)%nat; [|lia].
      unfold remaining_fails, ctx'. simpl.
      unfold failed in Hfailed. apply Z.leb_gt in Hfailed. lia. }
    destruct (IH (<[name (cluster ci) := ctx']> contexts) (interact [] st1))
      as (o & st' & Hrun & Hto & Hres).
    { apply contexts_of_insert; [by eexists|done]. }
    { intros n ctx0. destruct (decide (n = name (cluster ci))) as [->|Hne].
      - rewrite lookup_insert_eq. intros [= <-]. simpl.
        pose proof (Hclock (tick st1)). lia.
      - rewrite lookup_insert_ne by done. intros Hn.
        apply (retry_bounded_later D _ (tick st) (tick (interact [] st1))) in Hb;
          [by apply (Hb n)|simpl; lia]. }
    exists o, st'. split; [done|]. split; [done|]. intros contexts' ->.
    destruct (Hres contexts' eq_refl) as (Hof' & Htick' & Hb' & Hle & _).
    simpl in Htick'.
    split; [done|]. split; [lia|]. split; [done|]. split; [lia|]. intros. lia.
Qed.

(** When every context is dead the dispatch ends with the sentinel. *)
Lemma select_loop_all_dead (plat : string) (fuel : nat)
    (contexts : gmap string ClusterRetryContext) (st : State) :
  clusters ≠ [] → budget contexts = 0%nat →
  ∃ st', select_loop env self (S fuel) plat clusters contexts st = (Return (), st').
Proof.
  intros Hne Hzero.
  pose proof (proj2 (earliest_retry_at_None contexts) (proj1 (budget_zero contexts) Hzero))
    as Hdead.
  destruct clusters as [|c cs] eqn:Hcs; [done|].
  simpl. unfold get_clusters. simpl. unfold wait_for_any_cluster. rewrite Hdead.
  unfold try_except, mbind, M_bind, raise, append_worker_build. simpl. by eexists.
Qed.

Lemma select_loop_terminates (plat : string) (b : nat) :
  ∀ fuel contexts st,
    clusters ≠ [] → contexts_of clusters contexts →
    retry_bounded env D contexts (tick st) →
    (budget contexts ≤ b)%nat → (enough_fuel D b ≤ fuel)%nat →
    (select_loop env self fuel plat clusters contexts st).1 ≠ Timeout.
Proof.
  unfold enough_fuel.
  induction b as [|b IH]; intros fuel contexts st Hne Hof Hb Hbudget Hfuel.
  { destruct fuel as [|fuel]; [lia|].
    destruct (select_loop_all_dead plat fuel contexts st Hne) as [st' ->]; [lia|done]. }
  destruct fuel as [|fuel]; [lia|].
  destruct (decide (budget contexts = 0%nat)) as [Hzero|Hpos].
  { by destruct (select_loop_all_dead plat fuel contexts st Hne Hzero) as [st' ->]. }
  simpl. unfold get_clusters.
  destruct (get_clusters_loop_terminates plat (S fuel) contexts clusters st)
    as (o1 & st1 & Hloop & Hto1 & Hres); [done..| |].
  { unfold selector_measure. pose proof (wait_left_bounded contexts (tick st) Hb). nia. }
  unfold mbind at 1, M_bind at 1, try_except. unfold mbind at 1, M_bind at 1.
  unfold mbind at 1, M_bind at 1. rewrite Hloop.
  destruct o1 as [acc|e|]; [|by destruct (is_AllClustersFailedException e)|done].
  simpl.
  destruct (Hres acc eq_refl) as (Hof1 & Htick1 & Hb1 & Hcases & Hnone).
  destruct (start_on_first_cluster_terminates (sort_cluster_infos acc.1) acc.2 st1 Hof1 Hb1)
    as (o2 & st2 & Hstart & Hto2 & Hres2).
  unfold mbind, M_bind. rewrite Hstart.
  destruct o2 as [[contexts2|]|e|]; [|done|done|done].
  destruct (Hres2 contexts2 eq_refl) as (Hof2 & Htick2 & Hb2 & Hle2 & Hfirst).
  destruct (decide (budget contexts2 ≤ b)%nat) as [Hsmall|Hbig].
  { apply IH; [done..|lia]. }
  (* otherwise nothing was counted, which cannot be *)
  exfalso. destruct Hcases as [Hless|(Heq & Hlive)]; [lia|].
  destruct (sort_cluster_infos acc.1) as [|ci rest] eqn:Hsorted.
  - assert (acc.1 = []) as Hnil.
    { apply Permutation_nil_r. rewrite <- Hsorted. symmetry.
      apply sort_cluster_infos_Permutation. }
    specialize (Hnone Hnil). lia.
  - assert (budget contexts2 < budget acc.2)%nat; [|rewrite Heq in *; lia].
    apply (Hfirst ci rest eq_refl). rewrite Heq. apply Hlive.
    rewrite <- (sort_cluster_infos_Permutation acc.1), Hsorted. apply elem_of_cons. by left.
Qed.

End termination.

Lemma new_retry_contexts_lookup (self : OrchestrateBuildPlugin) (clusters : list Cluster)
    (n : string) :
  new_retry_contexts self clusters !! n
  = if decide (n ∈ name <$> clusters)
    then Some (new_ClusterRetryContext (plugin_max_cluster_fails self)) else None.
Proof.
  unfold new_retry_contexts.
  set (f := λ (contexts : gmap string ClusterRetryContext) (c : Cluster),
              <[name c := new_ClusterRetryContext (plugin_max_cluster_fails self)]> contexts).
  assert (∀ l m, foldl f m l !! n
                 = if decide (n ∈ name <$> l)
                   then Some (new_ClusterRetryContext (plugin_max_cluster_fails self))
                   else m !! n) as Hgen.
  { induction l as [|c l IH]; intros m.
    - simpl foldl. destruct (decide (n ∈ name <$> [])) as [Hin|]; [|done].
      by apply elem_of_nil in Hin.
    - simpl foldl. rewrite IH. rewrite fmap_cons.
      destruct (decide (n ∈ name <$> l)) as [Hin|Hnin];
        destruct (decide (n ∈ name c :: (name <$> l))) as [Hin'|Hnin']; try done.
      + exfalso. apply Hnin'. apply elem_of_cons. by right.
      + apply elem_of_cons in Hin' as [->|?]; [|done]. unfold f. by rewrite lookup_insert_eq.
      + unfold f. rewrite lookup_insert_ne; [done|]. intros <-. apply Hnin'.
        apply elem_of_cons. by left. }
  rewrite Hgen. by rewrite lookup_empty.
Qed.

(** X2. With a clock that advances, [select_and_start_cluster] ends: there
    is an amount of fuel from which on it never runs out of fuel, so the
    dispatch for a platform returns or raises. *)
Theorem select_and_start_cluster_terminates (env : Env) (self : OrchestrateBuildPlugin)
    (plat : string) (st : State) :
  clock_advances env →
  ∃ fuel0, ∀ fuel, (fuel0 ≤ fuel)%nat →
    (select_and_start_cluster env self fuel plat st).1 ≠ Timeout.
Proof.
  intros Hclock. unfold select_and_start_cluster.
  destruct (get_enabled_clusters_for_platform self plat) as [|c cs] eqn:Hclusters.
  { exists 0%nat. by intros fuel _. }
  set (clusters := c :: cs).
  set (contexts := new_retry_contexts self clusters).
  set (D := Z.max (Z.max (find_cluster_retry_delay self) (failure_retry_delay self))
                  (- env_now env (tick st))).
  exists (enough_fuel D (budget contexts)). intros fuel Hfuel.
  apply (select_loop_terminates env self Hclock D) with (b := budget contexts);
    [lia|lia|done| | |done|done]; unfold contexts.
  - split.
    + intros c' Hc'. rewrite new_retry_contexts_lookup.
      rewrite decide_True; [by eexists|]. by apply list_elem_of_fmap_2.
    + intros n [ctx Hn]. rewrite new_retry_contexts_lookup in Hn.
      destruct (decide (n ∈ name <$> clusters)) as [Hin|]; [|done].
      apply list_elem_of_fmap in Hin as (c' & -> & Hc'). by exists c'.
  - intros n ctx Hn. rewrite new_retry_contexts_lookup in Hn.
    destruct (decide (n ∈ name <$> clusters)); [|done]. injection Hn as <-. simpl.
    unfold utcfromtimestamp_0. lia.
Qed.

Lemma select_and_start_cluster_terminates_witness :
  clock_advances Examples.unreachable_env ∧
  ∃ fuel0, ∀ fuel, (fuel0 ≤ fuel)%nat →
    (select_and_start_cluster Examples.unreachable_env Examples.example_plugin fuel
       "x86_64" Examples.initial_state).1 ≠ Timeout.
Proof.
  assert (clock_advances Examples.unreachable_env) as Hclock.
  { intros n. simpl. unfold timedelta_of_seconds, MICROSECONDS_PER_SECOND. lia. }
  split; [exact Hclock|].
  exact (select_and_start_cluster_terminates Examples.unreachable_env Examples.example_plugin
           "x86_64" Examples.initial_state Hclock).
Defined.

(* ===================================================================== *)
(** * Further properties of the platforms and the retry contexts          *)
(* ===================================================================== *)

(** X3. [get_platforms] is idempotent: called again on the platforms the
    first call has left in [self.platforms], it returns the same set and
    leaves [self.platforms] as it is. *)
Theorem get_platforms_idempotent (self_platforms : gset string)
    (container : option container_yaml) :
  get_platforms (get_platforms self_platforms container).1 container
  = get_platforms self_platforms container.
Proof.
  destruct container as [[|[[data_platforms|]|]]|]; try reflexivity. simpl.
  destruct (bool_decide (make_list (get_or_empty_list (platforms_only data_platforms)) ≠ []));
    [|reflexivity].
  f_equal; [|f_equal]; apply set_eq; set_solver.
Qed.

(** X4. [get_platforms] never adds a platform: what it returns is part
    of what it leaves in [self.platforms], which is part of the platforms
    the plugin was made with. *)
Theorem get_platforms_never_adds (self_platforms : gset string)
    (container : option container_yaml) :
  (get_platforms self_platforms container).2 ⊆ (get_platforms self_platforms container).1 ∧
  (get_platforms self_platforms container).1 ⊆ self_platforms.
Proof.
  destruct container as [[|[[data_platforms|]|]]|]; simpl; try set_solver.
  destruct (bool_decide (make_list (get_or_empty_list (platforms_only data_platforms)) ≠ []));
    set_solver.
Qed.

(** X5. An [only] entry that is given but names no platform, such as an
    [only] key left blank (null) or a number, leaves no platform at all:
    the set made of it is not empty, so it is intersected with. *)
Theorem get_platforms_only_without_names (self_platforms : gset string)
    (data_platforms : platforms_mapping) :
  let only := make_list (get_or_empty_list (platforms_only data_platforms)) in
  only ≠ [] → (∀ p, YStr p ∉ only) →
  get_platforms self_platforms (Some (YamlMapping (Some (Some data_platforms)))) = (∅, ∅).
Proof.
  intros only Hne Hnames. simpl. fold only. rewrite bool_decide_eq_true_2 by done.
  assert (platform_names only = ∅) as ->.
  { apply set_eq. intros p. rewrite elem_of_platform_names. set_solver. }
  f_equal; apply set_eq; set_solver.
Qed.

Lemma get_platforms_only_without_names_witness :
  (make_list (get_or_empty_list (Some (YScalar YNull))) ≠ [] ∧
   ∀ p, YStr p ∉ make_list (get_or_empty_list (Some (YScalar YNull)))) ∧
  get_platforms Examples.scenario_platforms (Some Examples.blank_only_manifest) = (∅, ∅).
Proof.
  assert (make_list (get_or_empty_list (Some (YScalar YNull))) ≠ []) as Hne by discriminate.
  assert (∀ p, YStr p ∉ make_list (get_or_empty_list (Some (YScalar YNull)))) as Hnames.
  { intros p [=]%list_elem_of_singleton. }
  split; [by split|].
  exact (get_platforms_only_without_names Examples.scenario_platforms
           {| platforms_not := None; platforms_only := Some (YScalar YNull) |} Hne Hnames).
Defined.

(** X6. A context never counts more failures than [max_cluster_fails]:
    after any number of calls of [try_again_later], [fails] is the number
    of calls added to what it was, capped at [max_cluster_fails], and the
    clock was read once for every failure counted. *)
Theorem try_again_later_counts_to_max (env : Env) (delays : list timedelta)
    (ctx : ClusterRetryContext) (st : State) :
  fails ctx ≤ max_cluster_fails ctx →
  ∃ ctx' st', try_again_later_many env delays ctx st = (Return ctx', st') ∧
    fails ctx' = Z.min (fails ctx + Z.of_nat (length delays)) (max_cluster_fails ctx) ∧
    max_cluster_fails ctx' = max_cluster_fails ctx ∧
    Z.of_nat (tick st') = Z.of_nat (tick st) + (fails ctx' - fails ctx) ∧
    trace st' = trace st.
Proof.
  unfold try_again_later_many. revert ctx st.
  induction delays as [|d delays IH]; intros ctx st Hle.
  { exists ctx, st. simpl. repeat split; lia. }
  destruct (failed ctx) eqn:Hfailed.
  - rewrite (try_again_later_dead_many env ctx (d :: delays) st Hfailed).
    unfold failed in Hfailed. apply Z.leb_le in Hfailed.
    exists ctx, st. cbn [length]. repeat split; lia.
  - cbn [foldM]. erewrite bind_Return by (by apply run_try_again_later).
    unfold failed in Hfailed. apply Z.leb_gt in Hfailed.
    destruct (IH {| fails := fails ctx + 1; retry_at := env_now env (tick st) + d;
                    max_cluster_fails := max_cluster_fails ctx |} (interact [] st))
      as (ctx' & st' & -> & Hfails & Hmax & Htick & Htrace); [simpl; lia|].
    simpl in *. exists ctx', st'. repeat split; try lia; try done.
    by rewrite Htrace, app_nil_r.
Qed.

Lemma try_again_later_counts_to_max_witness :
  fails (new_ClusterRetryContext 2) ≤ max_cluster_fails (new_ClusterRetryContext 2) ∧
  ∃ ctx' st',
    try_again_later_many Examples.friendly_env [10; 10; 10] (new_ClusterRetryContext 2)
      Examples.initial_state = (Return ctx', st') ∧
    fails ctx' = 2 ∧ tick st' = 2%nat.
Proof.
  assert (fails (new_ClusterRetryContext 2) ≤ max_cluster_fails (new_ClusterRetryContext 2))
    as Hle by (simpl; lia).
  split; [exact Hle|].
  destruct (try_again_later_counts_to_max Examples.friendly_env [10; 10; 10]
              (new_ClusterRetryContext 2) Examples.initial_state Hle)
    as (ctx' & st' & Hrun & Hfails & _ & Htick & _).
  exists ctx', st'. split; [exact Hrun|]. simpl in *. lia.
Defined.

(* ===================================================================== *)
(** * Monitoring a worker build                                           *)
(* ===================================================================== *)

(** What the handler of a monitoring failure does to a record that has a
    build: it stores the exception and cancels the build, unless the build
    is finished. *)
Lemma run_monitoring_failure (env : Env) (i : nat) (bi : WorkerBuildInfo) (b : Build)
    (c : string) (e : exn) (st : State) :
  worker_builds st !! i = Some bi → build bi = Some b → wb_osbs bi = Some c →
  let n := get_build_name b in
  let bi' := {| build := Some b; wb_cluster := wb_cluster bi; wb_osbs := wb_osbs bi;
                wb_platform := wb_platform bi;
                monitor_exception := Some (MonitorRaised e) |} in
  ∃ o st' cancelled,
    (set_monitor_exception i (MonitorRaised e) ≫= λ _,
     try_except (cancel_build env i)
                (λ e', if is_OsbsException e' then mret () else raise e')) st = (o, st') ∧
    trace st' = trace st ++ cancelled ∧
    worker_builds st' = <[i := bi']> (worker_builds st) ∧
    (tick st ≤ tick st')%nat ∧
    ((is_finished b = true ∧ cancelled = [] ∧ o = Return ()) ∨
     (is_finished b = false ∧
      ∃ r, cancelled = [EvCancelBuild c n r] ∧ (∃ t, r = env_cancel_build env t c n) ∧
                o = cancel_outcome r)).
Proof.
  intros Hi Hb Hc n bi'.
  assert (i < length (worker_builds st))%nat as Hlt by (by eapply lookup_lt_Some).
  unfold set_monitor_exception, cancel_build, try_except.
  unfold mbind at 1, M_bind at 1. unfold mbind at 1, M_bind at 1.
  unfold read_worker_build at 1. rewrite Hi.
  unfold write_worker_build, modify_state. rewrite Hb. fold bi'.
  unfold mbind at 1, M_bind at 1. unfold read_worker_build. cbn [worker_builds set_worker_builds].
  rewrite list_lookup_insert_eq by done. cbn [build bi'].
  destruct (is_finished b) eqn:Hfin; cbn [negb].
  - eexists _, _, []. split; [reflexivity|]. cbn. rewrite app_nil_r.
    repeat split; try done. by left.
  - unfold mbind, M_bind, client_of. cbn [wb_osbs bi']. rewrite Hc.
    unfold mret at 1, M_ret at 1. unfold wb_name. cbn [build bi'].
    unfold osbs_cancel_build, client_call. cbn [tick set_worker_builds].
    fold n.
    destruct (env_cancel_build _ _ _ _) as [[]|e'] eqn:Hcancel.
    + eexists _, _, [_]. split; [reflexivity|]. cbn. repeat split; try done; [lia|].
      right. split; [done|]. eexists. split; [reflexivity|]. split; [|done].
      eexists. symmetry. exact Hcancel.
    + destruct (is_OsbsException e') eqn:He'.
      * eexists _, _, [_]. split; [reflexivity|]. cbn. repeat split; try done; [lia|].
        right. split; [done|]. eexists. split; [reflexivity|].
        split; [eexists; symmetry; exact Hcancel|]. simpl. by rewrite He'.
      * eexists _, _, [_]. split; [reflexivity|]. cbn. repeat split; try done; [lia|].
        right. split; [done|]. eexists. split; [reflexivity|].
        split; [eexists; symmetry; exact Hcancel|]. simpl. by rewrite He'.
Qed.

(** The runs of [monitor_build] on a record that has a build. *)
Lemma monitor_build_cases (env : Env) (i : nat) (bi : WorkerBuildInfo) (b : Build)
    (c : string) (st : State) :
  worker_builds st !! i = Some bi → build bi = Some b → wb_osbs bi = Some c →
  let n := get_build_name b in
  ∃ o st' evs bi',
    monitor_build env i st = (o, st') ∧
    trace st' = trace st ++ evs ∧
    worker_builds st' = <[i := bi']> (worker_builds st) ∧
    wb_platform bi' = wb_platform bi ∧ wb_cluster bi' = wb_cluster bi ∧
    wb_osbs bi' = wb_osbs bi ∧
    ((∃ b', evs = [EvGetBuildLogs c n (ExtOk ()); EvWaitForBuildToFinish c n (ExtOk b')] ∧
            build bi' = Some b' ∧ monitor_exception bi' = monitor_exception bi ∧
            o = Return ()) ∨
     (∃ e watched cancelled,
         evs = watched ++ cancelled ∧
         build bi' = Some b ∧ monitor_exception bi' = Some (MonitorRaised e) ∧
         (watched = [EvGetBuildLogs c n (ExtRaise e)] ∨
          watched = [EvGetBuildLogs c n (ExtOk ()); EvWaitForBuildToFinish c n (ExtRaise e)]) ∧
         ((is_finished b = true ∧ cancelled = [] ∧ o = Return ()) ∨
          (is_finished b = false ∧
           ∃ r, cancelled = [EvCancelBuild c n r] ∧ (∃ t, r = env_cancel_build env t c n) ∧
                o = cancel_outcome r)))).
Proof.
  intros Hi Hb Hc n.
  assert (wb_name bi = n) as Hn by (unfold wb_name; by rewrite Hb).
  unfold monitor_build. unfold try_except at 1. unfold watch_logs, wait_to_finish.
  unfold mbind at 1, M_bind at 1. unfold mbind at 1, M_bind at 1.
  unfold read_worker_build at 1. rewrite Hi.
  unfold mbind at 1, M_bind at 1. unfold client_of at 1. rewrite Hc.
  unfold mret at 1, M_ret at 1. rewrite Hn.
  unfold get_build_logs, client_call.
  destruct (env_get_build_logs env (tick st) c n) as [[]|e] eqn:Hlogs.
  - set (st1 := interact [EvGetBuildLogs c n (ExtOk ())] st).
    assert (worker_builds st1 !! i = Some bi) as Hi1 by done.
    unfold mbind at 1, M_bind at 1. unfold read_worker_build at 1. rewrite Hi1.
    unfold mbind at 1, M_bind at 1. unfold client_of at 1. rewrite Hc.
    unfold mret at 1, M_ret at 1. rewrite Hn.
    unfold mbind at 1, M_bind at 1. unfold wait_for_build_to_finish, client_call.
    destruct (env_wait_for_build_to_finish env (tick st1) c n) as [b'|e] eqn:Hwait.
    + eexists _, _, _, _. split; [reflexivity|]. cbn.
      split; [rewrite <- app_assoc; reflexivity|]. split; [reflexivity|].
      cbn. repeat split; try done. left. by exists b'.
    + set (st2 := interact [EvWaitForBuildToFinish c n (ExtRaise e)] st1).
      destruct (run_monitoring_failure env i bi b c e st2 Hi1 Hb Hc)
        as (o & st' & cancelled & -> & Htrace & Hwbs & _ & Hcancel).
      eexists _, _, _, _. split; [reflexivity|].
      split; [rewrite Htrace; cbn; rewrite <- !app_assoc; reflexivity|].
      split; [exact Hwbs|]. cbn. repeat split; try done.
      right. exists e, [EvGetBuildLogs c n (ExtOk ()); EvWaitForBuildToFinish c n (ExtRaise e)],
               cancelled.
      repeat split; try done. by right.
  - set (st1 := interact [EvGetBuildLogs c n (ExtRaise e)] st).
    assert (worker_builds st1 !! i = Some bi) as Hi1 by done.
    destruct (run_monitoring_failure env i bi b c e st1 Hi1 Hb Hc)
      as (o & st' & cancelled & -> & Htrace & Hwbs & _ & Hcancel).
    eexists _, _, _, _. split; [reflexivity|].
    split; [rewrite Htrace; cbn; rewrite <- !app_assoc; reflexivity|].
    split; [exact Hwbs|]. cbn. repeat split; try done.
    right. exists e, [EvGetBuildLogs c n (ExtRaise e)], cancelled.
    repeat split; try done. by left.
Qed.

(** The events of the creation attempt: none when the keyword arguments
    could not be made, otherwise the one call of [create_worker_build]. *)
Lemma create_build_events (env : Env) (self : OrchestrateBuildPlugin) (ci : ClusterInfo)
    (lo : loc) (st : State) (o : outcome (option Build)) (st' : State) :
  create_build env self ci lo st = (o, st') →
  worker_builds st' = worker_builds st ∧ override_kwargs st' = override_kwargs st ∧
  ((o = Return None ∧ trace st' = trace st) ∨
   (∃ kwargs r, trace st' = trace st ++ [EvCreateWorkerBuild (osbs ci) kwargs r] ∧
      o = match r with
          | ExtOk b => Return (Some b)
          | ExtRaise e => if is_OsbsException e then Raise e else Return None
          end)).
Proof.
  unfold create_build, try_except.
  unfold mbind at 1, M_bind at 1.
  pose proof (frame_get_worker_build_kwargs self (release self) (platform ci)
                (koji_upload_dir self) (fs_task_id self) st) as Hf1.
  pose proof (fails_only_get_worker_build_kwargs self (release self) (platform ci)
                (koji_upload_dir self) (fs_task_id self) st) as Hx1.
  destruct (get_worker_build_kwargs _ _ _ _ _ st) as [[l|e|] st1]; simpl in Hf1, Hx1.
  2:{ destruct Hx1 as (e' & [= <-] & ->). intros [= <- <-].
      destruct Hf1 as (Hw & Ho & Ht & Hn). repeat split; try done. by left. }
  2:{ by destruct Hx1 as (e' & [=] & _). }
  unfold mbind at 1, M_bind at 1.
  pose proof (frame_dict_update l lo st1) as Hf2.
  pose proof (fails_only_dict_update l lo st1) as Hx2.
  destruct (dict_update l lo st1) as [[[]|e|] st2]; simpl in Hf2, Hx2.
  2:{ destruct Hx2 as (e' & [= <-] & ->). intros [= <- <-].
      destruct Hf1 as (Hw & Ho & Ht & Hn). destruct Hf2 as (Hw2 & Ho2 & Ht2 & Hn2).
      repeat split; try congruence. left. split; congruence. }
  2:{ by destruct Hx2 as (e' & [=] & _). }
  unfold mbind at 1, M_bind at 1.
  pose proof (frame_read_dict l st2) as Hf3.
  pose proof (fails_only_read_dict l st2) as Hx3.
  destruct (read_dict l st2) as [[kwargs|e|] st3]; simpl in Hf3, Hx3.
  2:{ destruct Hx3 as (e' & [= <-] & ->). intros [= <- <-].
      destruct Hf1 as (Hw & Ho & Ht & Hn). destruct Hf2 as (Hw2 & Ho2 & Ht2 & Hn2).
      destruct Hf3 as (Hw3 & Ho3 & Ht3 & Hn3).
      repeat split; try congruence. left. split; congruence. }
  2:{ by destruct Hx3 as (e' & [=] & _). }
  destruct Hf1 as (Hw & Ho & Ht & Hn). destruct Hf2 as (Hw2 & Ho2 & Ht2 & Hn2).
  destruct Hf3 as (Hw3 & Ho3 & Ht3 & Hn3).
  unfold mbind, M_bind, create_worker_build, client_call.
  destruct (env_create_worker_build env (tick st3) (osbs ci) kwargs) as [b|e] eqn:Hr; simpl.
  - intros [= <- <-]. simpl. repeat split; try congruence.
    right. exists kwargs, (ExtOk b). split; [|done]. by rewrite Ht3, Ht2, Ht.
  - destruct (is_OsbsException e) eqn:He; simpl; intros [= <- <-]; simpl;
      (repeat split; try congruence);
      right; exists kwargs, (ExtRaise e); (split; [by rewrite Ht3, Ht2, Ht|by rewrite He]).
Qed.

(** The runs of [do_worker_build]: the creation is refused with an
    [OsbsException], which is raised; or it fails otherwise and a record
    without a build is appended; or the build is created, recorded and
    monitored. *)
Lemma do_worker_build_cases (env : Env) (self : OrchestrateBuildPlugin) (ci : ClusterInfo)
    (st : State) :
  ∃ o st' evs,
    do_worker_build env self ci st = (o, st') ∧
    trace st' = trace st ++ evs ∧
    ((∃ e kwargs, is_OsbsException e = true ∧ o = Raise e ∧
        evs = [EvCreateWorkerBuild (osbs ci) kwargs (ExtRaise e)] ∧
        worker_builds st' = worker_builds st) ∨
     (o = Return () ∧
      worker_builds st' = worker_builds st ++ [new_WorkerBuildInfo None ci] ∧
      (evs = [] ∨
       ∃ e kwargs, is_OsbsException e = false ∧
         evs = [EvCreateWorkerBuild (osbs ci) kwargs (ExtRaise e)])) ∨
     (∃ kwargs b bi' monitoring,
        evs = EvCreateWorkerBuild (osbs ci) kwargs (ExtOk b) :: monitoring ∧
        worker_builds st' = worker_builds st ++ [bi'] ∧
        wb_platform bi' = platform ci ∧ wb_cluster bi' = Some (cluster ci) ∧
        wb_osbs bi' = Some (osbs ci) ∧
        let c := osbs ci in
        let n := get_build_name b in
        ((∃ b', monitoring = [EvGetBuildLogs c n (ExtOk ());
                              EvWaitForBuildToFinish c n (ExtOk b')] ∧
                build bi' = Some b' ∧ monitor_exception bi' = None ∧ o = Return ()) ∨
         (∃ e watched cancelled,
             monitoring = watched ++ cancelled ∧
             build bi' = Some b ∧ monitor_exception bi' = Some (MonitorRaised e) ∧
             (watched = [EvGetBuildLogs c n (ExtRaise e)] ∨
              watched = [EvGetBuildLogs c n (ExtOk ());
                         EvWaitForBuildToFinish c n (ExtRaise e)]) ∧
             ((is_finished b = true ∧ cancelled = [] ∧ o = Return ()) ∨
              (is_finished b = false ∧
               ∃ r, cancelled = [EvCancelBuild c n r] ∧ (∃ t, r = env_cancel_build env t c n) ∧
                o = cancel_outcome r)))))).
Proof.
  unfold do_worker_build. unfold mbind at 1, M_bind at 1.
  pose proof (frame_workspace_override_kwargs st) as (Hw0 & Ho0 & Ht0 & Hn0).
  destruct (run_workspace_override_kwargs_Return st) as [lo Hlo].
  destruct (workspace_override_kwargs st) as [o0 st0]. simpl in *. subst o0.
  unfold mbind at 1, M_bind at 1.
  destruct (create_build env self ci lo st0) as [o1 st1] eqn:Hcreate.
  apply create_build_events in Hcreate as (Hw1 & Ho1 & Hevs).
  destruct Hevs as [[-> Ht1]|(kwargs & [b|e] & Ht1 & ->)].
  - (* the keyword arguments could not be made *)
    unfold mbind, M_bind, append_worker_build. simpl.
    eexists _, _, []. split; [reflexivity|]. simpl. rewrite app_nil_r.
    split; [congruence|]. right. left. repeat split; [congruence|by left].
  - (* created *)
    unfold mbind, M_bind, append_worker_build. simpl.
    set (bi := new_WorkerBuildInfo (Some b) ci).
    set (st2 := set_worker_builds (worker_builds st1 ++ [bi]) st1).
    destruct (monitor_build_cases env (length (worker_builds st1)) bi b (osbs ci) st2)
      as (o & st' & evs & bi' & -> & Ht & Hw & Hp & Hc & Ho & Hcases); [|done|done|].
    { unfold st2. simpl. by apply list_lookup_middle. }
    eexists _, _, _. split; [reflexivity|].
    split; [rewrite Ht; unfold st2; simpl; rewrite Ht1, Ht0, <- app_assoc; reflexivity|].
    right. right. exists kwargs, b, bi', evs. split; [done|].
    split.
    { rewrite Hw. unfold st2. simpl.
      rewrite <- (Nat.add_0_r (length (worker_builds st1))), insert_app_r. simpl.
      congruence. }
    done.
  - destruct (is_OsbsException e) eqn:He.
    + (* a client error: raised again *)
      eexists _, _, _. split; [reflexivity|]. split; [rewrite Ht1, Ht0; reflexivity|].
      left. exists e, kwargs. repeat split; [done|congruence].
    + (* another exception: swallowed *)
      unfold mbind, M_bind, append_worker_build. simpl.
      eexists _, _, _. split; [reflexivity|]. simpl.
      split; [rewrite Ht1, Ht0; reflexivity|].
      right. left. repeat split; [congruence|]. right. by exists e, kwargs.
Qed.

(** X7. A worker build that could not be monitored is cancelled: when
    [do_worker_build] leaves a record with a [monitor_exception], the
    record keeps the build that was created, the exception is the one that
    following the logs or waiting for the build raised, and the next thing
    the plugin did was to cancel that build on its cluster, unless the
    build was finished.  The call returns normally unless cancelling
    raised something other than an [OsbsException]. *)
Theorem unmonitored_build_is_cancelled (env : Env) (self : OrchestrateBuildPlugin)
    (ci : ClusterInfo) (st st' : State) (o : outcome unit) (bi : WorkerBuildInfo)
    (v : monitor_value) :
  do_worker_build env self ci st = (o, st') →
  worker_builds st' = worker_builds st ++ [bi] →
  monitor_exception bi = Some v →
  let c := osbs ci in
  ∃ e b kwargs watched cancelled,
    v = MonitorRaised e ∧ build bi = Some b ∧
    trace st' = trace st ++ EvCreateWorkerBuild c kwargs (ExtOk b) :: watched ++ cancelled ∧
    (watched = [EvGetBuildLogs c (get_build_name b) (ExtRaise e)] ∨
     watched = [EvGetBuildLogs c (get_build_name b) (ExtOk ());
                EvWaitForBuildToFinish c (get_build_name b) (ExtRaise e)]) ∧
    ((is_finished b = true ∧ cancelled = [] ∧ o = Return ()) ∨
     (is_finished b = false ∧
      ∃ r, cancelled = [EvCancelBuild c (get_build_name b) r] ∧ o = cancel_outcome r)).
Proof.
  intros Hrun Hwbs Hv c.
  destruct (do_worker_build_cases env self ci st) as (o' & st'' & evs & Hrun' & Ht & Hcases).
  rewrite Hrun in Hrun'. injection Hrun' as <- <-.
  destruct Hcases as [(e & kwargs & _ & _ & _ & Hsame)|[(_ & Hw & _)|Hcreated]].
  - rewrite Hsame in Hwbs. apply (f_equal length) in Hwbs.
    rewrite length_app in Hwbs. simpl in Hwbs. lia.
  - rewrite Hw in Hwbs. apply app_inj_tail in Hwbs as [_ <-]. discriminate Hv.
  - destruct Hcreated as (kwargs & b & bi' & monitoring & -> & Hw & _ & _ & _ & Hmon).
    rewrite Hw in Hwbs. apply app_inj_tail in Hwbs as [_ ->].
    destruct Hmon as [(b' & _ & _ & Hnone & _)|(e & watched & cancelled & -> & Hb & He & H)].
    { congruence. }
    exists e, b, kwargs, watched, cancelled. split; [congruence|].
    destruct H as [Hwatched [Hfin|(Hfin & r & Hr & _ & Ho)]].
    + repeat split; try done. by left.
    + repeat split; try done. right. split; [done|]. by exists r.
Qed.

Lemma unmonitored_build_is_cancelled_witness :
  let run := do_worker_build Examples.silent_env Examples.example_plugin
               Examples.preferred_busy Examples.initial_state in
  let bi := {| build := Some Examples.started_build;
               wb_cluster := Some (cluster Examples.preferred_busy);
               wb_osbs := Some "A"; wb_platform := "x86_64";
               monitor_exception := Some (MonitorRaised (OsbsException "no logs")) |} in
  (run = (Return (), run.2) ∧
   worker_builds run.2 = worker_builds Examples.initial_state ++ [bi] ∧
   monitor_exception bi = Some (MonitorRaised (OsbsException "no logs"))) ∧
  ∃ kwargs,
    trace run.2
    = [EvCreateWorkerBuild "A" kwargs (ExtOk Examples.started_build);
       EvGetBuildLogs "A" "worker-build-1" (ExtRaise (OsbsException "no logs"));
       EvCancelBuild "A" "worker-build-1" (ExtOk ())].
Proof.
  intros run bi.
  assert (run = (Return (), run.2)) as Hrun by (vm_compute; reflexivity).
  assert (worker_builds run.2 = worker_builds Examples.initial_state ++ [bi]) as Hwbs
    by (vm_compute; reflexivity).
  assert (monitor_exception bi = Some (MonitorRaised (OsbsException "no logs"))) as Hv
    by reflexivity.
  split; [done|].
  destruct (unmonitored_build_is_cancelled Examples.silent_env Examples.example_plugin
              Examples.preferred_busy Examples.initial_state run.2 (Return ()) bi
              (MonitorRaised (OsbsException "no logs")) Hrun Hwbs Hv)
    as (e & b & kwargs & watched & cancelled & He & Hb & Ht & Hwatched & Hcancelled).
  injection He as <-. injection Hb as <-.
  exists kwargs. rewrite Ht. simpl.
  destruct Hcancelled as [(Hfin & _)|(_ & r & -> & Hr)]; [discriminate Hfin|].
  destruct Hwatched as [->| ->].
  - simpl. do 3 f_equal.
    assert (trace run.2 !! 2%nat = Some (EvCancelBuild "A" "worker-build-1" (ExtOk ())))
      as Hlast by (vm_compute; reflexivity).
    rewrite Ht in Hlast. simpl in Hlast. by injection Hlast as ->.
  - exfalso.
    assert (length (trace run.2) = 3%nat) as Hlen by (vm_compute; reflexivity).
    rewrite Ht in Hlen. simpl in Hlen. lia.
Defined.

(** X8. A record that [do_worker_build] leaves with a build and without a
    [monitor_exception] holds the build object that
    [wait_for_build_to_finish] returned, after the logs of the created
    build were followed to their end; the call returned normally and
    nothing was cancelled. *)
Theorem monitored_build_is_the_finished_one (env : Env) (self : OrchestrateBuildPlugin)
    (ci : ClusterInfo) (st st' : State) (o : outcome unit) (bi : WorkerBuildInfo)
    (b' : Build) :
  do_worker_build env self ci st = (o, st') →
  worker_builds st' = worker_builds st ++ [bi] →
  build bi = Some b' → monitor_exception bi = None →
  let c := osbs ci in
  o = Return () ∧
  ∃ kwargs b,
    trace st' = trace st ++ [EvCreateWorkerBuild c kwargs (ExtOk b);
                             EvGetBuildLogs c (get_build_name b) (ExtOk ());
                             EvWaitForBuildToFinish c (get_build_name b) (ExtOk b')].
Proof.
  intros Hrun Hwbs Hb Hnone c.
  destruct (do_worker_build_cases env self ci st) as (o' & st'' & evs & Hrun' & Ht & Hcases).
  rewrite Hrun in Hrun'. injection Hrun' as <- <-.
  destruct Hcases as [(e & kwargs & _ & _ & _ & Hsame)|[(_ & Hw & _)|Hcreated]].
  - rewrite Hsame in Hwbs. apply (f_equal length) in Hwbs.
    rewrite length_app in Hwbs. simpl in Hwbs. lia.
  - rewrite Hw in Hwbs. apply app_inj_tail in Hwbs as [_ <-]. discriminate Hb.
  - destruct Hcreated as (kwargs & b & bi' & monitoring & -> & Hw & _ & _ & _ & Hmon).
    rewrite Hw in Hwbs. apply app_inj_tail in Hwbs as [_ ->].
    destruct Hmon as [(b'' & -> & Hb'' & _ & ->)|(e & watched & cancelled & _ & _ & He & _)].
    2:{ congruence. }
    split; [done|]. exists kwargs, b. rewrite Ht. subst c.
    assert (b'' = b') as -> by congruence. reflexivity.
Qed.

Lemma monitored_build_is_the_finished_one_witness :
  let run := do_worker_build Examples.friendly_env Examples.example_plugin
               Examples.preferred_busy Examples.initial_state in
  let bi := {| build := Some Examples.finished_build;
               wb_cluster := Some (cluster Examples.preferred_busy);
               wb_osbs := Some "A"; wb_platform := "x86_64"; monitor_exception := None |} in
  (run = (Return (), run.2) ∧
   worker_builds run.2 = worker_builds Examples.initial_state ++ [bi]) ∧
  ∃ kwargs b,
    trace run.2
    = trace Examples.initial_state ++
      [EvCreateWorkerBuild "A" kwargs (ExtOk b);
       EvGetBuildLogs "A" (get_build_name b) (ExtOk ());
       EvWaitForBuildToFinish "A" (get_build_name b) (ExtOk Examples.finished_build)].
Proof.
  intros run bi.
  assert (run = (Return (), run.2)) as Hrun by (vm_compute; reflexivity).
  assert (worker_builds run.2 = worker_builds Examples.initial_state ++ [bi]) as Hwbs
    by (vm_compute; reflexivity).
  split; [done|].
  exact (proj2 (monitored_build_is_the_finished_one Examples.friendly_env
                  Examples.example_plugin Examples.preferred_busy Examples.initial_state
                  run.2 (Return ()) bi Examples.finished_build Hrun Hwbs eq_refl eq_refl)).
Defined.

(* ===================================================================== *)
(** * Edge cases of the dispatch                                          *)
(* ===================================================================== *)

(** X9. For a platform without enabled clusters,
    [select_and_start_cluster] raises [UnknownPlatformException] at once:
    nothing is recorded in [worker_builds], no cluster is contacted and the
    clock is not read. *)
Theorem select_and_start_cluster_unknown_platform (env : Env)
    (self : OrchestrateBuildPlugin) (fuel : nat) (plat : string) (st : State) :
  get_enabled_clusters_for_platform self plat = [] →
  ∃ msg, select_and_start_cluster env self fuel plat st
         = (Raise (UnknownPlatformException msg), st).
Proof.
  intros Hnone. unfold select_and_start_cluster. rewrite Hnone. by eexists.
Qed.

Lemma select_and_start_cluster_unknown_platform_witness :
  get_enabled_clusters_for_platform Examples.x86_64_plugin "s390x" = [] ∧
  ∃ msg, select_and_start_cluster Examples.friendly_env Examples.x86_64_plugin 5 "s390x"
           Examples.initial_state
         = (Raise (UnknownPlatformException msg), Examples.initial_state).
Proof.
  split; [reflexivity|].
  exact (select_and_start_cluster_unknown_platform Examples.friendly_env
           Examples.x86_64_plugin 5 "s390x" Examples.initial_state eq_refl).
Defined.

(** The contexts of a plugin that allows no failure are dead from the
    start. *)
Lemma new_retry_contexts_dead (self : OrchestrateBuildPlugin) (clusters : list Cluster) :
  plugin_max_cluster_fails self ≤ 0 →
  earliest_retry_at (new_retry_contexts self clusters) = None.
Proof.
  intros Hmax. apply earliest_retry_at_None. intros n ctx Hn.
  rewrite new_retry_contexts_lookup in Hn.
  destruct (decide (n ∈ name <$> clusters)); [|done]. injection Hn as <-.
  unfold failed. simpl. by apply Z.leb_le.
Qed.

(** X10. With [max_cluster_fails] zero (or negative) every cluster is dead
    before it is tried: [select_and_start_cluster] records the sentinel of
    [AllClustersFailedException] for the platform and returns, without
    contacting a cluster, sleeping or reading the clock. *)
Theorem select_and_start_cluster_no_attempt_allowed (env : Env)
    (self : OrchestrateBuildPlugin) (fuel : nat) (plat : string) (st : State) :
  plugin_max_cluster_fails self ≤ 0 →
  get_enabled_clusters_for_platform self plat ≠ [] →
  select_and_start_cluster env self (S fuel) plat st
  = (Return (),
     set_worker_builds
       (worker_builds st ++
        [sentinel_WorkerBuildInfo plat (AllClustersFailedException ALL_CLUSTERS_FAILED_MSG)])
       st).
Proof.
  intros Hmax Hne. unfold select_and_start_cluster.
  destruct (get_enabled_clusters_for_platform self plat) as [|c cs]; [done|].
  pose proof (new_retry_contexts_dead self (c :: cs) Hmax) as Hdead.
  cbn [select_loop]. unfold get_clusters. cbn [get_clusters_loop].
  unfold wait_for_any_cluster. rewrite Hdead. reflexivity.
Qed.

Lemma select_and_start_cluster_no_attempt_allowed_witness :
  (plugin_max_cluster_fails Examples.impatient_plugin ≤ 0 ∧
   get_enabled_clusters_for_platform Examples.impatient_plugin "x86_64" ≠ []) ∧
  select_and_start_cluster Examples.friendly_env Examples.impatient_plugin 1 "x86_64"
    Examples.initial_state
  = (Return (),
     set_worker_builds
       [sentinel_WorkerBuildInfo "x86_64" (AllClustersFailedException ALL_CLUSTERS_FAILED_MSG)]
       Examples.initial_state).
Proof.
  assert (plugin_max_cluster_fails Examples.impatient_plugin ≤ 0) as Hmax by (simpl; lia).
  assert (get_enabled_clusters_for_platform Examples.impatient_plugin "x86_64" ≠ [])
    as Hne by discriminate.
  split; [done|].
  exact (select_and_start_cluster_no_attempt_allowed Examples.friendly_env
           Examples.impatient_plugin 0 "x86_64" Examples.initial_state Hmax Hne).
Defined.

(** The cluster that is strictly first by priority is the first that
    [sorted] yields, whatever the order of the others. *)
Lemma sorted_first_by_priority (clusters : list Cluster) (c0 : Cluster) :
  c0 ∈ clusters →
  (∀ c, c ∈ clusters → c = c0 ∨ priority c0 < priority c) →
  ∃ rest, sorted priority Z.leb clusters = c0 :: rest.
Proof.
  intros Hc0 Hfirst.
  pose proof (sorted_Permutation priority Z.leb clusters) as Hperm.
  pose proof (sorted_key_then priority Z.leb Zleb_trans (λ _ _, True) clusters
                (StronglySorted_trivial clusters)) as Hsorted.
  destruct (sorted priority Z.leb clusters) as [|h rest].
  { rewrite <- Hperm in Hc0. by apply elem_of_nil in Hc0. }
  exists rest. f_equal.
  destruct (Hfirst h) as [?|Hlt]; [rewrite <- Hperm; apply elem_of_cons; by left|done|].
  exfalso. rewrite <- Hperm in Hc0. apply elem_of_cons in Hc0 as [->|Hrest]; [lia|].
  apply StronglySorted_inv in Hsorted as [_ Hall].
  rewrite Forall_forall in Hall. destruct (Hall c0 Hrest) as [Hgt|[Hle _]].
  - apply Z.leb_gt in Hgt. lia.
  - apply Z.leb_le in Hle. lia.
Qed.

(** X11. A cluster configured with [max_concurrent_builds] zero makes the
    dispatch crash: when the cluster that is strictly first by priority (so
    that it is probed first, however clusters of equal priority are
    ordered) answers [list_builds], the division that computes its load
    raises [ZeroDivisionError], which is not an [OsbsException] and so
    leaves [get_clusters] and [select_and_start_cluster]; no cluster is
    asked for a build and nothing is recorded in [worker_builds]. *)
Theorem zero_capacity_cluster_aborts_dispatch (env : Env) (self : OrchestrateBuildPlugin)
    (fuel : nat) (plat : string) (st : State) (c0 : Cluster) :
  c0 ∈ get_enabled_clusters_for_platform self plat →
  (∀ c, c ∈ get_enabled_clusters_for_platform self plat →
        c = c0 ∨ priority c0 < priority c) →
  max_concurrent_builds c0 = 0 →
  0 < plugin_max_cluster_fails self →
  (∀ t, utcfromtimestamp_0 ≤ env_now env t) →
  (∀ t, ∃ n, env_list_builds env t (name c0) = ExtOk n) →
  ∃ seconds n,
    select_and_start_cluster env self (S fuel) plat st
    = (Raise ZeroDivisionError,
       interact [EvListBuilds (name c0) (ExtOk n)]
         (interact [] (interact [EvSleep seconds] (interact [] st)))).
Proof.
  intros Hc0 Hfirst Hzero Hmax Hclock Hlist. unfold select_and_start_cluster.
  destruct (sorted_first_by_priority _ c0 Hc0 Hfirst) as [rest Hsorted].
  destruct (get_enabled_clusters_for_platform self plat) as [|c cs] eqn:Hclusters.
  { by apply elem_of_nil in Hc0. }
  remember (new_retry_contexts self (c :: cs)) as contexts eqn:Hcontexts.
  assert (contexts !! name c0 = Some (new_ClusterRetryContext (plugin_max_cluster_fails self)))
    as Hctx.
  { rewrite Hcontexts, new_retry_contexts_lookup.
    rewrite decide_True; [done|]. by apply list_elem_of_fmap_2. }
  assert (failed (new_ClusterRetryContext (plugin_max_cluster_fails self)) = false) as Hlive.
  { unfold failed. simpl. apply Z.leb_gt. lia. }
  destruct (earliest_retry_at contexts) as [earliest|] eqn:Hearliest.
  2:{ pose proof (proj1 (earliest_retry_at_None contexts) Hearliest _ _ Hctx). congruence. }
  set (seconds := td_seconds (Z.max 0 (earliest - env_now env (tick st)))).
  set (st2 := interact [EvSleep seconds] (interact [] st)).
  destruct (Hlist (tick (interact [] st2))) as [n Hn].
  exists seconds, n.
  set (st4 := interact [EvListBuilds (name c0) (ExtOk n)] (interact [] st2)).
  assert (probe_cluster env self plat ([], contexts) c0 st2 = (Raise ZeroDivisionError, st4))
    as Hprobe.
  { unfold probe_cluster. cbn [snd]. rewrite Hctx.
    erewrite bind_Return by apply run_in_retry_wait.
    assert ((env_now env (tick st2)
             <? retry_at (new_ClusterRetryContext (plugin_max_cluster_fails self))) = false)
      as -> by (apply Z.ltb_ge, Hclock).
    rewrite Hlive. unfold try_except, get_cluster_info.
    unfold mbind at 1, M_bind at 1. unfold mbind at 1, M_bind at 1.
    unfold get_current_builds, client_call. rewrite Hn, Hzero. reflexivity. }
  assert (get_clusters env self (S fuel) plat contexts (c :: cs) st
          = (Raise ZeroDivisionError, st4)) as Hget.
  { unfold get_clusters. apply bind_Raise. cbn [get_clusters_loop]. rewrite Hsorted.
    unfold wait_for_any_cluster. rewrite Hearliest.
    erewrite bind_Return by reflexivity. apply bind_Raise.
    cbn [foldM]. by apply bind_Raise. }
  cbn [select_loop]. apply bind_Raise. unfold try_except.
  erewrite bind_Raise by exact Hget. reflexivity.
Qed.

Lemma zero_capacity_cluster_aborts_dispatch_witness :
  let c0 := {| name := "Z"; priority := 1; max_concurrent_builds := 0 |} in
  let clusters := get_enabled_clusters_for_platform Examples.no_capacity_plugin "x86_64" in
  (c0 ∈ clusters ∧
   (∀ c, c ∈ clusters → c = c0 ∨ priority c0 < priority c) ∧
   max_concurrent_builds c0 = 0 ∧
   0 < plugin_max_cluster_fails Examples.no_capacity_plugin ∧
   (∀ t, utcfromtimestamp_0 ≤ env_now Examples.friendly_env t) ∧
   (∀ t, ∃ n, env_list_builds Examples.friendly_env t (name c0) = ExtOk n)) ∧
  ∃ seconds n,
    select_and_start_cluster Examples.friendly_env Examples.no_capacity_plugin 1 "x86_64"
      Examples.initial_state
    = (Raise ZeroDivisionError,
       interact [EvListBuilds "Z" (ExtOk n)]
         (interact [] (interact [EvSleep seconds] (interact [] Examples.initial_state)))).
Proof.
  intros c0 clusters.
  assert (c0 ∈ clusters) as Hc0 by (apply list_elem_of_singleton; reflexivity).
  assert (∀ c, c ∈ clusters → c = c0 ∨ priority c0 < priority c) as Hfirst.
  { intros c Hc. left. by apply list_elem_of_singleton in Hc. }
  assert (max_concurrent_builds c0 = 0) as Hzero by reflexivity.
  assert (0 < plugin_max_cluster_fails Examples.no_capacity_plugin) as Hmax
    by (simpl; lia).
  assert (∀ t, utcfromtimestamp_0 ≤ env_now Examples.friendly_env t) as Hclock.
  { intros t. simpl. unfold Examples.ticking_clock, Examples.clock_start,
      utcfromtimestamp_0, MICROSECONDS_PER_SECOND. lia. }
  assert (∀ t, ∃ n, env_list_builds Examples.friendly_env t (name c0) = ExtOk n) as Hlist.
  { intros t. by exists 2. }
  split; [done|].
  exact (zero_capacity_cluster_aborts_dispatch Examples.friendly_env
           Examples.no_capacity_plugin 0 "x86_64" Examples.initial_state c0
           Hc0 Hfirst Hzero Hmax Hclock Hlist).
Defined.

(* ===================================================================== *)
(** * The events of a dispatch                                            *)
(* ===================================================================== *)

#[export] Instance events_only_preorder (P : event → Prop) : PreOrder (events_only P).
Proof.
  split.
  - intros st. exists []. by rewrite app_nil_r.
  - intros st1 st2 st3 (evs1 & Ht1 & H1) (evs2 & Ht2 & H2). exists (evs1 ++ evs2).
    split; [by rewrite Ht2, Ht1, app_assoc|]. by apply Forall_app.
Qed.

Lemma events_only_interact (P : event → Prop) (evs : list event) (st : State) :
  Forall P evs → events_only P st (interact evs st).
Proof. intros HP. by exists evs. Qed.

Lemma frame_foldM_in {A S : Type} (R : relation State) `{!PreOrder R}
    (f : S → A → M S) (l : list A) (s : S) :
  (∀ s x, x ∈ l → frame R (f s x)) → frame R (foldM f s l).
Proof.
  revert s. induction l as [|x l IH]; intros s Hf; simpl.
  - apply (frame_ret R).
  - apply (frame_bind R).
    + apply Hf. apply elem_of_cons. by left.
    + intros s'. apply IH. intros s'' y Hy. apply Hf. apply elem_of_cons. by right.
Qed.

Section probing.
Context (env : Env) (self : OrchestrateBuildPlugin) (names : list string).

Let R := events_only (is_probing_event names).

Lemma probing_datetime_now : frame R (datetime_now env).
Proof. intros st. by apply events_only_interact. Qed.

Lemma probing_in_retry_wait (ctx : ClusterRetryContext) : frame R (in_retry_wait env ctx).
Proof.
  apply (frame_bind R); [apply probing_datetime_now|]. intros now. apply (frame_ret R).
Qed.

Lemma probing_try_again_later (delay : timedelta) (ctx : ClusterRetryContext) :
  frame R (try_again_later env delay ctx).
Proof.
  unfold try_again_later. destruct (negb (failed ctx)); [|apply (frame_ret R)].
  apply (frame_bind R); [apply probing_datetime_now|]. intros now. apply (frame_ret R).
Qed.

Lemma probing_wait_for_any_cluster (contexts : gmap string ClusterRetryContext) :
  frame R (wait_for_any_cluster env contexts).
Proof.
  unfold wait_for_any_cluster. destruct (earliest_retry_at contexts) as [earliest|].
  - apply (frame_bind R); [apply probing_datetime_now|]. intros now st.
    apply events_only_interact. constructor; [|constructor]. simpl.
    unfold td_seconds, SECONDS_PER_DAY. apply Z.mod_pos_bound. lia.
  - apply (frame_raise R).
Qed.

Lemma probing_probe_cluster (plat : string)
    (acc : list ClusterInfo * gmap string ClusterRetryContext) (c : Cluster) :
  name c ∈ names → frame R (probe_cluster env self plat acc c).
Proof.
  intros Hc. unfold probe_cluster. destruct (acc.2 !! name c) as [ctx|]; [|apply (frame_raise R)].
  apply (frame_bind R); [apply probing_in_retry_wait|]. intros [|]; [apply (frame_ret R)|].
  destruct (failed ctx); [apply (frame_ret R)|].
  apply (frame_try_except R).
  - apply (frame_bind R).
    + unfold get_cluster_info. apply (frame_bind R).
      * intros st. unfold get_current_builds, client_call.
        destruct (env_list_builds env (tick st) (name c));
          (apply events_only_interact; constructor; [exact Hc|constructor]).
      * intros n. destruct (max_concurrent_builds c =? 0);
          [apply (frame_raise R)|apply (frame_ret R)].
    + intros ci. apply (frame_ret R).
  - intros e. destruct (is_OsbsException e); [|apply (frame_raise R)].
    apply (frame_bind R); [apply probing_try_again_later|]. intros ctx'. apply (frame_ret R).
Qed.

Lemma probing_get_clusters_loop (fuel : nat) (plat : string)
    (contexts : gmap string ClusterRetryContext) (candidates : list Cluster) :
  (∀ c, c ∈ candidates → name c ∈ names) →
  frame R (get_clusters_loop env self fuel plat contexts candidates).
Proof.
  revert contexts candidates.
  induction fuel as [|fuel IH]; intros contexts candidates Hnames; [apply (frame_timeout R)|].
  cbn [get_clusters_loop]. destruct candidates as [|c cs] eqn:Hcs; [apply (frame_ret R)|].
  rewrite <- Hcs in *. clear Hcs.
  apply (frame_bind R); [apply probing_wait_for_any_cluster|]. intros _.
  apply (frame_bind R).
  - apply (frame_foldM_in R). intros acc c' Hc'. apply probing_probe_cluster, Hnames.
    by rewrite <- (sorted_Permutation priority Z.leb candidates).
  - intros acc. destruct acc.1; [|apply (frame_ret R)].
    apply IH. intros c' [_ Hc']%list_elem_of_filter. by apply Hnames.
Qed.

End probing.

(** X12. Looking for a cluster only looks: whatever it returns,
    [get_clusters] has done nothing to the outside world but sleep, each
    time a whole number of seconds below a day, and ask clusters of
    [all_clusters] for their builds; it has created, followed or cancelled
    no build, and [worker_builds] and the keyword dictionaries are as
    before. *)
Theorem get_clusters_only_probes (env : Env) (self : OrchestrateBuildPlugin) (fuel : nat)
    (plat : string) (contexts : gmap string ClusterRetryContext) (clusters : list Cluster)
    (st : State) :
  let st' := (get_clusters env self fuel plat contexts clusters st).2 in
  events_only (is_probing_event (name <$> clusters)) st st' ∧
  worker_builds st' = worker_builds st ∧ dicts st' = dicts st.
Proof.
  intros st'. split.
  - unfold st', get_clusters.
    apply (frame_bind (events_only (is_probing_event (name <$> clusters)))).
    + apply probing_get_clusters_loop. intros c Hc. by apply list_elem_of_fmap_2.
    + intros acc. apply (frame_ret _).
  - by destruct (frame_get_clusters env self fuel plat contexts clusters st) as (? & ? & _).
Qed.

Lemma is_probing_event_no_creation (names : list string) (evs : list event) :
  Forall (is_probing_event names) evs → no_creation evs.
Proof.
  intros H. eapply Forall_impl; [exact H|].
  intros ev Hev Hc. by destruct ev.
Qed.

Lemma dispatch_events_after (st st1 st' : State) (evs1 evs : list event) :
  trace st1 = trace st ++ evs1 → no_creation evs1 →
  worker_builds st1 = worker_builds st →
  dispatch_events st1 st' evs → dispatch_events st st' (evs1 ++ evs).
Proof.
  intros Ht1 Hno1 Hw1 [Ht Hshape]. split; [by rewrite Ht, Ht1, app_assoc|].
  rewrite <- Hw1.
  destruct Hshape as [[Hno Hnone]|[(pre & c & kwargs & b & post & -> & Hpre & Hpost) Hbi]].
  - left. split; [by apply Forall_app|done].
  - right. split; [|done]. exists (evs1 ++ pre), c, kwargs, b, post.
    split; [by rewrite app_assoc|]. split; [by apply Forall_app|done].
Qed.

Lemma dispatch_events_nothing (st st' : State) (evs : list event) :
  trace st' = trace st ++ evs → no_creation evs → worker_builds st' = worker_builds st →
  dispatch_events st st' evs.
Proof.
  intros Ht Hno Hw. split; [done|]. left. split; [done|]. intros bi Hbi.
  rewrite Hw in Hbi. apply (f_equal length) in Hbi. rewrite length_app in Hbi.
  simpl in Hbi. lia.
Qed.

(** The events of one call of [do_worker_build]: a refusal with an
    [OsbsException] creates and records nothing, every other run is a
    dispatch. *)
Lemma do_worker_build_dispatch_events (env : Env) (self : OrchestrateBuildPlugin)
    (ci : ClusterInfo) (st : State) :
  ∃ o st' evs,
    do_worker_build env self ci st = (o, st') ∧ dispatch_events st st' evs ∧
    ∀ e, o = Raise e → is_OsbsException e = true →
         no_creation evs ∧ worker_builds st' = worker_builds st.
Proof.
  destruct (do_worker_build_cases env self ci st) as (o & st' & evs & Hrun & Ht & Hcases).
  exists o, st', evs. split; [done|].
  destruct Hcases as [(e & kwargs & He & -> & -> & Hw)|[(-> & Hw & Hevs)|Hcreated]].
  - assert (no_creation [EvCreateWorkerBuild (osbs ci) kwargs (ExtRaise e)]) as Hno.
    { constructor; [by intros []|constructor]. }
    split; [by apply dispatch_events_nothing|done].
  - split; [|by intros e [=]]. split; [done|]. left. split.
    + destruct Hevs as [->|(e & kwargs & _ & ->)]; [constructor|].
      constructor; [by intros []|constructor].
    + intros bi Hbi. rewrite Hw in Hbi. by apply app_inj_tail in Hbi as [_ <-].
  - destruct Hcreated as (kwargs & b & bi' & monitoring & -> & Hw & _ & _ & _ & Hmon).
    assert (Forall is_monitoring_event monitoring ∧ is_Some (build bi') ∧
            ∀ e, o = Raise e → is_OsbsException e = false) as (Hmonitoring & Hsome & Hraise).
    { destruct Hmon as [(b' & -> & -> & _ & ->)
                       |(e & watched & cancelled & -> & -> & _ & Hwatched & Hcancelled)].
      - split; [by repeat constructor|]. split; [by eexists|by intros e [=]].
      - split; [|split; [by eexists|]].
        + apply Forall_app. split.
          * destruct Hwatched as [-> | ->]; by repeat constructor.
          * destruct Hcancelled as [(_ & -> & _)|(_ & r & -> & _)]; by repeat constructor.
        + intros e' ->.
          destruct Hcancelled as [(_ & _ & [=])|(_ & r & _ & _ & Ho)].
          destruct r as [[]|e'']; simpl in Ho; [done|].
          destruct (is_OsbsException e'') eqn:He''; [done|]. by injection Ho as ->. }
    split.
    + split; [done|]. right. split; [|by exists bi'].
      exists [], (osbs ci), kwargs, b, monitoring. split; [done|]. split; [constructor|done].
    + intros e -> He. specialize (Hraise e eq_refl). congruence.
Qed.

Lemma start_on_first_cluster_dispatch_events (env : Env) (self : OrchestrateBuildPlugin)
    (possible : list ClusterInfo) (contexts : gmap string ClusterRetryContext) (st : State) :
  ∃ o st' evs,
    start_on_first_cluster env self possible contexts st = (o, st') ∧
    dispatch_events st st' evs ∧
    ∀ contexts', o = Return (Some contexts') →
                 no_creation evs ∧ worker_builds st' = worker_builds st.
Proof.
  revert contexts st. induction possible as [|ci rest IH]; intros contexts st.
  { exists (Return (Some contexts)), st, []. split; [done|].
    assert (no_creation []) by constructor.
    split; [apply dispatch_events_nothing; [by rewrite app_nil_r|done|done]|done]. }
  cbn [start_on_first_cluster].
  destruct (contexts !! name (cluster ci)) as [ctx|].
  2:{ exists (Raise (KeyError (name (cluster ci)))), st, []. split; [done|].
      split; [|by intros ? [=]].
      apply dispatch_events_nothing; [by rewrite app_nil_r|constructor|done]. }
  destruct (do_worker_build_dispatch_events env self ci st)
    as (o & st1 & evs & Hrun & Hevs & Hraise).
  unfold mbind at 1, M_bind at 1. unfold try_except. unfold mbind at 1, M_bind at 1.
  rewrite Hrun. destruct o as [[]|e|].
  - exists (Return None), st1, evs. split; [done|]. split; [done|by intros ? [=]].
  - destruct (is_OsbsException e) eqn:He.
    + destruct (Hraise e eq_refl He) as [Hno Hw].
      pose proof (frame_try_again_later env (failure_retry_delay self) ctx st1)
        as (Hw2 & _ & _ & Ht2 & _).
      pose proof (probing_try_again_later env [] (failure_retry_delay self) ctx st1)
        as (evs2 & Ht2' & Hevs2).
      unfold mbind, M_bind.
      destruct (try_again_later env (failure_retry_delay self) ctx st1) as [o2 st2] eqn:Hlater.
      assert (∃ ctx', o2 = Return ctx') as [ctx' ->].
      { unfold try_again_later in Hlater. destruct (negb (failed ctx)).
        - injection Hlater as <- _. by eexists.
        - injection Hlater as <- _. by eexists. }
      simpl in *.
      destruct (IH (<[name (cluster ci) := ctx']> contexts) st2)
        as (o' & st' & evs' & Hrest & Hevs' & Hcont).
      simpl. rewrite Hrest.
      exists o', st', (evs ++ evs2 ++ evs').
      assert (no_creation evs2) as Hno2 by (by eapply is_probing_event_no_creation).
      destruct Hevs as [Ht _].
      split; [by destruct o' as [[?|]|?|]|]. split.
      * rewrite app_assoc. apply (dispatch_events_after st st2);
          [by rewrite Ht2', Ht, app_assoc|by apply Forall_app|congruence|done].
      * intros contexts' ->. destruct (Hcont contexts' eq_refl) as [Hno' Hw'].
        split; [|congruence]. apply Forall_app. split; [done|]. apply Forall_app. by split.
    + exists (Raise e), st1, evs. split; [done|]. split; [done|by intros ? [=]].
  - exists Timeout, st1, evs. split; [done|]. split; [done|by intros ? [=]].
Qed.

Lemma select_loop_dispatch_events (env : Env) (self : OrchestrateBuildPlugin) (fuel : nat)
    (plat : string) (clusters : list Cluster) (contexts : gmap string ClusterRetryContext)
    (st : State) :
  ∃ evs, dispatch_events st (select_loop env self fuel plat clusters contexts st).2 evs.
Proof.
  revert contexts st. induction fuel as [|fuel IH]; intros contexts st.
  { exists []. apply dispatch_events_nothing; [by rewrite app_nil_r|constructor|done]. }
  cbn [select_loop].
  destruct (get_clusters_only_probes env self (S fuel) plat contexts clusters st)
    as ((evs1 & Ht1 & Hevs1%is_probing_event_no_creation) & Hw1 & _).
  unfold mbind at 1, M_bind at 1. unfold try_except. unfold mbind at 1, M_bind at 1.
  destruct (get_clusters env self (S fuel) plat contexts clusters st)
    as [[[possible contexts']|e|] st1]; simpl in Ht1, Hw1.
  - simpl.
    destruct (start_on_first_cluster_dispatch_events env self possible contexts' st1)
      as (o & st2 & evs2 & Hstart & Hevs2 & Hcont).
    unfold mbind, M_bind. rewrite Hstart. destruct o as [[contexts''|]|e|].
    + destruct (Hcont contexts'' eq_refl) as [Hno2 Hw2]. destruct Hevs2 as [Ht2 _].
      destruct (IH contexts'' st2) as [evs3 Hevs3].
      exists ((evs1 ++ evs2) ++ evs3).
      apply (dispatch_events_after st st2);
        [by rewrite Ht2, Ht1, app_assoc|by apply Forall_app|congruence|done].
    + exists (evs1 ++ evs2). by apply (dispatch_events_after st st1).
    + exists (evs1 ++ evs2). by apply (dispatch_events_after st st1).
    + exists (evs1 ++ evs2). by apply (dispatch_events_after st st1).
  - destruct (is_AllClustersFailedException e).
    + simpl. exists evs1. split; [done|]. left. split; [done|].
      intros bi Hbi. rewrite Hw1 in Hbi. by apply app_inj_tail in Hbi as [_ <-].
    + simpl. exists evs1. by apply dispatch_events_nothing.
  - simpl. exists evs1. by apply dispatch_events_nothing.
Qed.

(** X13. A dispatch creates at most one worker build: whatever way
    [select_and_start_cluster] ends, either no call of
    [create_worker_build] has succeeded and no record with a build was
    appended, or exactly one has, after which the plugin only followed,
    awaited or cancelled that build (no cluster was probed or asked for a
    build again) and one record with a build was appended. *)
Theorem select_and_start_cluster_creates_once (env : Env) (self : OrchestrateBuildPlugin)
    (fuel : nat) (plat : string) (st : State) :
  let st' := (select_and_start_cluster env self fuel plat st).2 in
  ∃ evs, trace st' = trace st ++ evs ∧
    ((no_creation evs ∧
      ∀ bi, worker_builds st' = worker_builds st ++ [bi] → build bi = None) ∨
     (∃ pre c kwargs b post bi,
        evs = pre ++ EvCreateWorkerBuild c kwargs (ExtOk b) :: post ∧
        no_creation pre ∧ Forall is_monitoring_event post ∧
        worker_builds st' = worker_builds st ++ [bi] ∧ is_Some (build bi))).
Proof.
  intros st'. unfold st', select_and_start_cluster.
  destruct (get_enabled_clusters_for_platform self plat) as [|c cs].
  { exists []. simpl. split; [by rewrite app_nil_r|]. left. split; [constructor|].
    intros bi Hbi. apply (f_equal length) in Hbi. rewrite length_app in Hbi.
    simpl in Hbi. lia. }
  destruct (select_loop_dispatch_events env self fuel plat (c :: cs)
              (new_retry_contexts self (c :: cs)) st) as (evs & Ht & Hshape).
  exists evs. split; [done|].
  destruct Hshape as [?|[(pre & c' & kwargs & b & post & ? & ? & ?) (bi & ? & ?)]];
    [by left|].
  right. by exists pre, c', kwargs, b, post, bi.
Qed.

(* ===================================================================== *)
(** * Clusters that fail with client errors only                          *)
(* ===================================================================== *)

Section client_errors.
Context (env : Env) (self : OrchestrateBuildPlugin).
Context (Hclient : client_errors_only env).

Lemma cancel_outcome_client_error (r : ext_result unit) :
  client_error_or_result r → cancel_outcome r = Return ().
Proof. destruct r as [[]|e]; simpl; [done|]. by intros ->. Qed.

Lemma do_worker_build_client_errors (ci : ClusterInfo) (st st' : State) (o : outcome unit) :
  do_worker_build env self ci st = (o, st') →
  o = Return () ∨ ∃ e, o = Raise e ∧ is_OsbsException e = true.
Proof.
  intros Hrun.
  destruct (do_worker_build_cases env self ci st) as (o' & st'' & evs & Hrun' & _ & Hcases).
  rewrite Hrun in Hrun'. injection Hrun' as <- <-.
  destruct Hcases as [(e & kwargs & He & -> & _)|[(-> & _)|Hcreated]];
    [right; by exists e|by left|].
  destruct Hcreated as (kwargs & b & bi' & monitoring & _ & _ & _ & _ & _ & Hmon).
  left.
  destruct Hmon as [(b' & _ & _ & _ & ->)|(e & watched & cancelled & _ & _ & _ & _ & Hc)];
    [done|].
  destruct Hc as [(_ & _ & ->)|(_ & r & _ & [t ->] & ->)]; [done|].
  apply cancel_outcome_client_error. apply Hclient.
Qed.

Lemma try_again_later_returns (delay : timedelta) (ctx : ClusterRetryContext) (st : State) :
  ∃ ctx' st', try_again_later env delay ctx st = (Return ctx', st').
Proof. unfold try_again_later. destruct (negb (failed ctx)); by eexists _, _. Qed.

Lemma probe_cluster_returns (plat : string)
    (acc : list ClusterInfo * gmap string ClusterRetryContext) (c : Cluster) (st : State) :
  is_Some (acc.2 !! name c) → max_concurrent_builds c ≠ 0 →
  ∃ acc' st', probe_cluster env self plat acc c st = (Return acc', st') ∧
    (∀ n, is_Some (acc'.2 !! n) ↔ is_Some (acc.2 !! n)) ∧
    (∀ ci, ci ∈ acc'.1 → ci ∈ acc.1 ∨ cluster ci = c).
Proof.
  intros [ctx Hctx] Hcap. unfold probe_cluster. rewrite Hctx.
  erewrite bind_Return by apply run_in_retry_wait.
  destruct (env_now env (tick st) <? retry_at ctx).
  { eexists _, _. split; [reflexivity|]. split; [done|]. intros ci Hci. by left. }
  destruct (failed ctx).
  { eexists _, _. split; [reflexivity|]. split; [done|]. intros ci Hci. by left. }
  unfold try_except, get_cluster_info.
  unfold mbind at 1, M_bind at 1. unfold mbind at 1, M_bind at 1.
  unfold get_current_builds, client_call.
  destruct Hclient as (Hlist & _).
  specialize (Hlist (tick (interact [] st)) (name c)).
  destruct (env_list_builds env (tick (interact [] st)) (name c)) as [n|e].
  - apply Z.eqb_neq in Hcap. rewrite Hcap. eexists _, _. split; [reflexivity|].
    split; [done|]. simpl. intros ci [Hci| ->%list_elem_of_singleton]%elem_of_app;
      [by left|by right].
  - simpl in Hlist. rewrite Hlist.
    destruct (try_again_later_returns (find_cluster_retry_delay self) ctx
                (interact [EvListBuilds (name c) (ExtRaise e)] (interact [] st)))
      as (ctx' & st' & Hlater).
    erewrite bind_Return by exact Hlater.
    eexists _, _. split; [reflexivity|]. simpl. split; [|by left].
    intros n. destruct (decide (n = name c)) as [->|Hne].
    + rewrite lookup_insert_eq, Hctx. split; by eexists.
    + by rewrite lookup_insert_ne.
Qed.

Lemma foldM_probe_cluster_returns (plat : string) (cs : list Cluster)
    (acc : list ClusterInfo * gmap string ClusterRetryContext) (st : State) :
  (∀ c, c ∈ cs → is_Some (acc.2 !! name c) ∧ max_concurrent_builds c ≠ 0) →
  ∃ acc' st', foldM (probe_cluster env self plat) acc cs st = (Return acc', st') ∧
    (∀ n, is_Some (acc'.2 !! n) ↔ is_Some (acc.2 !! n)) ∧
    (∀ ci, ci ∈ acc'.1 → ci ∈ acc.1 ∨ cluster ci ∈ cs).
Proof.
  revert acc st. induction cs as [|c cs IH]; intros acc st Hcs.
  { exists acc, st. split; [done|]. split; [done|]. by left. }
  destruct (Hcs c) as [Hctx Hcap]; [apply elem_of_cons; by left|].
  destruct (probe_cluster_returns plat acc c st Hctx Hcap) as (acc1 & st1 & Hprobe & Hk1 & Hi1).
  destruct (IH acc1 st1) as (acc' & st' & Hfold & Hk & Hi).
  { intros c' Hc'. destruct (Hcs c') as [? ?]; [apply elem_of_cons; by right|].
    split; [by apply Hk1|done]. }
  exists acc', st'. cbn [foldM]. erewrite bind_Return by exact Hprobe.
  split; [done|]. split.
  - intros n. by rewrite Hk, Hk1.
  - intros ci Hci. destruct (Hi ci Hci) as [Hci1|Hcs'].
    + destruct (Hi1 ci Hci1) as [?| ->]; [by left|right; apply elem_of_cons; by left].
    + right. apply elem_of_cons. by right.
Qed.

Lemma get_clusters_loop_client_errors (fuel : nat) (plat : string)
    (contexts : gmap string ClusterRetryContext) (candidates : list Cluster)
    (st st' : State) (o : outcome (list ClusterInfo * gmap string ClusterRetryContext)) :
  (∀ c, c ∈ candidates → is_Some (contexts !! name c) ∧ max_concurrent_builds c ≠ 0) →
  get_clusters_loop env self fuel plat contexts candidates st = (o, st') →
  match o with
  | Return acc => (∀ n, is_Some (acc.2 !! n) ↔ is_Some (contexts !! n)) ∧
                  (∀ ci, ci ∈ acc.1 → cluster ci ∈ candidates)
  | Raise e => is_AllClustersFailedException e = true
  | Timeout => True
  end.
Proof.
  revert contexts candidates st.
  induction fuel as [|fuel IH]; intros contexts candidates st Hcs; [by intros [= <- <-]|].
  cbn [get_clusters_loop]. destruct candidates as [|c0 cs0] eqn:Heq.
  { intros [= <- <-]. split; [done|]. by intros ci Hci%elem_of_nil. }
  rewrite <- Heq in *. clear Heq c0 cs0.
  unfold mbind at 1, M_bind at 1.
  destruct (wait_for_any_cluster env contexts st) as [o0 st0] eqn:Hwait.
  assert (o0 = Return () ∨ ∃ msg, o0 = Raise (AllClustersFailedException msg)) as Ho0.
  { unfold wait_for_any_cluster in Hwait.
    destruct (earliest_retry_at contexts); injection Hwait as <- _; [by left|right; by eexists]. }
  destruct Ho0 as [->|[msg ->]]; [|by intros [= <- <-]].
  destruct (foldM_probe_cluster_returns plat (sorted priority Z.leb candidates)
              ([], contexts) st0) as (acc & st2 & Hfold & Hk & Hi).
  { intros c Hc. apply Hcs. by rewrite <- (sorted_Permutation priority Z.leb candidates). }
  unfold mbind, M_bind. rewrite Hfold.
  destruct acc.1 as [|ci0 cis] eqn:Hacc.
  - intros Hrest. apply IH in Hrest.
    + destruct o as [acc'|e|]; [|done|done]. destruct Hrest as [Hk' Hi']. split.
      * intros n. by rewrite Hk', Hk.
      * intros ci Hci. by apply Hi' in Hci as [_ ?]%list_elem_of_filter.
    + intros c [_ Hc]%list_elem_of_filter. destruct (Hcs c Hc) as [? ?].
      split; [by apply Hk|done].
  - intros [= <- <-]. split; [done|]. intros ci Hci. rewrite Hacc in Hci.
    destruct (Hi ci Hci) as [[]%elem_of_nil|Hc].
    by rewrite <- (sorted_Permutation priority Z.leb candidates).
Qed.

Lemma start_on_first_cluster_client_errors (possible : list ClusterInfo)
    (contexts : gmap string ClusterRetryContext) (st st' : State)
    (o : outcome (option (gmap string ClusterRetryContext))) :
  (∀ ci, ci ∈ possible → is_Some (contexts !! name (cluster ci))) →
  start_on_first_cluster env self possible contexts st = (o, st') →
  match o with
  | Return (Some contexts') => ∀ n, is_Some (contexts' !! n) ↔ is_Some (contexts !! n)
  | Return None => True
  | Raise _ => False
  | Timeout => True
  end.
Proof.
  revert contexts st. induction possible as [|ci rest IH]; intros contexts st Hctx.
  { by intros [= <- <-]. }
  cbn [start_on_first_cluster].
  destruct (Hctx ci) as [ctx Hci]; [apply elem_of_cons; by left|]. rewrite Hci.
  unfold mbind at 1, M_bind at 1. unfold try_except. unfold mbind at 1, M_bind at 1.
  destruct (do_worker_build env self ci st) as [o1 st1] eqn:Hrun.
  apply do_worker_build_client_errors in Hrun as [->|(e & -> & He)].
  { by intros [= <- <-]. }
  rewrite He.
  destruct (try_again_later_returns (failure_retry_delay self) ctx st1)
    as (ctx' & st2 & Hlater).
  erewrite bind_Return by exact Hlater. cbn.
  intros Hrest. apply IH in Hrest.
  - destruct o as [[contexts'|]|e'|]; try done. intros n. rewrite Hrest.
    destruct (decide (n = name (cluster ci))) as [->|Hne].
    + rewrite lookup_insert_eq, Hci. split; by eexists.
    + by rewrite lookup_insert_ne.
  - intros ci' Hci'. destruct (decide (name (cluster ci') = name (cluster ci))) as [->|Hne].
    + rewrite lookup_insert_eq. by eexists.
    + rewrite lookup_insert_ne by done. apply Hctx. apply elem_of_cons. by right.
Qed.

Lemma select_loop_client_errors (fuel : nat) (plat : string) (clusters : list Cluster)
    (contexts : gmap string ClusterRetryContext) (st : State) :
  (∀ c, c ∈ clusters → is_Some (contexts !! name c) ∧ max_concurrent_builds c ≠ 0) →
  ∀ e, (select_loop env self fuel plat clusters contexts st).1 ≠ Raise e.
Proof.
  revert contexts st. induction fuel as [|fuel IH]; intros contexts st Hcs e; [done|].
  cbn [select_loop].
  unfold mbind at 1, M_bind at 1. unfold try_except. unfold mbind at 1, M_bind at 1.
  unfold get_clusters. unfold mbind at 1, M_bind at 1.
  destruct (get_clusters_loop env self (S fuel) plat contexts clusters st)
    as [o1 st1] eqn:Hloop.
  apply get_clusters_loop_client_errors in Hloop; [|done].
  destruct o1 as [acc|e1|]; [|by rewrite Hloop|done].
  destruct Hloop as [Hk Hi]. cbn.
  unfold mbind, M_bind.
  destruct (start_on_first_cluster env self (sort_cluster_infos acc.1) acc.2 st1)
    as [o2 st2] eqn:Hstart.
  apply start_on_first_cluster_client_errors in Hstart.
  - destruct o2 as [[contexts'|]|e2|]; try done. apply IH.
    intros c Hc. destruct (Hcs c Hc) as [? ?]. split; [|done]. by apply Hstart, Hk.
  - intros ci Hci. rewrite sort_cluster_infos_Permutation in Hci.
    apply Hk. by apply Hcs, Hi.
Qed.

End client_errors.

(** X14. When the clock advances, the cluster clients fail with
    [OsbsException] only and no enabled cluster is configured with
    [max_concurrent_builds] zero, dispatching a platform that has clusters
    always ends well: given enough fuel [select_and_start_cluster] returns
    normally, having appended exactly one record for the platform to
    [worker_builds].  Every failure of a cluster is absorbed: it is retried,
    stored in the record, or ends in the sentinel record. *)
Theorem select_and_start_cluster_always_records (env : Env)
    (self : OrchestrateBuildPlugin) (plat : string) (st : State) :
  clock_advances env →
  client_errors_only env →
  get_enabled_clusters_for_platform self plat ≠ [] →
  (∀ c, c ∈ get_enabled_clusters_for_platform self plat → max_concurrent_builds c ≠ 0) →
  ∃ fuel0, ∀ fuel, (fuel0 ≤ fuel)%nat →
    ∃ st' bi,
      select_and_start_cluster env self fuel plat st = (Return (), st') ∧
      worker_builds st' = worker_builds st ++ [bi] ∧ wb_platform bi = plat.
Proof.
  intros Hclock Hclient Hne Hcap.
  destruct (get_enabled_clusters_for_platform self plat) as [|c cs] eqn:Hclusters; [done|].
  set (clusters := c :: cs) in *.
  set (contexts := new_retry_contexts self clusters).
  set (D := Z.max (Z.max (find_cluster_retry_delay self) (failure_retry_delay self))
                  (- env_now env (tick st))).
  exists (enough_fuel D (budget contexts)). intros fuel Hfuel.
  assert (contexts_of clusters contexts) as Hof.
  { unfold contexts. split.
    - intros c' Hc'. rewrite new_retry_contexts_lookup.
      rewrite decide_True; [by eexists|]. by apply list_elem_of_fmap_2.
    - intros n [ctx Hn]. rewrite new_retry_contexts_lookup in Hn.
      destruct (decide (n ∈ name <$> clusters)) as [Hin|]; [|done].
      apply list_elem_of_fmap in Hin as (c' & -> & Hc'). by exists c'. }
  assert ((select_loop env self fuel plat clusters contexts st).1 ≠ Timeout) as Hends.
  { apply (select_loop_terminates env self Hclock D) with (b := budget contexts);
      [lia|lia|done|done| |done|done].
    intros n ctx Hn. unfold contexts in Hn. rewrite new_retry_contexts_lookup in Hn.
    destruct (decide (n ∈ name <$> clusters)); [|done]. injection Hn as <-. simpl.
    unfold utcfromtimestamp_0. lia. }
  assert (∀ e, (select_loop env self fuel plat clusters contexts st).1 ≠ Raise e) as Hraise.
  { apply select_loop_client_errors; [done|]. intros c' Hc'. split; [|by apply Hcap].
    by apply Hof. }
  destruct (select_and_start_cluster env self fuel plat st) as [o st'] eqn:Hrun.
  pose proof (select_and_start_cluster_outcome env self fuel plat st st' o Hrun) as Hout.
  unfold select_and_start_cluster in Hrun. rewrite Hclusters in Hrun.
  change (select_loop env self fuel plat clusters contexts st = (o, st')) in Hrun.
  rewrite Hrun in Hends, Hraise. simpl in Hends, Hraise.
  destruct o as [[]|e|]; [|by destruct (Hraise e)|done].
  simpl in Hout. inversion Hout as [|bi evs st'' Hw Hp _ _ _]; subst.
  by exists st', bi.
Qed.

Lemma select_and_start_cluster_always_records_witness :
  (clock_advances Examples.friendly_env ∧ client_errors_only Examples.friendly_env ∧
   get_enabled_clusters_for_platform Examples.example_plugin "x86_64" ≠ [] ∧
   ∀ c, c ∈ get_enabled_clusters_for_platform Examples.example_plugin "x86_64" →
        max_concurrent_builds c ≠ 0) ∧
  ∃ fuel0, ∀ fuel, (fuel0 ≤ fuel)%nat →
    ∃ st' bi,
      select_and_start_cluster Examples.friendly_env Examples.example_plugin fuel "x86_64"
        Examples.initial_state = (Return (), st') ∧
      worker_builds st' = worker_builds Examples.initial_state ++ [bi] ∧
      wb_platform bi = "x86_64".
Proof.
  assert (clock_advances Examples.friendly_env) as Hclock.
  { intros n. simpl. unfold Examples.ticking_clock. lia. }
  assert (client_errors_only Examples.friendly_env) as Hclient by (by repeat split).
  assert (get_enabled_clusters_for_platform Examples.example_plugin "x86_64" ≠ [])
    as Hne by discriminate.
  assert (∀ c, c ∈ get_enabled_clusters_for_platform Examples.example_plugin "x86_64" →
               max_concurrent_builds c ≠ 0) as Hcap.
  { intros c Hc. simpl in Hc. apply elem_of_cons in Hc as [->|Hc]; [done|].
    apply list_elem_of_singleton in Hc as ->. done. }
  split; [done|].
  exact (select_and_start_cluster_always_records Examples.friendly_env
           Examples.example_plugin "x86_64" Examples.initial_state Hclock Hclient Hne Hcap).
Defined.

(* ===================================================================== *)
(** * The records of a dispatch                                           *)
(* ===================================================================== *)

Lemma new_retry_contexts_contexts_of (self : OrchestrateBuildPlugin)
    (clusters : list Cluster) :
  contexts_of clusters (new_retry_contexts self clusters).
Proof.
  split.
  - intros c Hc. rewrite new_retry_contexts_lookup.
    rewrite decide_True; [by eexists|]. by apply list_elem_of_fmap_2.
  - intros n [ctx Hn]. rewrite new_retry_contexts_lookup in Hn.
    destruct (decide (n ∈ name <$> clusters)) as [Hin|]; [|done].
    apply list_elem_of_fmap in Hin as (c & -> & Hc). by exists c.
Qed.

Lemma new_retry_contexts_retry_bounded (env : Env) (self : OrchestrateBuildPlugin)
    (clusters : list Cluster) (D : Z) (t : nat) :
  - env_now env t ≤ D → retry_bounded env D (new_retry_contexts self clusters) t.
Proof.
  intros HD n ctx Hn. rewrite new_retry_contexts_lookup in Hn.
  destruct (decide (n ∈ name <$> clusters)); [|done]. injection Hn as <-. simpl.
  unfold utcfromtimestamp_0. lia.
Qed.

(** C2, as the code has it.  However [select_and_start_cluster] ends, it
    has appended at most one [WorkerBuildInfo] to [worker_builds]: exactly
    one when it returns, none when it runs out of fuel, none or one when an
    exception leaves it; an appended record is for the platform, and it
    has a build only if a [create_worker_build] call of this dispatch
    succeeded.  A platform without enabled clusters is not given a record:
    the call raises [UnknownPlatformException] and changes nothing.  For a
    platform with clusters the dispatch ends when the clock advances, and
    it ends by returning (with its one record, whether a cluster took the
    build, every cluster was exhausted, or the creation failed with another
    exception than [OsbsException]) when the clusters fail with
    [OsbsException] only and none is configured with
    [max_concurrent_builds] zero. *)
Theorem select_and_start_cluster_appended_records (env : Env)
    (self : OrchestrateBuildPlugin) (plat : string) (st : State) :
  let clusters := get_enabled_clusters_for_platform self plat in
  let run fuel := select_and_start_cluster env self fuel plat st in
  let appended fuel (evs : list event) (bi : WorkerBuildInfo) :=
    worker_builds (run fuel).2 = worker_builds st ++ [bi] ∧ wb_platform bi = plat ∧
    (build bi ≠ None → ∃ c kwargs b, EvCreateWorkerBuild c kwargs (ExtOk b) ∈ evs) in
  (∀ fuel, ∃ evs,
     trace (run fuel).2 = trace st ++ evs ∧
     match (run fuel).1 with
     | Return _ => ∃ bi, appended fuel evs bi
     | Raise _ => worker_builds (run fuel).2 = worker_builds st ∨ ∃ bi, appended fuel evs bi
     | Timeout => worker_builds (run fuel).2 = worker_builds st
     end) ∧
  (clusters = [] →
   ∀ fuel, ∃ msg, run fuel = (Raise (UnknownPlatformException msg), st)) ∧
  (clusters ≠ [] → clock_advances env →
   ∃ fuel0, ∀ fuel, (fuel0 ≤ fuel)%nat → (run fuel).1 ≠ Timeout) ∧
  (clusters ≠ [] → clock_advances env → client_errors_only env →
   (∀ c, c ∈ clusters → max_concurrent_builds c ≠ 0) →
   ∃ fuel0, ∀ fuel, (fuel0 ≤ fuel)%nat → (run fuel).1 = Return ()).
Proof.
  intros clusters run appended.
  assert (∀ appended' st', dispatched plat st appended' st' →
            ∃ evs, trace st' = trace st ++ evs ∧
              if appended' : bool
              then ∃ bi, worker_builds st' = worker_builds st ++ [bi] ∧ wb_platform bi = plat ∧
                     (build bi ≠ None →
                      ∃ c kwargs b, EvCreateWorkerBuild c kwargs (ExtOk b) ∈ evs)
              else worker_builds st' = worker_builds st) as Hdispatched.
  { intros appended' st' [st'' Hw _ [evs Ht]|bi evs st'' Hw Hp _ Ht Hb].
    - by exists evs.
    - exists evs. split; [done|]. exists bi. repeat split; [done..|].
      intros Hsome. apply Hb. destruct (build bi); [by eexists|done]. }
  set (D := Z.max (Z.max (find_cluster_retry_delay self) (failure_retry_delay self))
                  (- env_now env (tick st))).
  assert (clusters ≠ [] → clock_advances env →
          ∀ fuel, (enough_fuel D (budget (new_retry_contexts self clusters)) ≤ fuel)%nat →
                  (run fuel).1 ≠ Timeout) as Hends.
  { intros Hne Hclock fuel Hfuel. unfold run, select_and_start_cluster. fold clusters.
    destruct clusters as [|c cs] eqn:Hclusters; [done|]. rewrite <- Hclusters in *.
    apply (select_loop_terminates env self Hclock D)
      with (b := budget (new_retry_contexts self clusters));
      [lia|lia|done|apply new_retry_contexts_contexts_of| |done|done].
    apply new_retry_contexts_retry_bounded. lia. }
  repeat split.
  - intros fuel. unfold appended.
    destruct (run fuel) as [o st'] eqn:Hrun.
    pose proof (select_and_start_cluster_outcome env self fuel plat st st' o Hrun) as Hout.
    simpl.
    destruct o as [[]|e|]; simpl in Hout.
    + by apply Hdispatched in Hout.
    + destruct Hout as [[|] Hout]; apply Hdispatched in Hout as (evs & Ht & Hw);
        exists evs; (split; [done|]); [by right|by left].
    + by apply Hdispatched in Hout.
  - intros Hnone fuel. unfold run, select_and_start_cluster. fold clusters.
    rewrite Hnone. by eexists.
  - intros Hne Hclock. eexists. by apply Hends.
  - intros Hne Hclock Hclient Hcap.
    exists (enough_fuel D (budget (new_retry_contexts self clusters))). intros fuel Hfuel.
    pose proof (Hends Hne Hclock fuel Hfuel) as Hend.
    assert (∀ e, (run fuel).1 ≠ Raise e) as Hraise.
    { unfold run, select_and_start_cluster. fold clusters.
      destruct clusters as [|c cs] eqn:Hclusters; [done|]. rewrite <- Hclusters in *.
      apply select_loop_client_errors; [done|]. intros c' Hc'.
      split; [by apply new_retry_contexts_contexts_of|by apply Hcap]. }
    destruct (run fuel).1 as [[]|e|]; [done|by destruct (Hraise e)|done].
Qed.

(** C2 at concrete runs: a dispatch that a cluster takes, and the fuel
    from which the dispatch of the example plugin returns. *)
Lemma select_and_start_cluster_appended_records_witness :
  let run fuel := select_and_start_cluster Examples.friendly_env Examples.example_plugin fuel
                    "x86_64" Examples.initial_state in
  (get_enabled_clusters_for_platform Examples.example_plugin "x86_64" ≠ [] ∧
   clock_advances Examples.friendly_env ∧ client_errors_only Examples.friendly_env ∧
   ∀ c, c ∈ get_enabled_clusters_for_platform Examples.example_plugin "x86_64" →
        max_concurrent_builds c ≠ 0) ∧
  (run 3%nat).1 = Return () ∧
  (∃ evs bi, trace (run 3%nat).2 = trace Examples.initial_state ++ evs ∧
     worker_builds (run 3%nat).2 = worker_builds Examples.initial_state ++ [bi] ∧
     wb_platform bi = "x86_64" ∧
     (build bi ≠ None → ∃ c kwargs b, EvCreateWorkerBuild c kwargs (ExtOk b) ∈ evs)) ∧
  ∃ fuel0, ∀ fuel, (fuel0 ≤ fuel)%nat → (run fuel).1 = Return ().
Proof.
  intros run. subst run. cbv beta.
  assert (get_enabled_clusters_for_platform Examples.example_plugin "x86_64" ≠ [])
    as Hne by discriminate.
  assert (clock_advances Examples.friendly_env) as Hclock.
  { intros n. simpl. unfold Examples.ticking_clock. lia. }
  assert (client_errors_only Examples.friendly_env) as Hclient by (by repeat split).
  assert (∀ c, c ∈ get_enabled_clusters_for_platform Examples.example_plugin "x86_64" →
               max_concurrent_builds c ≠ 0) as Hcap.
  { intros c Hc. simpl in Hc. apply elem_of_cons in Hc as [->|Hc]; [done|].
    apply list_elem_of_singleton in Hc as ->. done. }
  assert ((select_and_start_cluster Examples.friendly_env Examples.example_plugin 3
             "x86_64" Examples.initial_state).1 = Return ()) as Hrun
    by (vm_compute; reflexivity).
  pose proof (select_and_start_cluster_appended_records Examples.friendly_env
                Examples.example_plugin "x86_64" Examples.initial_state) as Hspec.
  cbv beta zeta in Hspec. destruct Hspec as (Hany & _ & _ & Hreturns).
  split; [done|]. split; [exact Hrun|]. split.
  - destruct (Hany 3%nat) as (evs & Ht & Hcase).
    rewrite Hrun in Hcase. destruct Hcase as (bi & Hw & Hp & Hb). by exists evs, bi.
  - exact (Hreturns Hne Hclock Hclient Hcap).
Defined.

(** The claim C2 as the specification words it, with one record for every
    platform processed, fails for a platform that the reactor
    configuration enables no cluster for: the dispatch raises
    [UnknownPlatformException] and appends nothing. *)
Lemma unknown_platform_appends_no_record :
  let run := select_and_start_cluster Examples.friendly_env Examples.x86_64_plugin 5
               "s390x" Examples.initial_state in
  get_enabled_clusters_for_platform Examples.x86_64_plugin "s390x" = [] ∧
  run.1 = Raise (UnknownPlatformException "No clusters found for platform s390x!") ∧
  worker_builds run.2 = worker_builds Examples.initial_state ∧
  ¬ ∃ bi, worker_builds run.2 = worker_builds Examples.initial_state ++ [bi].
Proof.
  intros run. split; [reflexivity|]. split; [reflexivity|]. split; [reflexivity|].
  intros [bi Hbi]. apply (f_equal length) in Hbi. rewrite length_app in Hbi.
  simpl in Hbi. lia.
Qed.

(* ===================================================================== *)
(** * The builder image of the worker builds                              *)
(* ===================================================================== *)

Lemma getitem_inr (value : json) (key : string) (v : json) :
  getitem value key = inr v ↔ ∃ members, value = JObject members ∧ members !! key = Some v.
Proof.
  destruct value as [| | | | |members]; simpl; try (split; [done|by intros (? & [=] & _)]).
  destruct (members !! key) as [v'|] eqn:Hkey.
  - split; [intros [= <-]; by exists members|]. intros (? & [= <-] & ?). congruence.
  - split; [done|]. intros (? & [= <-] & ?). congruence.
Qed.

(** X15. [set_build_image] succeeds exactly when the build JSON is a
    mapping whose [spec.strategy.customStrategy.from] is reached through
    mappings and holds a [name] and the [kind] ['DockerImage']; it then
    sets [build_image] in [config_kwargs] to that name and changes no other
    key. *)
Theorem set_build_image_sets_the_orchestrator_image (build_json : json)
    (config_kwargs config_kwargs' : gmap string json) :
  set_build_image build_json config_kwargs = inr config_kwargs' ↔
  ∃ (members spec strategy custom_strategy from : gmap string json) (build_name : json),
    build_json = JObject members ∧
    members !! "spec" = Some (JObject spec) ∧
    spec !! "strategy" = Some (JObject strategy) ∧
    strategy !! "customStrategy" = Some (JObject custom_strategy) ∧
    custom_strategy !! "from" = Some (JObject from) ∧
    from !! "name" = Some build_name ∧
    from !! "kind" = Some (JString "DockerImage") ∧
    config_kwargs' = <["build_image" := build_name]> config_kwargs.
Proof.
  split.
  - destruct build_json as [| | | | |members]; try done. unfold set_build_image.
    destruct (members !! "spec") as [[| | | | |spec]|] eqn:Hspec;
      cbn [default from_option id getitems getitem]; try done.
    destruct (spec !! "strategy") as [[| | | | |strategy]|] eqn:Hstrategy;
      cbn [getitems getitem]; try done.
    destruct (strategy !! "customStrategy") as [[| | | | |custom]|] eqn:Hcustom;
      cbn [getitems getitem]; try done.
    destruct (custom !! "from") as [[| | | | |from]|] eqn:Hfrom;
      cbn [getitems getitem]; try done.
    destruct (from !! "name") as [build_name|] eqn:Hname; [|done].
    destruct (from !! "kind") as [build_kind|] eqn:Hkind; [|done].
    destruct build_kind as [| | |kind| |]; try done.
    destruct (String.eqb_spec kind "DockerImage") as [->|Hne]; [|done].
    intros [= <-]. by exists members, spec, strategy, custom, from, build_name.
  - intros (members & spec & strategy & custom & from & build_name
            & -> & Hspec & Hstrategy & Hcustom & Hfrom & Hname & Hkind & ->).
    unfold set_build_image. rewrite Hspec. cbn [default from_option id getitems getitem].
    rewrite Hstrategy. cbn [getitems getitem]. rewrite Hcustom. cbn [getitems getitem].
    rewrite Hfrom. cbn [getitems getitem]. by rewrite Hname, Hkind.
Qed.

Lemma set_build_image_sets_the_orchestrator_image_witness :
  set_build_image Examples.orchestrator_build_json {[ "namespace" := JString "worker" ]}
  = inr {[ "build_image" := JString "buildroot:latest"; "namespace" := JString "worker" ]}.
Proof.
  apply set_build_image_sets_the_orchestrator_image.
  eexists _, _, _, _, _, _. split; [reflexivity|].
  repeat (split; [reflexivity|]). reflexivity.
Defined.

(** X16. A build JSON without [spec] (or with a null [spec]) does not
    give the [RuntimeError] that the plugin raises for a malformed build:
    [get("spec")] is [None], whose subscript raises [TypeError], which the
    handler of [KeyError] does not catch. *)
Theorem set_build_image_without_spec (members : gmap string json)
    (config_kwargs : gmap string json) :
  members !! "spec" = None ∨ members !! "spec" = Some JNull →
  set_build_image (JObject members) config_kwargs = inl TypeError.
Proof. unfold set_build_image. by intros [-> | ->]. Qed.

Lemma set_build_image_without_spec_witness :
  ({[ "kind" := JString "Build" ]} : gmap string json) !! "spec" = None ∧
  set_build_image (JObject {[ "kind" := JString "Build" ]}) ∅ = inl TypeError.
Proof.
  assert (({[ "kind" := JString "Build" ]} : gmap string json) !! "spec" = None) as Hnone
    by reflexivity.
  split; [exact Hnone|].
  exact (set_build_image_without_spec {[ "kind" := JString "Build" ]} ∅ (or_introl Hnone)).
Defined.
